(** * SwachhAI: the request orchestrator and the audio container builder

    A shallow embedding of [src/App.jsx].  The file holds two versions of the
    application one after the other; they share [base64ToArrayBuffer] and
    [pcmToWav] verbatim and differ in [fetchWithRetry], in
    [generateAndPlayAudio] and in the weight label.  The shared code is
    embedded once, the rest once per version, in [App1] (the first version,
    model gemini-2.0-flash-exp) and [App2] (the second one, with a separate
    text-to-speech endpoint).

    JavaScript numbers that are byte values, offsets, lengths, sample rates
    and HTTP status codes are integers ([Z] or [nat]); the monetary value and
    the weight are binary64 floats ([PrimFloat]).  The sample rate that
    [parseInt] reads is rounded to a binary64 first and then taken as the
    integer it denotes.  Typed arrays and array buffers are lists of
    integers, updated by index. *)

From Equations Require Import Equations.
From Stdlib Require Import ZArith Lia Floats Uint63 String Ascii List DecimalString.
From stdpp Require Import base option list strings relations.
Import ListNotations.

#[local] Set Warnings "-inexact-float,-register-all".
#[local] Open Scope Z_scope.

(** ** Array buffers and data views *)

(** An [ArrayBuffer] is the list of its bytes, each in [0, 255];
    [new ArrayBuffer(n)] is zero-filled. *)
Definition ArrayBuffer (byteLength : nat) : list Z := replicate byteLength 0.

(** The bytes of the low [8 * n] bits of [value], least significant first. *)
Fixpoint bytesLE (n : nat) (value : Z) : list Z :=
  match n with
  | O => []
  | S n' => value mod 256 :: bytesLE n' (value / 256)
  end.

(** Byte order of a multi-byte [DataView] access: the [littleEndian] flag. *)
Definition ordered (littleEndian : bool) (bs : list Z) : list Z :=
  if littleEndian then bs else rev bs.

(** Writing [bs] at [offset], one byte after the other. *)
Fixpoint writeBytes (view : list Z) (offset : nat) (bs : list Z) : list Z :=
  match bs with
  | [] => view
  | b :: bs' => writeBytes (<[offset := b]> view) (S offset) bs'
  end.

(** [DataView.prototype.set*]: a [RangeError] ([None]) when the access does
    not fit in the view, otherwise the value is reduced modulo [2^(8 n)] and
    stored. [setInt16] stores the two's complement of its argument, which is
    the same two bytes as those of the argument modulo [2^16]. *)
Definition setBytes (n : nat) (view : list Z) (byteOffset : nat) (value : Z)
    (littleEndian : bool) : option (list Z) :=
  if decide (byteOffset + n <= length view)%nat
  then Some (writeBytes view byteOffset (ordered littleEndian (bytesLE n value)))
  else None.

Definition setUint8 (view : list Z) (byteOffset : nat) (value : Z) : option (list Z) :=
  setBytes 1 view byteOffset value true.
Definition setUint16 := setBytes 2.
Definition setInt16 := setBytes 2.
Definition setUint32 := setBytes 4.

(** [DataView.prototype.getUint*]: reading back, little-endian when asked. *)
Fixpoint fromBytesLE (bs : list Z) : Z :=
  match bs with
  | [] => 0
  | b :: bs' => b + 256 * fromBytesLE bs'
  end.

Definition getBytes (n : nat) (view : list Z) (byteOffset : nat)
    (littleEndian : bool) : option Z :=
  if decide (byteOffset + n <= length view)%nat
  then Some (fromBytesLE (ordered littleEndian (take n (drop byteOffset view))))
  else None.

Definition getUint16 := getBytes 2.
Definition getUint32 := getBytes 4.

(** [ToInt16] of an unsigned 16-bit pattern. *)
Definition toInt16 (u : Z) : Z := if u <? 32768 then u else u - 65536.

Definition getInt16 (view : list Z) (byteOffset : nat) (littleEndian : bool) : option Z :=
  toInt16 <$> getBytes 2 view byteOffset littleEndian.

(** The code units of an ASCII string, as [String.prototype.charCodeAt]
    gives them. *)
Definition charCodes (s : string) : list Z :=
  map (fun c => Z.of_nat (nat_of_ascii c)) (list_ascii_of_string s).

(** ** [pcmToWav] *)

(** An [Int16Array] is the list of its elements, each in [-32768, 32767]. *)
Definition int16 (v : Z) : Prop := -32768 <= v < 32768.

Definition byteLength (pcm16 : list Z) : nat := (2 * length pcm16)%nat.

Record Blob := mkBlob { blob_bytes : list Z; blob_type : string }.

(** The inner helper of [pcmToWav]:
    [for (i = 0; i < string.length; i++) view.setUint8(offset + i, string.charCodeAt(i))]. *)
Fixpoint writeString_from (i : nat) (codes : list Z) (view : list Z) (offset : nat)
    : option (list Z) :=
  match codes with
  | [] => Some view
  | c :: rest =>
      view' ← setUint8 view (offset + i) c;
      writeString_from (S i) rest view' offset
  end.

Definition writeString (view : list Z) (offset : nat) (s : string) : option (list Z) :=
  writeString_from 0 (charCodes s) view offset.

(** [for (i = 0; i < pcm16.length; i++) view.setInt16(dataOffset + i * 2, pcm16[i], true)],
    entered at index [i] with the elements from [i] on still to write. *)
Fixpoint writeSamples_from (i : nat) (rest : list Z) (view : list Z) (dataOffset : nat)
    : option (list Z) :=
  match rest with
  | [] => Some view
  | s :: rest' =>
      view' ← setInt16 view (dataOffset + i * 2) s true;
      writeSamples_from (S i) rest' view' dataOffset
  end.

(** The writes of [pcmToWav] on a view of the buffer, in source order. *)
Definition fillWav (view : list Z) (pcm16 : list Z) (sampleRate : Z) : option (list Z) :=
  let numChannels := 1 in
  let bytesPerSample := 2 in
  view ← writeString view 0 "RIFF";
  view ← setUint32 view 4 (36 + Z.of_nat (byteLength pcm16)) true;
  view ← writeString view 8 "WAVE";
  view ← writeString view 12 "fmt ";
  view ← setUint32 view 16 16 true;
  view ← setUint16 view 20 1 true;
  view ← setUint16 view 22 numChannels true;
  view ← setUint32 view 24 sampleRate true;
  view ← setUint32 view 28 (sampleRate * numChannels * bytesPerSample) true;
  view ← setUint16 view 32 (numChannels * bytesPerSample) true;
  view ← setUint16 view 34 (bytesPerSample * 8) true;
  view ← writeString view 36 "data";
  view ← setUint32 view 40 (Z.of_nat (byteLength pcm16)) true;
  let dataOffset := 44%nat in
  writeSamples_from 0 pcm16 view dataOffset.

(** [pcmToWav(pcm16, sampleRate)]: [None] stands for a [RangeError] of one of
    the [DataView] writes. *)
Definition pcmToWav (pcm16 : list Z) (sampleRate : Z) : option Blob :=
  let buffer := ArrayBuffer (44 + byteLength pcm16) in
  view ← fillWav buffer pcm16 sampleRate;
  Some (mkBlob view "audio/wav").

(** ** JavaScript values *)

(** The values that [JSON.parse] and the application's own literals produce.
    An object is the list of its properties in insertion order, each key
    once. *)
Inductive Value :=
| VUndefined
| VNull
| VBool (b : bool)
| VNum (x : float)
| VStr (s : string)
| VArr (items : list Value)
| VObj (props : list (string * Value)).

Inductive ErrorName := Error | TypeError | SyntaxError | RangeError | InvalidCharacterError.

(** A thrown exception: the constructor it was made with and its [message]. *)
Record Exn := mkExn { exn_name : ErrorName; exn_message : string }.

Inductive Outcome (A : Type) :=
| Return (a : A)
| Throw (e : Exn).
Arguments Return {A} a.
Arguments Throw {A} e.

(** The built-ins of the host that are taken as given: the decimal printer
    and the decimal readers of numbers, and the JSON reader ([None] is its
    [SyntaxError]). *)
Class Host := {
  Number_toString : float -> string;
  StringToNumber : string -> float;
  parseFloat_string : string -> float;
  JSON_parse : string -> option Value
}.

Definition is_zero (x : float) : bool :=
  match Prim2SF x with S754_zero _ => true | _ => false end.

Definition is_nan (x : float) : bool :=
  match Prim2SF x with S754_nan => true | _ => false end.

(** [ToBoolean]. *)
Definition truthy (v : Value) : bool :=
  match v with
  | VUndefined | VNull => false
  | VBool b => b
  | VNum x => negb (is_zero x || is_nan x)
  | VStr s => negb (String.eqb s "")
  | VArr _ | VObj _ => true
  end.

(** [a || b]. *)
Definition or_else (a b : Value) : Value := if truthy a then a else b.

Fixpoint assoc (key : string) (props : list (string * Value)) : Value :=
  match props with
  | [] => VUndefined
  | (k, v) :: rest => if String.eqb k key then v else assoc key rest
  end.

(** [v.key] for the property names the application reads, none of which is
    defined on the prototypes of strings, numbers, booleans or arrays. *)
Definition getProp (v : Value) (key : string) : Outcome Value :=
  match v with
  | VUndefined =>
      Throw (mkExn TypeError ("Cannot read properties of undefined (reading '" +:+ key +:+ "')"))
  | VNull =>
      Throw (mkExn TypeError ("Cannot read properties of null (reading '" +:+ key +:+ "')"))
  | VObj props => Return (assoc key props)
  | _ => Return VUndefined
  end.

(** [v?.key]. *)
Definition optProp (v : Value) (key : string) : Value :=
  match v with
  | VObj props => assoc key props
  | _ => VUndefined
  end.

(** [v?.[0]]. *)
Definition optFirst (v : Value) : Value :=
  match v with
  | VArr (x :: _) => x
  | VStr (String c _) => VStr (String c EmptyString)
  | VObj props => assoc "0" props
  | _ => VUndefined
  end.

Fixpoint join (sep : string) (parts : list string) : string :=
  match parts with
  | [] => ""
  | [p] => p
  | p :: rest => p +:+ sep +:+ join sep rest
  end.

(** [ToString]. *)
Fixpoint ToString `{Host} (v : Value) : string :=
  match v with
  | VUndefined => "undefined"
  | VNull => "null"
  | VBool true => "true"
  | VBool false => "false"
  | VNum x => Number_toString x
  | VStr s => s
  | VArr items =>
      join "," (map (fun x => match x with
                              | VUndefined | VNull => ""
                              | _ => ToString x
                              end) items)
  | VObj _ => "[object Object]"
  end.

(** [ToNumber]. *)
Definition ToNumber `{Host} (v : Value) : float :=
  match v with
  | VUndefined => nan
  | VNull => 0
  | VBool true => 1
  | VBool false => 0
  | VNum x => x
  | VStr s => StringToNumber s
  | VArr _ | VObj _ => StringToNumber (ToString v)
  end.

(** [parseFloat]: its argument is converted to a string first, and a number
    printed by [Number::toString] reads back as itself, up to the sign of
    zero. *)
Definition parseFloat `{Host} (v : Value) : float :=
  match v with
  | VNum x => if is_zero x then 0%float else x
  | _ => parseFloat_string (ToString v)
  end.

Definition string_of_Z (z : Z) : string := NilZero.string_of_int (Z.to_int z).
Definition string_of_nat (n : nat) : string := string_of_Z (Z.of_nat n).

(** ** Strings: [includes], [split], the rate pattern, [parseInt] *)

(** [s.includes(sub)]. *)
Fixpoint includes (s sub : string) : bool :=
  String.prefix sub s ||
  match s with
  | EmptyString => false
  | String _ s' => includes s' sub
  end.

(** [s.split(' ')[0]]: the characters before the first space. *)
Fixpoint firstWord (s : string) : string :=
  match s with
  | EmptyString => EmptyString
  | String c s' => if Ascii.eqb c " " then EmptyString else String c (firstWord s')
  end.

Definition isDigit (c : ascii) : bool :=
  let n := nat_of_ascii c in (48 <=? n)%nat && (n <=? 57)%nat.

(** The longest prefix of decimal digits: what [\d+] takes. *)
Fixpoint takeDigits (s : string) : string :=
  match s with
  | EmptyString => EmptyString
  | String c s' => if isDigit c then String c (takeDigits s') else EmptyString
  end.

Fixpoint dropChars (n : nat) (s : string) : string :=
  match n, s with
  | S n', String _ s' => dropChars n' s'
  | _, _ => s
  end.

(** [s.match(/rate=(\d+)/)]: the first capture group of the leftmost match,
    [None] when the pattern does not occur. *)
Fixpoint matchRate (s : string) : option string :=
  let here :=
    if String.prefix "rate=" s
    then match takeDigits (dropChars 5 s) with
         | EmptyString => None
         | digits => Some digits
         end
    else None in
  match here with
  | Some digits => Some digits
  | None =>
      match s with
      | EmptyString => None
      | String _ s' => matchRate s'
      end
  end.

(** The integer a string of decimal digits denotes. *)
Definition digitsValue (digits : string) : Z :=
  fold_left (fun acc c => 10 * acc + (Z.of_nat (nat_of_ascii c) - 48))
            (list_ascii_of_string digits) 0.

(** The Number [parseInt(digits, 10)] returns for a string of decimal
    digits: the binary64 nearest to the integer the digits denote, ties to
    even, and [+Infinity] from [2^1024 - 2^970] on. The rounding is that of
    the Standard Library's specification of binary64, the one it gives for
    the conversion of an integer to a float. (The language standard allows
    an implementation to read the digits after the 20th as zeros; the
    engines round the exact value.) *)
Definition parseIntNumber (digits : string) : spec_float :=
  binary_normalize prec emax (digitsValue digits) 0 false.

(** The integer of a Number as [setUint32] takes it before reducing it
    modulo [2^32]: the value of an integral Number, and [0] for [NaN] and
    the infinities. *)
Definition integerOf (x : spec_float) : Z :=
  match x with
  | S754_finite s m e => (if s then -1 else 1) * Z.shiftl (Zpos m) e
  | _ => 0
  end.

(** [parseInt(digits, 10)], as the integer [pcmToWav] receives. The caller
    hands the Number to [pcmToWav] only, which hands it to [setUint32],
    itself and multiplied by [numChannels * bytesPerSample = 2]. The product
    of an integral Number by 2 is exact below [2^1023]; from there on it is
    [+Infinity], stored as [0], and twice the integer is a multiple of
    [2^32], stored as [0] too. *)
Definition parseInt (digits : string) : Z := integerOf (parseIntNumber digits).

(** ** [atob] and [base64ToArrayBuffer] *)

Definition isAsciiWhitespace (c : ascii) : bool :=
  let n := nat_of_ascii c in
  (n =? 9)%nat || (n =? 10)%nat || (n =? 12)%nat || (n =? 13)%nat || (n =? 32)%nat.

(** The value of a character of the base64 alphabet. *)
Definition base64Value (c : ascii) : option Z :=
  let n := Z.of_nat (nat_of_ascii c) in
  if (65 <=? n) && (n <=? 90) then Some (n - 65)
  else if (97 <=? n) && (n <=? 122) then Some (n - 71)
  else if (48 <=? n) && (n <=? 57) then Some (n + 4)
  else if n =? 43 then Some 62
  else if n =? 47 then Some 63
  else None.

(** Four sextets give three bytes; a tail of three gives two bytes and a tail
    of two gives one, the spare low bits being dropped. *)
Fixpoint decodeSextets (vals : list Z) : list Z :=
  match vals with
  | a :: b :: c :: d :: rest =>
      let n := ((a * 64 + b) * 64 + c) * 64 + d in
      n / 65536 :: (n / 256) mod 256 :: n mod 256 :: decodeSextets rest
  | [a; b; c] =>
      let n := (a * 64 + b) * 64 + c in
      [n / 1024; (n / 4) mod 256]
  | [a; b] => [(a * 64 + b) / 16]
  | _ => []
  end.

(** Removes one or two trailing [=] signs. *)
Definition stripPadding (cs : list ascii) : list ascii :=
  match rev cs with
  | "="%char :: "="%char :: r => rev r
  | "="%char :: r => rev r
  | _ => cs
  end.

(** [atob(data)]: the forgiving base64 decoding of the HTML standard; the
    result is the list of the code units of the binary string. *)
Definition atob (data : string) : Outcome (list Z) :=
  let failure :=
    Throw (mkExn InvalidCharacterError
             "Failed to execute 'atob' on 'Window': The string to be decoded is not correctly encoded.") in
  let cs := filter (fun c => negb (isAsciiWhitespace c)) (list_ascii_of_string data) in
  let cs := if (length cs mod 4 =? 0)%nat then stripPadding cs else cs in
  if (length cs mod 4 =? 1)%nat then failure
  else match mapM base64Value cs with
       | None => failure
       | Some vals => Return (decodeSextets vals)
       end.

(** [base64ToArrayBuffer]: the bytes are the code units of [atob(base64)],
    each stored in a [Uint8Array] of the same length. *)
Definition base64ToArrayBuffer `{Host} (base64 : Value) : Outcome (list Z) :=
  match atob (ToString base64) with
  | Throw e => Throw e
  | Return binaryString => Return (map (fun c => c mod 256) binaryString)
  end.

(** [new Int16Array(buffer)]: a [RangeError] when the byte length is odd,
    otherwise the samples in the byte order of the platform, little-endian
    here. *)
Fixpoint int16Pairs (bytes : list Z) : list Z :=
  match bytes with
  | lo :: hi :: rest => toInt16 (lo + 256 * hi) :: int16Pairs rest
  | _ => []
  end.

Definition Int16Array (buffer : list Z) : Outcome (list Z) :=
  if Nat.even (length buffer) then Return (int16Pairs buffer)
  else Throw (mkExn RangeError "byte length of Int16Array should be a multiple of 2").

(** ** Numbers: [Math.round] and [Number.prototype.toFixed] *)

Definition float_of_Z (z : Z) : float :=
  if z <? 0 then (- PrimFloat.of_uint63 (Uint63.of_Z (- z)))%float
  else PrimFloat.of_uint63 (Uint63.of_Z z).

(** [Math.round(x)]: the integer nearest to [x], the larger one on a tie;
    zeros, infinities and [NaN] are returned as they are. A finite
    [x = m * 2^e] with [e < 0] has [|x| < 2^53], so the result is exact. *)
Definition Math_round (x : float) : float :=
  match Prim2SF x with
  | S754_finite s m e =>
      if 0 <=? e then x
      else
        let d := 2 ^ (- e) in
        let num := if s then - Z.pos m else Z.pos m in
        let n := (2 * num + d) / (2 * d) in
        if (n =? 0) && s then (-0)%float else float_of_Z n
  | _ => x
  end.

Fixpoint zeros (n : nat) : string :=
  match n with
  | O => EmptyString
  | S n' => String "0" (zeros n')
  end.

(** [x.toFixed(fractionDigits)]: with [n] the integer for which
    [n / 10^f - |x|] is nearest to zero (the larger one on a tie), the
    digits of [n] with a point before the last [f] of them. *)
Definition toFixed `{Host} (x : float) (fractionDigits : nat) : string :=
  match Prim2SF x with
  | S754_nan => "NaN"
  | S754_infinity s => if s then "-Infinity" else "Infinity"
  | sf =>
      if (1e21 <=? abs x)%float then Number_toString x
      else
        let scale := 10 ^ Z.of_nat fractionDigits in
        let n :=
          match sf with
          | S754_finite _ m e =>
              if 0 <=? e then Z.pos m * 2 ^ e * scale
              else (2 * (Z.pos m * scale) + 2 ^ (- e)) / (2 * 2 ^ (- e))
          | _ => 0
          end in
        let sign := match sf with S754_finite true _ _ => "-" | _ => "" end in
        let digits := string_of_Z n in
        let k := String.length digits in
        let digits := if (k <=? fractionDigits)%nat
                      then zeros (fractionDigits + 1 - k) +:+ digits else digits in
        let k := String.length digits in
        if (fractionDigits =? 0)%nat then sign +:+ digits
        else sign +:+ substring 0 (k - fractionDigits) digits +:+ "."
                  +:+ substring (k - fractionDigits) fractionDigits digits
  end.

(** ** The application state and its effects *)

(** What the application does to the outside world, in the order it does it. *)
Inductive Event :=
| Fetch (url : string) (payload : Value)
| SetTimeout (ms : Z)
| CreateObjectURL (blob : Blob)
| NewAudio (src : Blob)
| Play
| Pause.

(** An [Audio] element: the blob behind its object URL and its [paused]
    attribute. Both handlers the application installs on it, [onended] and
    [onpause], are [() => setIsAudioPlaying(false)]. *)
Record Audio := mkAudio { audio_src : Blob; audio_paused : bool }.

(** The object passed to [setPrediction]. *)
Record Prediction := mkPrediction {
  objectName : Value;
  category : Value;
  valueINR : string;
  weightKg : Value;
  message : Value
}.

(** The [useState] cells and the [audioRef] of the component, and the trace
    of its effects. The camera and file-input cells, which no function below
    reads, are left out. *)
Record AppState := mkApp {
  base64Image : Value;
  prediction : option Prediction;
  isLoading : bool;
  error : option string;
  selectedLanguageCode : string;
  isAudioGenerating : bool;
  isAudioPlaying : bool;
  audioRef : option Audio;
  events : list Event
}.

Definition setBase64Image (v : Value) (st : AppState) : AppState :=
  mkApp v (prediction st) (isLoading st) (error st) (selectedLanguageCode st)
        (isAudioGenerating st) (isAudioPlaying st) (audioRef st) (events st).
Definition setPrediction (v : option Prediction) (st : AppState) : AppState :=
  mkApp (base64Image st) v (isLoading st) (error st) (selectedLanguageCode st)
        (isAudioGenerating st) (isAudioPlaying st) (audioRef st) (events st).
Definition setIsLoading (v : bool) (st : AppState) : AppState :=
  mkApp (base64Image st) (prediction st) v (error st) (selectedLanguageCode st)
        (isAudioGenerating st) (isAudioPlaying st) (audioRef st) (events st).
Definition setError (v : option string) (st : AppState) : AppState :=
  mkApp (base64Image st) (prediction st) (isLoading st) v (selectedLanguageCode st)
        (isAudioGenerating st) (isAudioPlaying st) (audioRef st) (events st).
Definition setSelectedLanguageCode (v : string) (st : AppState) : AppState :=
  mkApp (base64Image st) (prediction st) (isLoading st) (error st) v
        (isAudioGenerating st) (isAudioPlaying st) (audioRef st) (events st).
Definition setIsAudioGenerating (v : bool) (st : AppState) : AppState :=
  mkApp (base64Image st) (prediction st) (isLoading st) (error st) (selectedLanguageCode st)
        v (isAudioPlaying st) (audioRef st) (events st).
Definition setIsAudioPlaying (v : bool) (st : AppState) : AppState :=
  mkApp (base64Image st) (prediction st) (isLoading st) (error st) (selectedLanguageCode st)
        (isAudioGenerating st) v (audioRef st) (events st).
Definition setAudioRef (v : option Audio) (st : AppState) : AppState :=
  mkApp (base64Image st) (prediction st) (isLoading st) (error st) (selectedLanguageCode st)
        (isAudioGenerating st) (isAudioPlaying st) v (events st).
Definition emit (e : Event) (st : AppState) : AppState :=
  mkApp (base64Image st) (prediction st) (isLoading st) (error st) (selectedLanguageCode st)
        (isAudioGenerating st) (isAudioPlaying st) (audioRef st) (events st ++ [e]).

(** [audioRef.current.pause()] on the element the ref holds: a playing
    element becomes paused and its [onpause] handler clears
    [isAudioPlaying]; on a paused element nothing happens. *)
Definition pauseCurrent (st : AppState) : AppState :=
  match audioRef st with
  | None => st
  | Some a =>
      let st := emit Pause st in
      if audio_paused a then st
      else setIsAudioPlaying false (setAudioRef (Some (mkAudio (audio_src a) true)) st)
  end.

(** The playing element reaches its end: it becomes paused and its [onpause]
    and [onended] handlers run. *)
Definition audioEnded (st : AppState) : AppState :=
  match audioRef st with
  | Some a =>
      if audio_paused a then st
      else setIsAudioPlaying false (setAudioRef (Some (mkAudio (audio_src a) true)) st)
  | None => st
  end.

(** ** The network *)

(** A [Response]: [json] is what [response.json()] settles to. *)
Record Response := mkResponse {
  status : Z;
  statusText : string;
  json : Outcome Value
}.

(** [response.ok]. *)
Definition ok (r : Response) : bool := (200 <=? status r) && (status r <=? 299).

(** What one call of [fetch] settles to: a rejection (a transport failure)
    or a response. *)
Inductive FetchOutcome :=
| FetchRejected (error : Exn)
| FetchResolved (response : Response).

(** What the surroundings do during one run of a handler: the outcome of the
    attempt numbered [n] of the request it sends, and whether the browser
    refuses [play()]. *)
Record Env := mkEnv {
  server : nat -> FetchOutcome;
  playRejected : bool
}.

(** A computation of an [async] function, run to its end: it reads and
    writes the state and returns or throws. *)
Definition M (A : Type) : Type := AppState -> Outcome A * AppState.

#[export] Instance M_ret : MRet M := fun A a st => (Return a, st).
#[export] Instance M_bind : MBind M := fun A B f m st =>
  match m st with
  | (Return a, st') => f a st'
  | (Throw e, st') => (Throw e, st')
  end.

Definition throw {A} (e : Exn) : M A := fun st => (Throw e, st).
Definition lift {A} (o : Outcome A) : M A := fun st => (o, st).
Definition modify (f : AppState -> AppState) : M () := fun st => (Return (), f st).

(** [try { body } catch (e) { handler e }]. *)
Definition tryCatch {A} (body : M A) (handler : Exn -> M A) : M A := fun st =>
  match body st with
  | (Throw e, st') => handler e st'
  | r => r
  end.

(** [try { body } finally { final }], for a [final] that does not throw. *)
Definition tryFinally {A} (body : M A) (final : AppState -> AppState) : M A := fun st =>
  let '(r, st') := body st in (r, final st').

(** [pcmToWav] as the callers see it: a failed [DataView] write is the
    [RangeError] it throws. *)
Definition pcmToWav_outcome (pcm16 : list Z) (sampleRate : Z) : Outcome Blob :=
  match pcmToWav pcm16 sampleRate with
  | Some blob => Return blob
  | None => Throw (mkExn RangeError "Offset is outside the bounds of the DataView")
  end.

(** [clearAll], without its camera part. *)
Definition clearAll (st : AppState) : AppState :=
  let st := setBase64Image VNull st in
  let st := setPrediction None st in
  let st := setError None st in
  let st := setIsLoading false st in
  match audioRef st with
  | Some _ => setAudioRef None (pauseCurrent st)
  | None => st
  end.

(** The state of a freshly mounted component. *)
Definition initialState : AppState :=
  mkApp VNull None false None "en-US" false false None [].

(** The prompt of [classifyWaste], the same in both versions. *)
Definition userPrompt (languageLabel : string) : string :=
  "You are a specialized waste-to-wealth classifier. Analyze the provided image of a waste item. Determine the common name of the object (e.g., Plastic Bottle, Cardboard Box), its primary material (e.g., Plastic, Paper, Metal), estimate a simple monetary value in USD (as a number, e.g., 0.02, based on typical recycling commodity prices), and include the approximate weight in kilograms (as a number, e.g., 0.5) that this value corresponds to. Provide clear, concise, disposal instructions for a ragpicker/user. IMPORTANT: Provide the disposal instructions IN "
    +:+ languageLabel +:+ ".".

Definition requiredFields : list string :=
  ["objectName"; "material"; "estimatedValueUSD"; "estimatedWeightKg"; "disposalInstructions"].

Definition schemaProperty (type : string) : Value := VObj [("type", VStr type)].

Definition describedProperty (type description : string) : Value :=
  VObj [("type", VStr type); ("description", VStr description)].

(** [label.split(' ')[0]]. *)
Definition firstWordOf (label : Value) : Outcome string :=
  match label with
  | VStr s => Return (firstWord s)
  | VUndefined =>
      Throw (mkExn TypeError "Cannot read properties of undefined (reading 'split')")
  | VNull => Throw (mkExn TypeError "Cannot read properties of null (reading 'split')")
  | _ => Throw (mkExn TypeError "voiceConfig.label.split is not a function")
  end.

(** [mimeType.startsWith(prefix)]. *)
Definition startsWith (v : Value) (prefix : string) : Outcome bool :=
  match v with
  | VStr s => Return (String.prefix prefix s)
  | VUndefined =>
      Throw (mkExn TypeError "Cannot read properties of undefined (reading 'startsWith')")
  | VNull => Throw (mkExn TypeError "Cannot read properties of null (reading 'startsWith')")
  | _ => Throw (mkExn TypeError "mimeType.startsWith is not a function")
  end.

(** [response?.candidates?.[0]?.content?.parts?.[0]]. *)
Definition firstPart (response : Value) : Value :=
  optFirst (optProp (optProp (optFirst (optProp response "candidates")) "content") "parts").

(** * The first version of the application *)

Module App1.
Section WithConfiguration.
Context `{Host}.

(** The credential, [GEMINI_API_KEY] in the source, where it is a string
    literal; the empty string is the only one that [!GEMINI_API_KEY] takes
    for absent. *)
Variable GEMINI_API_KEY : string.
Variable env : Env.

Definition INR_PER_USD : float := 83.
Definition MODEL_NAME : string := "gemini-2.0-flash-exp".
Definition API_URL : string :=
  "https://generativelanguage.googleapis.com/v1beta/models/" +:+ MODEL_NAME
    +:+ ":generateContent?key=" +:+ GEMINI_API_KEY.
Definition MAX_RETRIES : nat := 3.

(** [fetchWithRetry(url, payload, retries)]. The [catch] block of the source
    is [handler]; it receives what is thrown inside [try], which includes the
    [API Error] the [try] block itself throws. The promises returned from
    inside [try] (the recursive call and [response.json()] on success) are
    not awaited there, so their rejections pass the [catch] block by. *)
Equations? fetchWithRetry (url : string) (payload : Value) (retries : nat) (st : AppState)
  : Outcome Value * AppState by wf (MAX_RETRIES - retries)%nat lt :=
fetchWithRetry url payload retries st :=
  let delay := 2 ^ Z.of_nat retries * 1000 in
  if negb (truthy (VStr GEMINI_API_KEY))
  then (Throw (mkExn Error "Missing API Key."), st)
  else
    let handler (error : Exn) (st : AppState) :=
      match decide (retries < MAX_RETRIES)%nat with
      | left _ => fetchWithRetry url payload (retries + 1) (emit (SetTimeout delay) st)
      | right _ =>
          (Throw (mkExn Error ("Failed after " +:+ string_of_nat MAX_RETRIES
                                 +:+ " attempts: " +:+ exn_message error)), st)
      end in
    let st := emit (Fetch url payload) st in
    match server env retries with
    | FetchRejected error => handler error st
    | FetchResolved response =>
        if negb (ok response) then
          match json response with
          | Throw error => handler error st
          | Return errorBody =>
              match decide ((status response = 429 \/ status response = 503)
                            /\ (retries < MAX_RETRIES)%nat) with
              | left _ =>
                  fetchWithRetry url payload (retries + 1) (emit (SetTimeout delay) st)
              | right _ =>
                  match getProp errorBody "error" with
                  | Throw error => handler error st
                  | Return err =>
                      handler
                        (mkExn Error
                           ("API Error " +:+ string_of_Z (status response) +:+ ": "
                              +:+ ToString (or_else (optProp err "message")
                                                    (VStr (statusText response)))))
                        st
                  end
              end
          end
        else (json response, st)
    end.
Proof. all: unfold MAX_RETRIES in *; lia. Qed.


Definition VOICE_CONFIGS : list (string * Value) :=
  [("en-US", VObj [("name", VStr "Kore"); ("label", VStr "English (US)")]);
   ("hi-IN", VObj [("name", VStr "Puck"); ("label", VStr "Hindi (हिन्दी)")]);
   ("es-US", VObj [("name", VStr "Fenrir"); ("label", VStr "Spanish (Español)")]);
   ("fr-FR", VObj [("name", VStr "Kore"); ("label", VStr "French (Français)")])].

Definition classifyPayload (base64 : Value) (languageLabel : string) : Value :=
  VObj
    [("contents",
      VArr [VObj [("role", VStr "user");
                  ("parts",
                   VArr [VObj [("text", VStr (userPrompt languageLabel))];
                         VObj [("inlineData",
                                VObj [("mimeType", VStr "image/jpeg");
                                      ("data", base64)])]])]]);
     ("generationConfig",
      VObj [("responseMimeType", VStr "application/json");
            ("responseSchema",
             VObj [("type", VStr "OBJECT");
                   ("properties",
                    VObj [("objectName", schemaProperty "STRING");
                          ("material", schemaProperty "STRING");
                          ("estimatedValueUSD", schemaProperty "NUMBER");
                          ("estimatedWeightKg", schemaProperty "NUMBER");
                          ("disposalInstructions", schemaProperty "STRING")]);
                   ("required", VArr (map VStr requiredFields))])])].

(** [classifyWaste(base64, languageCode)]. *)
Definition classifyWaste (base64 : Value) (languageCode : string) : M Value :=
  let voiceConfig := assoc languageCode VOICE_CONFIGS in
  label ← lift (getProp voiceConfig "label");
  languageLabel ← lift (firstWordOf label);
  let payload := classifyPayload base64 languageLabel in
  response ← fetchWithRetry API_URL payload 0;
  candidates ← lift (getProp response "candidates");
  let candidate := optFirst candidates in
  let text := optProp (optFirst (optProp (optProp candidate "content") "parts")) "text" in
  if truthy candidate && truthy text
  then
    tryCatch
      (match JSON_parse (ToString text) with
       | Some result => mret result
       | None => throw (mkExn SyntaxError "Unexpected token in JSON")
       end)
      (fun e => throw (mkExn Error "Could not interpret AI classification data."))
  else throw (mkExn Error "AI classification failed to return content.").

(** [analyzeWaste(base64, languageCode)]. *)
Definition analyzeWaste (base64 : Value) (languageCode : string) (st : AppState) : AppState :=
  if negb (truthy base64)
  then setError (Some "Image data missing. Please capture or upload an image.") st
  else
    let st := setIsLoading true st in
    let st := setError None st in
    let st := setPrediction None st in
    snd (tryFinally
           (tryCatch
              (result ← classifyWaste base64 languageCode;
               usd ← lift (getProp result "estimatedValueUSD");
               let estimatedValueINR :=
                 (Math_round (ToNumber (or_else usd (VNum 0)) * INR_PER_USD * 100) / 100)%float in
               kg ← lift (getProp result "estimatedWeightKg");
               let estimatedWeightKg := or_else kg (VNum 0) in
               name ← lift (getProp result "objectName");
               material ← lift (getProp result "material");
               instructions ← lift (getProp result "disposalInstructions");
               modify (setPrediction
                         (Some (mkPrediction name material (toFixed estimatedValueINR 2)
                                             estimatedWeightKg instructions))))
              (fun err =>
                 modify (setError
                           (Some (if String.eqb (exn_message err) ""
                                  then "Failed to analyze image."
                                  else exn_message err)))))
           (setIsLoading false) st).

(** [handleFileChange]: [image] is the base64 payload of the chosen file
    when that file is an image. *)
Definition handleFileChange (image : option Value) (st : AppState) : AppState :=
  match image with
  | Some base64String =>
      let languageCode := selectedLanguageCode st in
      let st := setError None st in
      let st := setBase64Image base64String st in
      analyzeWaste base64String languageCode st
  | None => setError (Some "Please upload a valid image file.") st
  end.

(** [capturePhoto]: [frame] is the base64 payload of the captured frame when
    the video stream is ready. *)
Definition capturePhoto (frame : option Value) (st : AppState) : AppState :=
  match frame with
  | Some base64String =>
      let languageCode := selectedLanguageCode st in
      let st := setBase64Image base64String st in
      analyzeWaste base64String languageCode st
  | None => setError (Some "Video stream not ready.") st
  end.

(** [updateLanguage]: the handler of the language selector. *)
Definition updateLanguage (newLanguageCode : string) (st : AppState) : AppState :=
  let image := base64Image st in
  let st := setSelectedLanguageCode newLanguageCode st in
  if truthy image then analyzeWaste image newLanguageCode st else st.

Definition speechPayload (text voiceName : Value) : Value :=
  VObj
    [("contents", VArr [VObj [("parts", VArr [VObj [("text", text)]])]]);
     ("generationConfig",
      VObj [("responseModalities", VArr [VStr "AUDIO"]);
            ("speechConfig",
             VObj [("voiceConfig",
                    VObj [("prebuiltVoiceConfig", VObj [("voiceName", voiceName)])])])])].

(** [audioRef.current.play()]: the element starts playing, unless the
    browser refuses; the rejected promise has no handler here. *)
Definition play (st : AppState) : AppState :=
  let st := emit Play st in
  match audioRef st with
  | Some a => if playRejected env then st
              else setAudioRef (Some (mkAudio (audio_src a) false)) st
  | None => st
  end.

(** [generateAndPlayAudio(text)]. *)
Definition generateAndPlayAudio (text : Value) (st : AppState) : AppState :=
  if negb (truthy text) then setError (Some "No instructions to play.") st
  else if isAudioPlaying st && bool_decide (is_Some (audioRef st)) then pauseCurrent st
  else
    let st := setIsAudioGenerating true st in
    let st := setIsAudioPlaying false st in
    let st := pauseCurrent st in
    let languageCode := selectedLanguageCode st in
    snd (tryFinally
           (tryCatch
              (let voiceConfig := assoc languageCode VOICE_CONFIGS in
               voiceName ← lift (getProp voiceConfig "name");
               let payload := speechPayload text voiceName in
               response ← fetchWithRetry API_URL payload 0;
               let part := firstPart response in
               let audioData := optProp (optProp part "inlineData") "data" in
               if truthy audioData then
                 let sampleRate := 24000 in
                 pcmDataBuffer ← lift (base64ToArrayBuffer audioData);
                 pcm16 ← lift (Int16Array pcmDataBuffer);
                 wavBlob ← lift (pcmToWav_outcome pcm16 sampleRate);
                 modify (emit (CreateObjectURL wavBlob));;
                 modify (emit (NewAudio wavBlob));;
                 modify (setAudioRef (Some (mkAudio wavBlob true)));;
                 modify (setIsAudioGenerating false);;
                 modify (setIsAudioPlaying true);;
                 modify play
               else throw (mkExn Error "API failed to return audio data."))
              (fun error =>
                 modify (setError (Some ("Voice generation unavailable. "
                                           +:+ exn_message error)))))
           (setIsAudioGenerating false) st).

(** The weight label of [renderPredictionBox]. *)
Definition displayWeight (p : Prediction) : string :=
  let weightValue := parseFloat (or_else (weightKg p) (VNum 0)) in
  if (weightValue =? 0)%float then "None detectable"
  else if (weightValue <? 0.1)%float then toFixed (weightValue * 1000)%float 0 +:+ "g"
  else toFixed weightValue 2 +:+ " kg".

(** [handleAudioButtonClick] of [renderPredictionBox], for the prediction on
    display. *)
Definition handleAudioButtonClick (p : Prediction) (st : AppState) : AppState :=
  if isAudioPlaying st && bool_decide (is_Some (audioRef st)) then pauseCurrent st
  else generateAndPlayAudio (message p) st.

End WithConfiguration.

(** The handlers that can run between two renders, each run to its end: a
    press of the audio button (shown with a prediction, disabled while
    [isAudioGenerating] or without a message), the end of the playing
    element, a reset (also the first step of [startCamera]), a press of the
    identify button, the choice of a file, a capture and a change of
    language. *)
Inductive step `{Host} (key : string) : AppState -> AppState -> Prop :=
| step_click env p st :
    prediction st = Some p -> isAudioGenerating st = false -> truthy (message p) = true ->
    step key st (handleAudioButtonClick key env p st)
| step_ended st : step key st (audioEnded st)
| step_clearAll st : step key st (clearAll st)
| step_analyze env st :
    step key st (analyzeWaste key env (base64Image st) (selectedLanguageCode st) st)
| step_file env image st : step key st (handleFileChange key env image st)
| step_capture env frame st : step key st (capturePhoto key env frame st)
| step_language env code st : step key st (updateLanguage key env code st).

Definition reachable `{Host} (key : string) : AppState -> Prop :=
  rtc (step key) initialState.

End App1.

(** * The second version of the application *)

Module App2.
Section WithConfiguration.
Context `{Host}.

(** The credential, [GEMINI_API_KEY] in the source, where it is a string
    literal; the empty string is the only one that [!GEMINI_API_KEY] takes
    for absent. *)
Variable GEMINI_API_KEY : string.
Variable env : Env.

Definition INR_PER_USD : float := 83.
Definition API_URL_GEMINI : string :=
  "https://generativelanguage.googleapis.com/v1beta/models/gemini-2.5-flash-preview-05-20:generateContent?key="
    +:+ GEMINI_API_KEY.
Definition API_URL_TTS : string :=
  "https://generativelanguage.googleapis.com/v1beta/models/gemini-2.5-flash-preview-tts:generateContent?key="
    +:+ GEMINI_API_KEY.
Definition MAX_RETRIES : nat := 5.

(** [fetchWithRetry(url, payload, retries)], read as in the first version. *)
Equations? fetchWithRetry (url : string) (payload : Value) (retries : nat) (st : AppState)
  : Outcome Value * AppState by wf (MAX_RETRIES - retries)%nat lt :=
fetchWithRetry url payload retries st :=
  let delay := 2 ^ Z.of_nat retries * 1000 in
  if negb (truthy (VStr GEMINI_API_KEY)) && includes url "key="
  then (Throw (mkExn Error
                 "Missing API Key. Please update the GEMINI_API_KEY constant in the code."), st)
  else
    let handler (error : Exn) (st : AppState) :=
      match decide (retries < MAX_RETRIES)%nat with
      | left _ => fetchWithRetry url payload (retries + 1) (emit (SetTimeout delay) st)
      | right _ =>
          (Throw (mkExn Error ("Failed after " +:+ string_of_nat MAX_RETRIES
                                 +:+ " attempts: " +:+ exn_message error)), st)
      end in
    let st := emit (Fetch url payload) st in
    match server env retries with
    | FetchRejected error => handler error st
    | FetchResolved response =>
        if negb (ok response) then
          match json response with
          | Throw error => handler error st
          | Return errorBody =>
              match decide (status response = 429 /\ (retries < MAX_RETRIES)%nat) with
              | left _ =>
                  fetchWithRetry url payload (retries + 1) (emit (SetTimeout delay) st)
              | right _ =>
                  match getProp errorBody "error" with
                  | Throw error => handler error st
                  | Return err =>
                      handler
                        (mkExn Error
                           ("API Error " +:+ string_of_Z (status response) +:+ ": "
                              +:+ ToString (or_else (optProp err "message")
                                                    (VStr "Unknown error"))))
                        st
                  end
              end
          end
        else (json response, st)
    end.
Proof. all: unfold MAX_RETRIES in *; lia. Qed.


Definition VOICE_CONFIGS : list (string * Value) :=
  [("en-US", VObj [("name", VStr "Kore"); ("label", VStr "English (US)")]);
   ("hi-IN", VObj [("name", VStr "Achird"); ("label", VStr "Hindi (हिन्दी)")]);
   ("es-US", VObj [("name", VStr "Callirrhoe"); ("label", VStr "Spanish (Español)")]);
   ("fr-FR", VObj [("name", VStr "Umbriel"); ("label", VStr "French (Français)")])].

Definition classifyPayload (base64 : Value) (languageLabel : string) : Value :=
  VObj
    [("contents",
      VArr [VObj [("role", VStr "user");
                  ("parts",
                   VArr [VObj [("text", VStr (userPrompt languageLabel))];
                         VObj [("inlineData",
                                VObj [("mimeType", VStr "image/jpeg");
                                      ("data", base64)])]])]]);
     ("generationConfig",
      VObj [("responseMimeType", VStr "application/json");
            ("responseSchema",
             VObj [("type", VStr "OBJECT");
                   ("properties",
                    VObj [("objectName",
                           describedProperty "STRING" "The common name of the object.");
                          ("material",
                           describedProperty "STRING" "Primary material classification.");
                          ("estimatedValueUSD",
                           describedProperty "NUMBER"
                             "Estimated value of the recyclable material in USD.");
                          ("estimatedWeightKg",
                           describedProperty "NUMBER" "Estimated weight in kilograms.");
                          ("disposalInstructions",
                           describedProperty "STRING" "Clear, voice-friendly instructions.")]);
                   ("required", VArr (map VStr requiredFields))])])].

(** [classifyWaste(base64, languageCode)]. *)
Definition classifyWaste (base64 : Value) (languageCode : string) : M Value :=
  let voiceConfig := assoc languageCode VOICE_CONFIGS in
  label ← lift (getProp voiceConfig "label");
  languageLabel ← lift (firstWordOf label);
  let payload := classifyPayload base64 languageLabel in
  response ← fetchWithRetry API_URL_GEMINI payload 0;
  candidates ← lift (getProp response "candidates");
  let candidate := optFirst candidates in
  let text := optProp (optFirst (optProp (optProp candidate "content") "parts")) "text" in
  if truthy candidate && truthy text
  then
    tryCatch
      (match JSON_parse (ToString text) with
       | Some result => mret result
       | None => throw (mkExn SyntaxError "Unexpected token in JSON")
       end)
      (fun e => throw (mkExn Error "Could not interpret AI classification data."))
  else throw (mkExn Error "AI classification failed to return content.").

(** [analyzeWaste(base64, languageCode)]. *)
Definition analyzeWaste (base64 : Value) (languageCode : string) (st : AppState) : AppState :=
  if negb (truthy base64)
  then setError (Some "Image data missing. Please capture or upload an image.") st
  else
    let st := setIsLoading true st in
    let st := setError None st in
    let st := setPrediction None st in
    snd (tryFinally
           (tryCatch
              (result ← classifyWaste base64 languageCode;
               usd ← lift (getProp result "estimatedValueUSD");
               let estimatedValueINR :=
                 (Math_round (ToNumber (or_else usd (VNum 0)) * INR_PER_USD * 100) / 100)%float in
               kg ← lift (getProp result "estimatedWeightKg");
               let estimatedWeightKg := or_else kg (VNum 0) in
               name ← lift (getProp result "objectName");
               material ← lift (getProp result "material");
               instructions ← lift (getProp result "disposalInstructions");
               modify (setPrediction
                         (Some (mkPrediction name material (toFixed estimatedValueINR 2)
                                             estimatedWeightKg instructions))))
              (fun err =>
                 modify (setError
                           (Some (if String.eqb (exn_message err) ""
                                  then "Failed to analyze image using Gemini API. Check your API key or network."
                                  else exn_message err)))))
           (setIsLoading false) st).

(** [handleFileChange]: [image] is the base64 payload of the chosen file
    when that file is an image. *)
Definition handleFileChange (image : option Value) (st : AppState) : AppState :=
  match image with
  | Some base64String =>
      let languageCode := selectedLanguageCode st in
      let st := setError None st in
      let st := setBase64Image base64String st in
      analyzeWaste base64String languageCode st
  | None => setError (Some "Please upload a valid image file.") st
  end.

(** [capturePhoto]: [frame] is the base64 payload of the captured frame when
    the video stream is ready. *)
Definition capturePhoto (frame : option Value) (st : AppState) : AppState :=
  match frame with
  | Some base64String =>
      let languageCode := selectedLanguageCode st in
      let st := setBase64Image base64String st in
      analyzeWaste base64String languageCode st
  | None => setError (Some "Video stream not ready. Please wait or try restarting the camera.") st
  end.

(** [updateLanguage]: the handler of the language selector. *)
Definition updateLanguage (newLanguageCode : string) (st : AppState) : AppState :=
  let image := base64Image st in
  let st := setSelectedLanguageCode newLanguageCode st in
  if truthy image then analyzeWaste image newLanguageCode st else st.

Definition speechPayload (text voiceName : Value) : Value :=
  VObj
    [("contents", VArr [VObj [("parts", VArr [VObj [("text", text)]])]]);
     ("generationConfig",
      VObj [("responseModalities", VArr [VStr "AUDIO"]);
            ("speechConfig",
             VObj [("voiceConfig",
                    VObj [("prebuiltVoiceConfig", VObj [("voiceName", voiceName)])])])]);
     ("model", VStr "gemini-2.5-flash-preview-tts")].

(** [audioRef.current.play()]: the element starts playing, unless the
    browser refuses; the handler of the rejected promise is [playFailed]. *)
Definition play (st : AppState) : AppState :=
  let st := emit Play st in
  match audioRef st with
  | Some a => if playRejected env then st
              else setAudioRef (Some (mkAudio (audio_src a) false)) st
  | None => st
  end.

(** The [catch] callback on the promise of [play()]; it runs after the
    function itself has finished. *)
Definition playFailed (st : AppState) : AppState :=
  let st := setError (Some "Playback failed. Ensure your browser is not blocking media autoplay.") st in
  setIsAudioPlaying false st.

(** [generateAndPlayAudio(text)]. The computation inside [try] returns
    whether [play()] was called and refused. *)
Definition generateAndPlayAudio (text : Value) (st : AppState) : AppState :=
  if negb (truthy text) then setError (Some "No instructions to play.") st
  else if isAudioPlaying st && bool_decide (is_Some (audioRef st)) then pauseCurrent st
  else
    let st := setIsAudioGenerating true st in
    let st := setIsAudioPlaying false st in
    let st := pauseCurrent st in
    let languageCode := selectedLanguageCode st in
    let '(refused, st) :=
      tryFinally
        (@tryCatch bool
           (let voiceConfig := assoc languageCode VOICE_CONFIGS in
            voiceName ← lift (getProp voiceConfig "name");
            let payload := speechPayload text voiceName in
            response ← fetchWithRetry API_URL_TTS payload 0;
            let part := firstPart response in
            let audioData := optProp (optProp part "inlineData") "data" in
            let mimeType := optProp (optProp part "inlineData") "mimeType" in
            isAudio ← ((if truthy audioData && truthy mimeType
                        then lift (startsWith mimeType "audio/")
                        else mret false) : M bool);
            if (isAudio : bool) then
              match matchRate (ToString mimeType) with
              | None =>
                  @throw bool
                    (mkExn Error "Sample rate information missing from TTS mimeType.")
              | Some digits =>
                  let sampleRate := parseInt digits in
                  pcmDataBuffer ← lift (base64ToArrayBuffer audioData);
                  pcm16 ← lift (Int16Array pcmDataBuffer);
                  wavBlob ← lift (pcmToWav_outcome pcm16 sampleRate);
                  modify (emit (CreateObjectURL wavBlob));;
                  modify (emit (NewAudio wavBlob));;
                  modify (setAudioRef (Some (mkAudio wavBlob true)));;
                  modify (setIsAudioGenerating false);;
                  modify (setIsAudioPlaying true);;
                  modify play;;
                  (mret (playRejected env) : M bool)
              end
            else throw (mkExn Error "TTS API failed to return audio data."))
           (fun error =>
              modify (setError
                        (Some (if String.eqb (exn_message error) ""
                               then "Could not generate voice instructions."
                               else exn_message error)));;
              (mret false : M bool)))
        (setIsAudioGenerating false) st in
    match refused with
    | Return true => playFailed st
    | _ => st
    end.

(** The weight label of [renderPredictionBox]. *)
Definition displayWeight (p : Prediction) : string :=
  let weightValue := parseFloat (or_else (weightKg p) (VNum 0)) in
  if (weightValue =? 0)%float then "None detectable"
  else if (0 <? weightValue)%float && (weightValue <? 0.1)%float
       then toFixed (weightValue * 1000)%float 0 +:+ " grams"
  else toFixed weightValue 2 +:+ " kg".

(** [handleAudioButtonClick] of [renderPredictionBox], for the prediction on
    display. *)
Definition handleAudioButtonClick (p : Prediction) (st : AppState) : AppState :=
  if isAudioPlaying st && bool_decide (is_Some (audioRef st)) then pauseCurrent st
  else generateAndPlayAudio (message p) st.

End WithConfiguration.

(** The handlers that can run between two renders, each run to its end: a
    press of the audio button (shown with a prediction, disabled while
    [isAudioGenerating] or without a message), the end of the playing
    element, a reset (also the first step of [startCamera]), a press of the
    identify button, the choice of a file, a capture and a change of
    language. *)
Inductive step `{Host} (key : string) : AppState -> AppState -> Prop :=
| step_click env p st :
    prediction st = Some p -> isAudioGenerating st = false -> truthy (message p) = true ->
    step key st (handleAudioButtonClick key env p st)
| step_ended st : step key st (audioEnded st)
| step_clearAll st : step key st (clearAll st)
| step_analyze env st :
    step key st (analyzeWaste key env (base64Image st) (selectedLanguageCode st) st)
| step_file env image st : step key st (handleFileChange key env image st)
| step_capture env frame st : step key st (capturePhoto key env frame st)
| step_language env code st : step key st (updateLanguage key env code st).

Definition reachable `{Host} (key : string) : AppState -> Prop :=
  rtc (step key) initialState.

End App2.

(** * Notions used in the statements *)

(** ** Containers *)

(** The 44 bytes that [pcmToWav] writes before the samples. *)
Definition wavHeader (sampleCount : nat) (sampleRate : Z) : list Z :=
  map (fun c => c mod 256) (charCodes "RIFF") ++ bytesLE 4 (36 + Z.of_nat (2 * sampleCount))
  ++ map (fun c => c mod 256) (charCodes "WAVE") ++ map (fun c => c mod 256) (charCodes "fmt ")
  ++ bytesLE 4 16 ++ bytesLE 2 1 ++ bytesLE 2 1
  ++ bytesLE 4 sampleRate ++ bytesLE 4 (sampleRate * 1 * 2) ++ bytesLE 2 (1 * 2) ++ bytesLE 2 (2 * 8)
  ++ map (fun c => c mod 256) (charCodes "data") ++ bytesLE 4 (Z.of_nat (2 * sampleCount)).

(** The container [pcmToWav] builds, as a value. *)
Definition wavBlob (pcm16 : list Z) (sampleRate : Z) : Blob :=
  mkBlob (wavHeader (length pcm16) sampleRate ++ flat_map (bytesLE 2) pcm16) "audio/wav".

(** Re-parsing a container: the sample rate and the number of samples its
    header declares. *)
Definition parseWavHeader (bytes : list Z) : option (Z * nat) :=
  rate ← getUint32 bytes 24 true;
  dataSize ← getUint32 bytes 40 true;
  Some (rate, Z.to_nat (dataSize / 2)).

(** The samples [generateAndPlayAudio] reads from the decoded bytes. *)
Definition samplesOf (bytes : list Z) : list Z :=
  int16Pairs (map (fun c => c mod 256) bytes).

(** ** Traces *)

(** The state with further events appended to its trace. *)
Definition addEvents (trace : list Event) (st : AppState) : AppState :=
  mkApp (base64Image st) (prediction st) (isLoading st) (error st) (selectedLanguageCode st)
        (isAudioGenerating st) (isAudioPlaying st) (audioRef st) (events st ++ trace).

(** The trace of the attempts numbered [attempt] to [attempt + retriesLeft],
    each but the last followed by its wait of [2 ^ attempt] seconds. *)
Fixpoint retryTrace (url : string) (payload : Value) (attempt retriesLeft : nat) : list Event :=
  Fetch url payload ::
  match retriesLeft with
  | O => []
  | S k => SetTimeout (2 ^ Z.of_nat attempt * 1000) :: retryTrace url payload (S attempt) k
  end.

(** The number of HTTP requests in a trace. *)
Fixpoint fetchCount (trace : list Event) : nat :=
  match trace with
  | [] => 0
  | Fetch _ _ :: rest => S (fetchCount rest)
  | _ :: rest => fetchCount rest
  end.

(** ** Servers *)

(** An attempt that does not end in a successful response. *)
Definition failed (o : FetchOutcome) : Prop :=
  match o with
  | FetchRejected _ => True
  | FetchResolved response => ok response = false
  end.

(** An attempt that fails the way the retry policy names: HTTP 429, HTTP 503,
    or a transport failure. *)
Definition transient (o : FetchOutcome) : Prop :=
  match o with
  | FetchRejected _ => True
  | FetchResolved response => status response = 429 \/ status response = 503
  end.

(** The message the [catch] block of the first version receives from a failed
    attempt. *)
Definition lastError1 `{Host} (o : FetchOutcome) : string :=
  match o with
  | FetchRejected error => exn_message error
  | FetchResolved response =>
      match json response with
      | Throw error => exn_message error
      | Return errorBody =>
          match getProp errorBody "error" with
          | Throw error => exn_message error
          | Return err =>
              "API Error " +:+ string_of_Z (status response) +:+ ": "
                +:+ ToString (or_else (optProp err "message") (VStr (statusText response)))
          end
      end
  end.

(** The same for the second version. *)
Definition lastError2 `{Host} (o : FetchOutcome) : string :=
  match o with
  | FetchRejected error => exn_message error
  | FetchResolved response =>
      match json response with
      | Throw error => exn_message error
      | Return errorBody =>
          match getProp errorBody "error" with
          | Throw error => exn_message error
          | Return err =>
              "API Error " +:+ string_of_Z (status response) +:+ ": "
                +:+ ToString (or_else (optProp err "message") (VStr "Unknown error"))
          end
      end
  end.

(** A server that answers every attempt with the same status and the error
    body whose [error.message] is [message]. *)
Definition alwaysAnswers (code : Z) (text message : string) : Env :=
  mkEnv (fun _ => FetchResolved
                    (mkResponse code text
                       (Return (VObj [("error", VObj [("message", VStr message)])]))))
        false.

(** A server whose first answer is HTTP 200 with the JSON body [body]. *)
Definition answersWith (env : Env) (body : Value) : Prop :=
  server env 0 = FetchResolved (mkResponse 200 "OK" (Return body)).

(** A server that answers every attempt with HTTP 200 and [body]. *)
Definition answering (body : Value) : Env :=
  mkEnv (fun _ => FetchResolved (mkResponse 200 "OK" (Return body))) false.

(** The body of a classification response whose first candidate carries
    [text]. *)
Definition classificationResponse (text : string) : Value :=
  VObj [("candidates",
         VArr [VObj [("content", VObj [("parts", VArr [VObj [("text", VStr text)]])])]])].

(** The body of a speech response whose first part carries inline data. *)
Definition speechResponse (audioData mimeType : Value) : Value :=
  VObj [("candidates",
         VArr [VObj [("content",
                      VObj [("parts",
                             VArr [VObj [("inlineData",
                                          VObj [("data", audioData);
                                                ("mimeType", mimeType)])]])])]])].

(** The language codes the selector offers. *)
Definition knownLanguage (languageCode : string) : Prop :=
  In languageCode ["en-US"; "hi-IN"; "es-US"; "fr-FR"].

(** ** Classification *)

(** What [analyzeWaste] makes of the parsed object with the properties
    [props]: absent numbers count as [0], absent strings stay [undefined]. *)
Definition predictionOf `{Host} (props : list (string * Value)) : Prediction :=
  mkPrediction
    (assoc "objectName" props)
    (assoc "material" props)
    (toFixed (Math_round (ToNumber (or_else (assoc "estimatedValueUSD" props) (VNum 0))
                          * App1.INR_PER_USD * 100) / 100)%float 2)
    (or_else (assoc "estimatedWeightKg" props) (VNum 0))
    (assoc "disposalInstructions" props).

(** ** Speech *)

(** The state in which [generateAndPlayAudio] sends its request: the flags
    are set and the element of an earlier playback, if any, is paused. *)
Definition generating (st : AppState) : AppState :=
  pauseCurrent (setIsAudioPlaying false (setIsAudioGenerating true st)).

(** The guard of [generateAndPlayAudio] lets the play request through. *)
Definition notPlaying (st : AppState) : Prop :=
  isAudioPlaying st && bool_decide (is_Some (audioRef st)) = false.

(** The sample rate the MIME type of a speech response declares, if any. *)
Definition declaredRate (mimeType : Value) : option string :=
  match mimeType with
  | VStr s => if String.prefix "audio/" s then matchRate s else None
  | _ => None
  end.

(** What the [catch] block of the second version reports for a response
    that carries audio data and the MIME type [mimeType] without a rate. *)
Definition rejectionMessage (mimeType : Value) : string :=
  if truthy mimeType then
    match startsWith mimeType "audio/" with
    | Throw e => exn_message e
    | Return true => "Sample rate information missing from TTS mimeType."
    | Return false => "TTS API failed to return audio data."
    end
  else "TTS API failed to return audio data.".

(** ** The playback state machine *)

(** The cells of the playback state machine. *)
Definition audioCells (st : AppState) : bool * bool * option Audio :=
  (isAudioGenerating st, isAudioPlaying st, audioRef st).

(** An asset is playing: the ref holds an element that is not paused. *)
Definition Playing (st : AppState) : Prop :=
  exists a, audioRef st = Some a /\ audio_paused a = false.

(** Neither generating nor playing. *)
Definition Idle (st : AppState) : Prop :=
  isAudioGenerating st = false /\ isAudioPlaying st = false.

(** What holds between two handlers: no synthesis is under way, and
    [isAudioPlaying] is set while an asset is playing. *)
Definition settled (st : AppState) : Prop :=
  isAudioGenerating st = false /\ (Playing st -> isAudioPlaying st = true).

(** ** Sample data *)

Definition quoted (s : string) : string :=
  String (ascii_of_nat 34) s +:+ String (ascii_of_nat 34) "".

(** The response text of the scenario and the object it denotes. *)
Definition scenarioText : string :=
  "{" +:+ quoted "objectName" +:+ ":" +:+ quoted "Plastic Bottle" +:+ ","
      +:+ quoted "material" +:+ ":" +:+ quoted "Plastic" +:+ ","
      +:+ quoted "estimatedValueUSD" +:+ ":0.02,"
      +:+ quoted "estimatedWeightKg" +:+ ":0.05,"
      +:+ quoted "disposalInstructions" +:+ ":"
      +:+ quoted "Rinse and place in recycling." +:+ "}".

Definition scenarioProps : list (string * Value) :=
  [("objectName", VStr "Plastic Bottle"); ("material", VStr "Plastic");
   ("estimatedValueUSD", VNum 0.02); ("estimatedWeightKg", VNum 0.05);
   ("disposalInstructions", VStr "Rinse and place in recycling.")].

(** A response text without the two numbers and the instructions. *)
Definition partialText : string :=
  "{" +:+ quoted "objectName" +:+ ":" +:+ quoted "Plastic Bottle" +:+ ","
      +:+ quoted "material" +:+ ":" +:+ quoted "Plastic" +:+ "}".

Definition partialProps : list (string * Value) :=
  [("objectName", VStr "Plastic Bottle"); ("material", VStr "Plastic")].

(** A host that reads the two sample texts and nothing else. *)
Definition exampleHost : Host :=
  {| Number_toString := fun _ => "";
     StringToNumber := fun _ => nan;
     parseFloat_string := fun _ => nan;
     JSON_parse := fun s =>
       if String.eqb s scenarioText then Some (VObj scenarioProps)
       else if String.eqb s partialText then Some (VObj partialProps)
       else None |}.

(** The prediction of the scenario. *)
Definition examplePrediction : Prediction :=
  mkPrediction (VStr "Plastic Bottle") (VStr "Plastic") "1.66" (VNum 0.05)
               (VStr "Rinse and place in recycling.").

(** A state of the second version in which a first playback is under way:
    the choice of an image file, then a press of the audio button. *)
Definition playingState : AppState :=
  App2.handleAudioButtonClick (H := exampleHost) "k"
    (answering (speechResponse (VStr "AAA=") (VStr "audio/L16;codec=pcm;rate=24000")))
    examplePrediction
    (App2.handleFileChange (H := exampleHost) "k"
       (answering (classificationResponse scenarioText))
       (Some (VStr "aW1hZ2U=")) initialState).

(** A server that answers every attempt with HTTP 200 and [body], in a
    browser that refuses [play()]. *)
Definition refusing (body : Value) : Env :=
  mkEnv (fun _ => FetchResolved (mkResponse 200 "OK" (Return body))) true.

(** A state of the first version after a playback the browser refused: the
    choice of an image file, then a press of the audio button. *)
Definition refusedState : AppState :=
  App1.handleAudioButtonClick (H := exampleHost) "k"
    (refusing (speechResponse (VStr "AAA=") (VStr "audio/L16;codec=pcm;rate=24000")))
    examplePrediction
    (App1.handleFileChange (H := exampleHost) "k"
       (answering (classificationResponse scenarioText))
       (Some (VStr "aW1hZ2U=")) initialState).

(** The same after a reset and the choice of a new image file. *)
Definition resetState : AppState :=
  App1.handleFileChange (H := exampleHost) "k"
    (answering (classificationResponse scenarioText))
    (Some (VStr "aW1hZ2U=")) (clearAll refusedState).

(** ** Notions used in the further properties *)

(** A byte value. *)
Definition isByte (b : Z) : Prop := 0 <= b < 256.

(** The characters of [data] are all of the base64 alphabet. *)
Definition alphabetOnly (data : string) : Prop :=
  Forall (fun c => is_Some (base64Value c)) (list_ascii_of_string data).

(** A server whose first [failures] attempts fail for want of a connection
    and whose later ones are answered with HTTP 200 and [body]. *)
Definition recovering (failures : nat) (body : Value) : Env :=
  mkEnv (fun n => if (n <? failures)%nat
                  then FetchRejected (mkExn TypeError "Failed to fetch")
                  else FetchResolved (mkResponse 200 "OK" (Return body)))
        false.

(** What a run of [analyzeWaste] on an image leaves behind: the loading flag
    is cleared, the image, the language and the playback cells are as they
    were, at most [maxRequests] requests were sent, and there is either a
    prediction and no error or an error and no prediction. *)
Definition analysisOutcome (maxRequests : nat) (st st' : AppState) : Prop :=
  isLoading st' = false
  /\ base64Image st' = base64Image st
  /\ selectedLanguageCode st' = selectedLanguageCode st
  /\ audioCells st' = audioCells st
  /\ (exists trace, events st' = events st ++ trace /\ (fetchCount trace <= maxRequests)%nat)
  /\ ((exists p, prediction st' = Some p /\ error st' = None)
      \/ (prediction st' = None /\ exists message, error st' = Some message /\ message <> "")).

(** The state in which [analyzeWaste] sends its request. *)
Definition analyzing (st : AppState) : AppState :=
  setPrediction None (setError None (setIsLoading true st)).

(** What a handler that stores a choice and then calls [analyzeWaste] leaves
    behind, [chosen] being the state with the choice stored: without a
    usable image only the error is set and nothing is sent, otherwise the
    analysis runs from [chosen]. *)
Definition analysedFrom (maxRequests : nat) (image : Value) (chosen st' : AppState) : Prop :=
  if truthy image then analysisOutcome maxRequests chosen st'
  else st' = setError (Some "Image data missing. Please capture or upload an image.") chosen.

(** A run of [generateAndPlayAudio] that ends in the report of [message]:
    the ref keeps the element it had, nothing plays, both flags are clear and
    the trace gained [trace]. *)
Definition speechRejected (message : string) (trace : list Event) (st st' : AppState) : Prop :=
  error st' = Some message
  /\ audioRef st' = audioRef (generating st)
  /\ ~ Playing st'
  /\ isAudioPlaying st' = false
  /\ isAudioGenerating st' = false
  /\ events st' = events (generating st) ++ trace.

(** What a run of [generateAndPlayAudio] that gets past its guards leaves
    behind: no synthesis is under way, at most [maxRequests] requests were
    sent, and either an error is reported and the ref keeps the element it
    had, or the ref holds a new element on which [play] was called. *)
Definition speechOutcome (maxRequests : nat) (refused : bool) (st st' : AppState) : Prop :=
  isAudioGenerating st' = false
  /\ exists trace, (fetchCount trace <= maxRequests)%nat
     /\ ((exists message, message <> "" /\ speechRejected message trace st st')
         \/ (exists blob,
               audioRef st' = Some (mkAudio blob refused)
               /\ blob_type blob = "audio/wav"
               /\ events st' = events (generating st)
                               ++ trace ++ [CreateObjectURL blob; NewAudio blob; Play])).

(** What holds between two handlers of the second version: no synthesis is
    under way, and [isAudioPlaying] is set exactly while an asset is
    playing. *)
Definition synced (st : AppState) : Prop :=
  isAudioGenerating st = false /\ (isAudioPlaying st = true <-> Playing st).

(** * Theorems *)

(** ** The container builder *)

Lemma length_bytesLE n v : length (bytesLE n v) = n.
Proof. revert v. induction n as [|n IH]; intros v; simpl; [reflexivity | by rewrite IH]. Qed.

Lemma writeBytes_app (pre post bs : list Z) :
  (length bs <= length post)%nat ->
  writeBytes (pre ++ post) (length pre) bs = (pre ++ bs) ++ drop (length bs) post.
Proof.
  revert pre post. induction bs as [|b bs IH]; intros pre post Hlen; simpl.
  - by rewrite drop_0, app_nil_r.
  - destruct post as [|p post]; simpl in Hlen; [lia|].
    rewrite insert_app_r_alt by lia. rewrite Nat.sub_diag. simpl.
    replace (pre ++ b :: post) with ((pre ++ [b]) ++ post) by (by rewrite <- app_assoc).
    replace (S (length pre)) with (length (pre ++ [b])) by (rewrite length_app; simpl; lia).
    rewrite IH by lia. by rewrite <- !app_assoc.
Qed.

Lemma setBytes_app n (pre post : list Z) off v :
  length pre = off -> (n <= length post)%nat ->
  setBytes n (pre ++ post) off v true = Some ((pre ++ bytesLE n v) ++ drop n post).
Proof.
  intros <- Hn. unfold setBytes. rewrite decide_True by (rewrite length_app; lia).
  simpl. rewrite writeBytes_app by (by rewrite length_bytesLE).
  by rewrite length_bytesLE.
Qed.

Lemma writeString_from_app codes : forall (pre post : list Z) off i,
  (length pre = off + i)%nat -> (length codes <= length post)%nat ->
  writeString_from i codes (pre ++ post) off
  = Some ((pre ++ map (fun c => c mod 256) codes) ++ drop (length codes) post).
Proof.
  induction codes as [|c codes IH]; intros pre post off i Hpre Hlen; simpl.
  - by rewrite drop_0, app_nil_r.
  - unfold setUint8. rewrite setBytes_app by (simpl in *; lia). simpl.
    rewrite IH.
    + rewrite <- !app_assoc. simpl. by rewrite drop_drop.
    + rewrite length_app; simpl; lia.
    + rewrite length_drop. simpl in Hlen. lia.
Qed.

Lemma writeString_app s (pre post : list Z) off :
  length pre = off -> (length (charCodes s) <= length post)%nat ->
  writeString (pre ++ post) off s
  = Some ((pre ++ map (fun c => c mod 256) (charCodes s)) ++ drop (length (charCodes s)) post).
Proof. intros. apply writeString_from_app; lia. Qed.

Lemma writeSamples_from_app rest : forall (pre post : list Z) i,
  (length pre = 44 + i * 2)%nat -> (length post = 2 * length rest)%nat ->
  writeSamples_from i rest (pre ++ post) 44 = Some (pre ++ flat_map (bytesLE 2) rest).
Proof.
  induction rest as [|s rest IH]; intros pre post i Hpre Hpost; simpl.
  - destruct post; [done | simpl in Hpost; lia].
  - unfold setInt16. rewrite setBytes_app by (simpl in *; lia).
    cbn [mbind option_bind].
    rewrite IH.
    + by rewrite <- app_assoc.
    + rewrite length_app, length_bytesLE. lia.
    + rewrite length_drop. simpl in Hpost. lia.
Qed.

Ltac wav_side :=
  rewrite ?length_app, ?length_bytesLE, ?length_map, ?length_drop; simpl in *; lia.
Ltac wav_step :=
  first [rewrite writeString_app by wav_side | rewrite setBytes_app by wav_side];
  cbn [mbind option_bind].

Lemma fillWav_bytes (view pcm16 : list Z) (sampleRate : Z) :
  length view = (44 + byteLength pcm16)%nat ->
  fillWav view pcm16 sampleRate
  = Some (wavHeader (length pcm16) sampleRate ++ flat_map (bytesLE 2) pcm16).
Proof.
  intros Hlen. unfold byteLength in Hlen. unfold fillWav, setUint32, setUint16, byteLength.
  change view with ([] ++ view) at 1.
  do 13 wav_step.
  rewrite writeSamples_from_app by wav_side.
  unfold wavHeader. by rewrite <- !app_assoc.
Qed.

Lemma pcmToWav_outcome_returns pcm16 sampleRate :
  pcmToWav_outcome pcm16 sampleRate = Return (wavBlob pcm16 sampleRate).
Proof.
  unfold pcmToWav_outcome, pcmToWav, ArrayBuffer.
  rewrite fillWav_bytes by apply length_replicate. reflexivity.
Qed.

Lemma length_wavHeader n r : length (wavHeader n r) = 44%nat.
Proof. unfold wavHeader. rewrite !length_app, !length_bytesLE, !length_map. reflexivity. Qed.

Lemma length_samples (pcm16 : list Z) :
  length (flat_map (bytesLE 2) pcm16) = (2 * length pcm16)%nat.
Proof. induction pcm16 as [|s l IH]; simpl in *; lia. Qed.

Lemma fromBytesLE_bytesLE n v : fromBytesLE (bytesLE n v) = v mod 2 ^ (8 * Z.of_nat n).
Proof.
  revert v. induction n as [|n IH]; intros v.
  - simpl. by rewrite Z.mod_1_r.
  - cbn [bytesLE fromBytesLE]. rewrite IH.
    replace (8 * Z.of_nat (S n)) with (8 + 8 * Z.of_nat n) by lia.
    rewrite Z.pow_add_r by lia. change (2 ^ 8) with 256.
    rewrite Z.rem_mul_r by lia. reflexivity.
Qed.

Lemma getBytes_skip n (chunk rest : list Z) off le :
  (length chunk <= off)%nat ->
  getBytes n (chunk ++ rest) off le = getBytes n rest (off - length chunk) le.
Proof.
  intros Hle. unfold getBytes. rewrite length_app, drop_app_ge by lia.
  destruct (decide (off + n <= length chunk + length rest)%nat),
           (decide (off - length chunk + n <= length rest)%nat); try lia; reflexivity.
Qed.

Lemma getBytes_here n (bs rest : list Z) off :
  off = 0%nat -> length bs = n ->
  getBytes n (bs ++ rest) off true = Some (fromBytesLE bs).
Proof.
  intros -> <-. unfold getBytes. rewrite decide_True by (rewrite length_app; lia).
  rewrite drop_0, take_app_length. reflexivity.
Qed.

Ltac field_side := rewrite ?length_bytesLE, ?length_map; simpl; lia.
Ltac read_field :=
  unfold wavHeader, getUint32, getUint16; rewrite <- ?app_assoc;
  repeat (rewrite getBytes_skip by field_side);
  rewrite getBytes_here by field_side;
  rewrite fromBytesLE_bytesLE.

Lemma header_fields n r (data : list Z) :
  let bytes := wavHeader n r ++ data in
  getUint32 bytes 4 true = Some ((36 + Z.of_nat (2 * n)) mod 2 ^ 32)
  /\ getUint16 bytes 20 true = Some 1
  /\ getUint16 bytes 22 true = Some 1
  /\ getUint32 bytes 24 true = Some (r mod 2 ^ 32)
  /\ getUint32 bytes 28 true = Some ((r * 1 * 2) mod 2 ^ 32)
  /\ getUint16 bytes 32 true = Some 2
  /\ getUint16 bytes 34 true = Some 16
  /\ getUint32 bytes 40 true = Some (Z.of_nat (2 * n) mod 2 ^ 32).
Proof.
  cbv zeta. repeat split; read_field; reflexivity.
Qed.

Lemma toInt16_bytes s : int16 s -> toInt16 (s mod 256 + 256 * ((s / 256) mod 256 + 256 * 0)) = s.
Proof.
  unfold int16, toInt16. intros Hs.
  rewrite Z.mul_0_r, Z.add_0_r, <- (Z.rem_mul_r s 256 256) by lia.
  change (256 * 256) with 65536.
  destruct (Z.ltb_spec (s mod 65536) 32768) as [Hlt|Hge].
  - destruct (Z.le_gt_cases 0 s) as [Hpos|Hneg].
    + apply Z.mod_small. lia.
    + replace s with (s + 1 * 65536 - 65536) in Hlt at 1 by lia.
      replace (s + 1 * 65536 - 65536) with ((s + 65536) + (-1) * 65536) in Hlt by lia.
      rewrite Z.mod_add, Z.mod_small in Hlt by lia. lia.
  - destruct (Z.le_gt_cases 0 s) as [Hpos|Hneg].
    + rewrite Z.mod_small in Hge by lia. lia.
    + replace s with ((s + 65536) + (-1) * 65536) at 1 by lia.
      rewrite Z.mod_add, Z.mod_small by lia. lia.
Qed.

Lemma int16Pairs_samples (pcm16 : list Z) :
  Forall int16 pcm16 -> int16Pairs (flat_map (bytesLE 2) pcm16) = pcm16.
Proof.
  induction 1 as [|s l Hs _ IH]; [reflexivity|].
  change (flat_map (bytesLE 2) (s :: l))
    with ([s mod 256; (s / 256) mod 256] ++ flat_map (bytesLE 2) l).
  cbn [app int16Pairs]. rewrite IH. f_equal.
  pose proof (toInt16_bytes s Hs) as E. rewrite Z.mul_0_r, Z.add_0_r in E. exact E.
Qed.

(** C1, amended. For samples in the signed 16-bit range, a sample rate in
    [0, 2^31) and a sample count whose chunk size fits in 32 bits,
    [pcmToWav] returns a blob of type audio/wav with [44 + 2 * count] bytes
    whose header holds, little-endian, the chunk size [36 + 2 * count], the
    format tag 1, one channel, the sample rate, the byte rate [rate * 1 * 2],
    the block align 2, 16 bits per sample and the data size [2 * count],
    followed by the samples in order, two bytes each, low byte first; reading
    the header back gives the rate and the count, and no samples give 44
    bytes with data size 0. *)
Theorem pcmToWav_container (pcm16 : list Z) (sampleRate : Z) :
  Forall int16 pcm16 ->
  0 <= sampleRate < 2 ^ 31 ->
  36 + 2 * Z.of_nat (length pcm16) < 2 ^ 32 ->
  exists bytes,
    pcmToWav pcm16 sampleRate = Some (mkBlob bytes "audio/wav")
    /\ length bytes = (44 + 2 * length pcm16)%nat
    /\ take 44 bytes = wavHeader (length pcm16) sampleRate
    /\ getUint32 bytes 4 true = Some (36 + 2 * Z.of_nat (length pcm16))
    /\ getUint16 bytes 20 true = Some 1
    /\ getUint16 bytes 22 true = Some 1
    /\ getUint32 bytes 24 true = Some sampleRate
    /\ getUint32 bytes 28 true = Some (sampleRate * 1 * 2)
    /\ getUint16 bytes 32 true = Some 2
    /\ getUint16 bytes 34 true = Some 16
    /\ getUint32 bytes 40 true = Some (2 * Z.of_nat (length pcm16))
    /\ drop 44 bytes = flat_map (bytesLE 2) pcm16
    /\ Int16Array (drop 44 bytes) = Return pcm16
    /\ parseWavHeader bytes = Some (sampleRate, length pcm16)
    /\ (pcm16 = [] -> length bytes = 44%nat /\ getUint32 bytes 40 true = Some 0).
Proof.
  intros Hsamples Hrate Hsize.
  exists (wavHeader (length pcm16) sampleRate ++ flat_map (bytesLE 2) pcm16).
  destruct (header_fields (length pcm16) sampleRate (flat_map (bytesLE 2) pcm16))
    as (Hchunk & Hfmt & Hch & Hsr & Hbr & Hba & Hbits & Hdata).
  rewrite Z.mod_small in Hchunk, Hsr, Hbr, Hdata by lia.
  replace (Z.of_nat (2 * length pcm16)) with (2 * Z.of_nat (length pcm16)) in * by lia.
  assert (Hdrop : drop 44 (wavHeader (length pcm16) sampleRate ++ flat_map (bytesLE 2) pcm16)
                  = flat_map (bytesLE 2) pcm16).
  { rewrite <- (length_wavHeader (length pcm16) sampleRate). apply drop_app_length. }
  repeat split; try assumption.
  - unfold pcmToWav, ArrayBuffer. rewrite fillWav_bytes by apply length_replicate. reflexivity.
  - rewrite length_app, length_wavHeader, length_samples. reflexivity.
  - rewrite Hdrop. unfold Int16Array. rewrite length_samples.
    replace (Nat.even (2 * length pcm16)) with true
      by (symmetry; apply Nat.even_spec; by exists (length pcm16)).
    by rewrite int16Pairs_samples.
  - unfold parseWavHeader. rewrite Hsr, Hdata. cbn [mbind option_bind].
    rewrite Z.mul_comm, Z.div_mul, Nat2Z.id by lia. reflexivity.
  - subst pcm16. rewrite length_app, length_wavHeader. reflexivity.
  - subst pcm16. exact Hdata.
Qed.

Lemma pcmToWav_container_witness :
  exists bytes,
    pcmToWav [1; -2; 300] 24000 = Some (mkBlob bytes "audio/wav")
    /\ length bytes = 50%nat
    /\ parseWavHeader bytes = Some (24000, 3%nat).
Proof.
  destruct (pcmToWav_container [1; -2; 300] 24000) as (bytes & Hb & Hl & H).
  - repeat constructor; unfold int16; lia.
  - lia.
  - simpl; lia.
  - exists bytes. repeat split; [exact Hb | exact Hl | apply H].
Defined.

(** C1 as stated fails for a rate that does not fit its field: [setUint32]
    stores the rate modulo [2^32], so the rate [2^32] is written, and read
    back, as 0; and the byte rate of the rate [2^31] is written as 0. *)
Lemma pcmToWav_rate_wraps :
  (blob_bytes <$> pcmToWav [] 4294967296) ≫= (fun bytes => getUint32 bytes 24 true) = Some 0
  /\ (blob_bytes <$> pcmToWav [] 4294967296) ≫= parseWavHeader = Some (0, 0%nat)
  /\ (blob_bytes <$> pcmToWav [] 2147483648) ≫= (fun bytes => getUint32 bytes 28 true) = Some 0.
Proof. repeat split; vm_compute; reflexivity. Qed.

(** C9. Two calls of [pcmToWav] with the same samples and the same rate
    return the same blob, and a blob is returned; every byte of it is written
    by the call, so that the writes give the same bytes on any two buffers of
    the right length, whatever these held before. *)
Theorem pcmToWav_deterministic (pcm16 pcm16' : list Z) (sampleRate sampleRate' : Z)
    (view view' : list Z) :
  pcm16 = pcm16' -> sampleRate = sampleRate' ->
  length view = (44 + byteLength pcm16)%nat ->
  length view' = (44 + byteLength pcm16')%nat ->
  pcmToWav pcm16 sampleRate = pcmToWav pcm16' sampleRate'
  /\ (exists blob, pcmToWav pcm16 sampleRate = Some blob)
  /\ fillWav view pcm16 sampleRate = fillWav view' pcm16' sampleRate'.
Proof.
  intros <- <- Hview Hview'. split; [reflexivity|]. split.
  - unfold pcmToWav, ArrayBuffer. rewrite fillWav_bytes by apply length_replicate.
    by eexists.
  - by rewrite !fillWav_bytes.
Qed.

Lemma pcmToWav_deterministic_witness :
  pcmToWav [7; -7] 8000 = pcmToWav [7; -7] 8000
  /\ (exists blob, pcmToWav [7; -7] 8000 = Some blob)
  /\ fillWav (replicate 48 0) [7; -7] 8000 = fillWav (replicate 48 255) [7; -7] 8000.
Proof.
  apply (pcmToWav_deterministic [7; -7] [7; -7] 8000 8000 (replicate 48 0) (replicate 48 255));
    reflexivity.
Defined.

(** ** The request orchestrator *)

Lemma fetchCount_app t1 t2 : fetchCount (t1 ++ t2) = (fetchCount t1 + fetchCount t2)%nat.
Proof. induction t1 as [|[] t1 IH]; simpl; lia. Qed.

Lemma transient_failed o : transient o -> failed o.
Proof.
  destruct o as [e|r]; [done|]. unfold transient, failed, ok.
  intros [-> | ->]; reflexivity.
Qed.

Lemma emit_addEvents e trace st : emit e (addEvents trace st) = addEvents (trace ++ [e]) st.
Proof. unfold emit, addEvents. simpl. by rewrite <- app_assoc. Qed.

Lemma emit_as_addEvents e st : emit e st = addEvents [e] st.
Proof. reflexivity. Qed.

Lemma addEvents_addEvents t1 t2 st : addEvents t2 (addEvents t1 st) = addEvents (t1 ++ t2) st.
Proof. unfold addEvents. simpl. by rewrite <- app_assoc. Qed.

Lemma truthy_key key : key <> "" -> negb (truthy (VStr key)) = false.
Proof.
  intros Hkey. simpl. destruct (String.eqb_spec key ""); [contradiction | reflexivity].
Qed.

Lemma fetchCount_retryTrace url payload attempt k :
  fetchCount (retryTrace url payload attempt k) = S k.
Proof.
  revert attempt. induction k as [|k IH]; intros attempt; [reflexivity|].
  simpl. by rewrite IH.
Qed.

Section FetchWithRetry1.
Context `{Host}.
Variables (key : string) (env : Env) (url : string) (payload : Value).

Lemma fetchWithRetry1_exhausts (Hkey : key <> "") (Hfail : forall n, failed (server env n)) :
  forall k retries st, (retries + k = App1.MAX_RETRIES)%nat ->
  App1.fetchWithRetry key env url payload retries st
  = (Throw (mkExn Error ("Failed after 3 attempts: "
                           +:+ lastError1 (server env App1.MAX_RETRIES))),
     addEvents (retryTrace url payload retries k) st).
Proof.
  induction k as [|k IH]; intros retries st Hk;
    rewrite App1.fetchWithRetry_equation_1; cbv beta zeta;
    rewrite (truthy_key key Hkey); specialize (Hfail retries).
  - assert (retries = App1.MAX_RETRIES) as -> by lia.
    unfold lastError1. destruct (server env App1.MAX_RETRIES) as [e|r].
    { rewrite decide_False by lia. reflexivity. }
    simpl in Hfail. rewrite Hfail. simpl negb. cbv iota.
    destruct (json r) as [body|e]; [|rewrite decide_False by lia; reflexivity].
    rewrite decide_False by lia.
    destruct (getProp body "error"); rewrite decide_False by lia; reflexivity.
  - assert (Hrec : forall st',
      App1.fetchWithRetry key env url payload (retries + 1)
        (emit (SetTimeout (2 ^ Z.of_nat retries * 1000)) (emit (Fetch url payload) st'))
      = (Throw (mkExn Error ("Failed after 3 attempts: "
                               +:+ lastError1 (server env App1.MAX_RETRIES))),
         addEvents (retryTrace url payload retries (S k)) st')).
    { intros st'. rewrite IH by lia. rewrite !emit_as_addEvents, !addEvents_addEvents.
      replace (retries + 1)%nat with (S retries) by lia. reflexivity. }
    destruct (server env retries) as [e|r].
    { rewrite decide_True by lia. apply Hrec. }
    simpl in Hfail. rewrite Hfail. simpl negb. cbv iota.
    destruct (json r) as [body|e]; [|rewrite decide_True by lia; apply Hrec].
    destruct (decide _); [apply Hrec|].
    destruct (getProp body "error"); rewrite decide_True by lia; apply Hrec.
Qed.

Lemma fetchWithRetry1_bounded :
  forall k retries st, (App1.MAX_RETRIES - retries <= k)%nat ->
  exists trace,
    snd (App1.fetchWithRetry key env url payload retries st) = addEvents trace st
    /\ (fetchCount trace <= S k)%nat.
Proof.
  induction k as [|k IH]; intros retries st Hk;
    rewrite App1.fetchWithRetry_equation_1; cbv beta zeta;
    (destruct (negb (truthy (VStr key)));
     [exists []; split; [unfold addEvents; destruct st; simpl; by rewrite app_nil_r | simpl; lia]|]).
  - exists [Fetch url payload]. split; [|simpl; lia].
    destruct (server env retries) as [e|r]; [rewrite decide_False by lia; reflexivity|].
    destruct (negb (ok r)); [|reflexivity].
    destruct (json r) as [body|e]; [|rewrite decide_False by lia; reflexivity].
    rewrite decide_False by lia.
    destruct (getProp body "error"); rewrite decide_False by lia; reflexivity.
  - assert (Hrec : exists trace,
      snd (App1.fetchWithRetry key env url payload (retries + 1)
             (emit (SetTimeout (2 ^ Z.of_nat retries * 1000)) (emit (Fetch url payload) st)))
      = addEvents trace st /\ (fetchCount trace <= S (S k))%nat).
    { destruct (IH (retries + 1)%nat
                   (emit (SetTimeout (2 ^ Z.of_nat retries * 1000)) (emit (Fetch url payload) st)))
        as (trace & -> & Hcount); [lia|].
      eexists. rewrite !emit_as_addEvents, !addEvents_addEvents. split; [reflexivity|].
      rewrite fetchCount_app. simpl. lia. }
    assert (Hstop : forall o : Outcome Value, exists trace,
      snd (o, emit (Fetch url payload) st) = addEvents trace st
      /\ (fetchCount trace <= S (S k))%nat).
    { intros o. exists [Fetch url payload]. split; [reflexivity | simpl; lia]. }
    destruct (server env retries) as [e|r].
    { destruct (decide _); [apply Hrec | apply Hstop]. }
    destruct (negb (ok r)); [|apply Hstop].
    destruct (json r) as [body|e].
    + destruct (decide _); [apply Hrec|].
      destruct (getProp body "error"); (destruct (decide _); [apply Hrec | apply Hstop]).
    + destruct (decide _); [apply Hrec | apply Hstop].
Qed.

End FetchWithRetry1.

Section FetchWithRetry2.
Context `{Host}.
Variables (key : string) (env : Env) (url : string) (payload : Value).

Lemma fetchWithRetry2_exhausts (Hkey : key <> "") (Hfail : forall n, failed (server env n)) :
  forall k retries st, (retries + k = App2.MAX_RETRIES)%nat ->
  App2.fetchWithRetry key env url payload retries st
  = (Throw (mkExn Error ("Failed after 5 attempts: "
                           +:+ lastError2 (server env App2.MAX_RETRIES))),
     addEvents (retryTrace url payload retries k) st).
Proof.
  induction k as [|k IH]; intros retries st Hk;
    rewrite App2.fetchWithRetry_equation_1; cbv beta zeta;
    rewrite (truthy_key key Hkey); cbn [andb]; specialize (Hfail retries).
  - assert (retries = App2.MAX_RETRIES) as -> by lia.
    unfold lastError2. destruct (server env App2.MAX_RETRIES) as [e|r].
    { rewrite decide_False by lia. reflexivity. }
    simpl in Hfail. rewrite Hfail. simpl negb. cbv iota.
    destruct (json r) as [body|e]; [|rewrite decide_False by lia; reflexivity].
    rewrite decide_False by lia.
    destruct (getProp body "error"); rewrite decide_False by lia; reflexivity.
  - assert (Hrec : forall st',
      App2.fetchWithRetry key env url payload (retries + 1)
        (emit (SetTimeout (2 ^ Z.of_nat retries * 1000)) (emit (Fetch url payload) st'))
      = (Throw (mkExn Error ("Failed after 5 attempts: "
                               +:+ lastError2 (server env App2.MAX_RETRIES))),
         addEvents (retryTrace url payload retries (S k)) st')).
    { intros st'. rewrite IH by lia. rewrite !emit_as_addEvents, !addEvents_addEvents.
      replace (retries + 1)%nat with (S retries) by lia. reflexivity. }
    destruct (server env retries) as [e|r].
    { rewrite decide_True by lia. apply Hrec. }
    simpl in Hfail. rewrite Hfail. simpl negb. cbv iota.
    destruct (json r) as [body|e]; [|rewrite decide_True by lia; apply Hrec].
    destruct (decide _); [apply Hrec|].
    destruct (getProp body "error"); rewrite decide_True by lia; apply Hrec.
Qed.

Lemma fetchWithRetry2_bounded :
  forall k retries st, (App2.MAX_RETRIES - retries <= k)%nat ->
  exists trace,
    snd (App2.fetchWithRetry key env url payload retries st) = addEvents trace st
    /\ (fetchCount trace <= S k)%nat.
Proof.
  induction k as [|k IH]; intros retries st Hk;
    rewrite App2.fetchWithRetry_equation_1; cbv beta zeta;
    (destruct (negb (truthy (VStr key)) && includes url "key=");
     [exists []; split; [unfold addEvents; destruct st; simpl; by rewrite app_nil_r | simpl; lia]|]).
  - exists [Fetch url payload]. split; [|simpl; lia].
    destruct (server env retries) as [e|r]; [rewrite decide_False by lia; reflexivity|].
    destruct (negb (ok r)); [|reflexivity].
    destruct (json r) as [body|e]; [|rewrite decide_False by lia; reflexivity].
    rewrite decide_False by lia.
    destruct (getProp body "error"); rewrite decide_False by lia; reflexivity.
  - assert (Hrec : exists trace,
      snd (App2.fetchWithRetry key env url payload (retries + 1)
             (emit (SetTimeout (2 ^ Z.of_nat retries * 1000)) (emit (Fetch url payload) st)))
      = addEvents trace st /\ (fetchCount trace <= S (S k))%nat).
    { destruct (IH (retries + 1)%nat
                   (emit (SetTimeout (2 ^ Z.of_nat retries * 1000)) (emit (Fetch url payload) st)))
        as (trace & -> & Hcount); [lia|].
      eexists. rewrite !emit_as_addEvents, !addEvents_addEvents. split; [reflexivity|].
      rewrite fetchCount_app. simpl. lia. }
    assert (Hstop : forall o : Outcome Value, exists trace,
      snd (o, emit (Fetch url payload) st) = addEvents trace st
      /\ (fetchCount trace <= S (S k))%nat).
    { intros o. exists [Fetch url payload]. split; [reflexivity | simpl; lia]. }
    destruct (server env retries) as [e|r].
    { destruct (decide _); [apply Hrec | apply Hstop]. }
    destruct (negb (ok r)); [|apply Hstop].
    destruct (json r) as [body|e].
    + destruct (decide _); [apply Hrec|].
      destruct (getProp body "error"); (destruct (decide _); [apply Hrec | apply Hstop]).
    + destruct (decide _); [apply Hrec | apply Hstop].
Qed.

End FetchWithRetry2.

(** C3. When every attempt fails with HTTP 429, HTTP 503 or a transport
    failure, [fetchWithRetry] started at attempt 0 makes [MAX_RETRIES + 1]
    requests (4 in the first version, 6 in the second), waits
    [2 ^ attempt] seconds after the attempt numbered [attempt] before it tries
    again, and then throws an error whose message ends with the message of the
    last failure. Whatever the server does and wherever the count starts, it
    returns after at most [MAX_RETRIES + 1] requests. *)
Theorem fetchWithRetry_gives_up_after_max_retries `{Host}
    (key : string) (env : Env) (url : string) (payload : Value) (st : AppState) :
  key <> "" ->
  (forall n, transient (server env n)) ->
  (App1.fetchWithRetry key env url payload 0 st
   = (Throw (mkExn Error ("Failed after 3 attempts: " +:+ lastError1 (server env 3))),
      addEvents (retryTrace url payload 0 App1.MAX_RETRIES) st)
   /\ retryTrace url payload 0 App1.MAX_RETRIES
      = [Fetch url payload; SetTimeout (2 ^ 0 * 1000);
         Fetch url payload; SetTimeout (2 ^ 1 * 1000);
         Fetch url payload; SetTimeout (2 ^ 2 * 1000);
         Fetch url payload]
   /\ fetchCount (retryTrace url payload 0 App1.MAX_RETRIES) = (App1.MAX_RETRIES + 1)%nat)
  /\ (App2.fetchWithRetry key env url payload 0 st
      = (Throw (mkExn Error ("Failed after 5 attempts: " +:+ lastError2 (server env 5))),
         addEvents (retryTrace url payload 0 App2.MAX_RETRIES) st)
      /\ retryTrace url payload 0 App2.MAX_RETRIES
         = [Fetch url payload; SetTimeout (2 ^ 0 * 1000);
            Fetch url payload; SetTimeout (2 ^ 1 * 1000);
            Fetch url payload; SetTimeout (2 ^ 2 * 1000);
            Fetch url payload; SetTimeout (2 ^ 3 * 1000);
            Fetch url payload; SetTimeout (2 ^ 4 * 1000);
            Fetch url payload]
      /\ fetchCount (retryTrace url payload 0 App2.MAX_RETRIES) = (App2.MAX_RETRIES + 1)%nat)
  /\ (forall (env' : Env) (retries : nat),
        (exists trace,
            snd (App1.fetchWithRetry key env' url payload retries st) = addEvents trace st
            /\ (fetchCount trace <= App1.MAX_RETRIES + 1)%nat)
        /\ (exists trace,
               snd (App2.fetchWithRetry key env' url payload retries st) = addEvents trace st
               /\ (fetchCount trace <= App2.MAX_RETRIES + 1)%nat)).
Proof.
  intros Hkey Htransient.
  assert (Hfail : forall n, failed (server env n)) by (intros n; apply transient_failed, Htransient).
  split; [|split].
  - split; [|split; [reflexivity | apply fetchCount_retryTrace]].
    apply (fetchWithRetry1_exhausts key env url payload Hkey Hfail 3 0 st). reflexivity.
  - split; [|split; [reflexivity | apply fetchCount_retryTrace]].
    apply (fetchWithRetry2_exhausts key env url payload Hkey Hfail 5 0 st). reflexivity.
  - intros env' retries. split.
    + destruct (fetchWithRetry1_bounded key env' url payload App1.MAX_RETRIES retries st)
        as (trace & Htrace & Hcount); [lia|].
      exists trace. split; [exact Htrace | lia].
    + destruct (fetchWithRetry2_bounded key env' url payload App2.MAX_RETRIES retries st)
        as (trace & Htrace & Hcount); [lia|].
      exists trace. split; [exact Htrace | lia].
Qed.

Lemma fetchWithRetry_gives_up_witness :
  fst (App1.fetchWithRetry (H := exampleHost) "k"
         (alwaysAnswers 503 "Service Unavailable" "The model is overloaded.")
         "u" VNull 0 initialState)
  = Throw (mkExn Error
             "Failed after 3 attempts: API Error 503: The model is overloaded.").
Proof.
  pose proof (fetchWithRetry_gives_up_after_max_retries (H := exampleHost) "k"
                (alwaysAnswers 503 "Service Unavailable" "The model is overloaded.")
                "u" VNull initialState) as Hthm.
  destruct Hthm as [(Hrun & _ & _) _].
  - discriminate.
  - intros n. right. reflexivity.
  - rewrite Hrun. reflexivity.
Defined.

(** C2, what the code does. A server that answers every attempt with HTTP 400
    is asked [MAX_RETRIES + 1] times, with the same waits as for a transient
    failure: the error thrown inside [try] for a status that is not retried
    is caught by the [catch] block of the same function, which retries. The
    message of the server reaches the caller behind two prefixes. *)
Theorem fetchWithRetry_retries_http_400 `{Host} (url : string) (payload : Value) (st : AppState) :
  let env := alwaysAnswers 400 "Bad Request" "Invalid argument." in
  App1.fetchWithRetry "k" env url payload 0 st
  = (Throw (mkExn Error "Failed after 3 attempts: API Error 400: Invalid argument."),
     addEvents [Fetch url payload; SetTimeout 1000; Fetch url payload; SetTimeout 2000;
                Fetch url payload; SetTimeout 4000; Fetch url payload] st)
  /\ App2.fetchWithRetry "k" env url payload 0 st
     = (Throw (mkExn Error "Failed after 5 attempts: API Error 400: Invalid argument."),
        addEvents [Fetch url payload; SetTimeout 1000; Fetch url payload; SetTimeout 2000;
                   Fetch url payload; SetTimeout 4000; Fetch url payload; SetTimeout 8000;
                   Fetch url payload; SetTimeout 16000; Fetch url payload] st).
Proof.
  intros env.
  assert (Hkey : "k" <> "") by discriminate.
  assert (Hfail : forall n, failed (server env n)) by (intros n; reflexivity).
  split.
  - apply (fetchWithRetry1_exhausts "k" env url payload Hkey Hfail 3 0 st). reflexivity.
  - apply (fetchWithRetry2_exhausts "k" env url payload Hkey Hfail 5 0 st). reflexivity.
Qed.

(** ** The classification flow *)

Section Classification1.
Context `{Host}.
Variables (key : string) (env : Env).

Lemma fetchWithRetry1_first_success url payload st body :
  key <> "" -> answersWith env body ->
  App1.fetchWithRetry key env url payload 0 st = (Return body, emit (Fetch url payload) st).
Proof.
  intros Hkey Hserver. rewrite App1.fetchWithRetry_equation_1. cbv beta zeta.
  rewrite (truthy_key key Hkey), Hserver. reflexivity.
Qed.

Lemma classifyWaste1_parses base64 languageCode text st :
  key <> "" -> knownLanguage languageCode -> text <> "" ->
  answersWith env (classificationResponse text) ->
  exists payload,
    App1.classifyWaste key env base64 languageCode st
    = (match JSON_parse text with
       | Some result => Return result
       | None => Throw (mkExn Error "Could not interpret AI classification data.")
       end, emit (Fetch (App1.API_URL key) payload) st).
Proof.
  intros Hkey Hlang Htext Hserver.
  assert (Htruthy : negb (String.eqb text "") = true)
    by (destruct (String.eqb_spec text ""); [contradiction | reflexivity]).
  unfold knownLanguage in Hlang. simpl in Hlang.
  destruct Hlang as [<- | [<- | [<- | [<- | []]]]];
    (eexists; unfold App1.classifyWaste;
     cbn [assoc App1.VOICE_CONFIGS String.eqb Ascii.eqb Bool.eqb];
     unfold mbind, M_bind, lift; cbn [getProp assoc String.eqb Ascii.eqb Bool.eqb firstWordOf];
     rewrite (fetchWithRetry1_first_success _ _ _ _ Hkey Hserver);
     unfold classificationResponse;
     cbn [getProp assoc String.eqb Ascii.eqb Bool.eqb optFirst optProp truthy andb];
     rewrite Htruthy; unfold tryCatch; cbn [ToString];
     destruct (JSON_parse text); reflexivity).
Qed.

Lemma analyzeWaste1_object base64 languageCode text props st :
  key <> "" -> knownLanguage languageCode -> text <> "" -> truthy base64 = true ->
  answersWith env (classificationResponse text) ->
  JSON_parse text = Some (VObj props) ->
  exists payload,
    App1.analyzeWaste key env base64 languageCode st
    = setIsLoading false
        (setPrediction (Some (predictionOf props))
           (emit (Fetch (App1.API_URL key) payload)
              (setPrediction None (setError None (setIsLoading true st))))).
Proof.
  intros Hkey Hlang Htext Hbase Hserver Hparse.
  destruct (classifyWaste1_parses base64 languageCode text
              (setPrediction None (setError None (setIsLoading true st)))
              Hkey Hlang Htext Hserver) as (payload & Hclassify).
  exists payload.
  unfold App1.analyzeWaste. rewrite Hbase. cbn [negb]. cbv zeta.
  unfold tryFinally, tryCatch. unfold mbind at 1. unfold M_bind at 1.
  rewrite Hclassify, Hparse. reflexivity.
Qed.

Lemma analyzeWaste1_unparseable base64 languageCode text st :
  key <> "" -> knownLanguage languageCode -> text <> "" -> truthy base64 = true ->
  answersWith env (classificationResponse text) ->
  JSON_parse text = None ->
  exists payload,
    App1.analyzeWaste key env base64 languageCode st
    = setIsLoading false
        (setError (Some "Could not interpret AI classification data.")
           (emit (Fetch (App1.API_URL key) payload)
              (setPrediction None (setError None (setIsLoading true st))))).
Proof.
  intros Hkey Hlang Htext Hbase Hserver Hparse.
  destruct (classifyWaste1_parses base64 languageCode text
              (setPrediction None (setError None (setIsLoading true st)))
              Hkey Hlang Htext Hserver) as (payload & Hclassify).
  exists payload.
  unfold App1.analyzeWaste. rewrite Hbase. cbn [negb]. cbv zeta.
  unfold tryFinally, tryCatch. unfold mbind at 1. unfold M_bind at 1.
  rewrite Hclassify, Hparse. reflexivity.
Qed.

End Classification1.

Section Classification2.
Context `{Host}.
Variables (key : string) (env : Env).

Lemma fetchWithRetry2_first_success url payload st body :
  key <> "" -> answersWith env body ->
  App2.fetchWithRetry key env url payload 0 st = (Return body, emit (Fetch url payload) st).
Proof.
  intros Hkey Hserver. rewrite App2.fetchWithRetry_equation_1. cbv beta zeta.
  rewrite (truthy_key key Hkey), Hserver. reflexivity.
Qed.

Lemma classifyWaste2_parses base64 languageCode text st :
  key <> "" -> knownLanguage languageCode -> text <> "" ->
  answersWith env (classificationResponse text) ->
  exists payload,
    App2.classifyWaste key env base64 languageCode st
    = (match JSON_parse text with
       | Some result => Return result
       | None => Throw (mkExn Error "Could not interpret AI classification data.")
       end, emit (Fetch (App2.API_URL_GEMINI key) payload) st).
Proof.
  intros Hkey Hlang Htext Hserver.
  assert (Htruthy : negb (String.eqb text "") = true)
    by (destruct (String.eqb_spec text ""); [contradiction | reflexivity]).
  unfold knownLanguage in Hlang. simpl in Hlang.
  destruct Hlang as [<- | [<- | [<- | [<- | []]]]];
    (eexists; unfold App2.classifyWaste;
     cbn [assoc App2.VOICE_CONFIGS String.eqb Ascii.eqb Bool.eqb];
     unfold mbind, M_bind, lift; cbn [getProp assoc String.eqb Ascii.eqb Bool.eqb firstWordOf];
     rewrite (fetchWithRetry2_first_success _ _ _ _ Hkey Hserver);
     unfold classificationResponse;
     cbn [getProp assoc String.eqb Ascii.eqb Bool.eqb optFirst optProp truthy andb];
     rewrite Htruthy; unfold tryCatch; cbn [ToString];
     destruct (JSON_parse text); reflexivity).
Qed.

Lemma analyzeWaste2_object base64 languageCode text props st :
  key <> "" -> knownLanguage languageCode -> text <> "" -> truthy base64 = true ->
  answersWith env (classificationResponse text) ->
  JSON_parse text = Some (VObj props) ->
  exists payload,
    App2.analyzeWaste key env base64 languageCode st
    = setIsLoading false
        (setPrediction (Some (predictionOf props))
           (emit (Fetch (App2.API_URL_GEMINI key) payload)
              (setPrediction None (setError None (setIsLoading true st))))).
Proof.
  intros Hkey Hlang Htext Hbase Hserver Hparse.
  destruct (classifyWaste2_parses base64 languageCode text
              (setPrediction None (setError None (setIsLoading true st)))
              Hkey Hlang Htext Hserver) as (payload & Hclassify).
  exists payload.
  unfold App2.analyzeWaste. rewrite Hbase. cbn [negb]. cbv zeta.
  unfold tryFinally, tryCatch. unfold mbind at 1. unfold M_bind at 1.
  rewrite Hclassify, Hparse. reflexivity.
Qed.

Lemma analyzeWaste2_unparseable base64 languageCode text st :
  key <> "" -> knownLanguage languageCode -> text <> "" -> truthy base64 = true ->
  answersWith env (classificationResponse text) ->
  JSON_parse text = None ->
  exists payload,
    App2.analyzeWaste key env base64 languageCode st
    = setIsLoading false
        (setError (Some "Could not interpret AI classification data.")
           (emit (Fetch (App2.API_URL_GEMINI key) payload)
              (setPrediction None (setError None (setIsLoading true st))))).
Proof.
  intros Hkey Hlang Htext Hbase Hserver Hparse.
  destruct (classifyWaste2_parses base64 languageCode text
              (setPrediction None (setError None (setIsLoading true st)))
              Hkey Hlang Htext Hserver) as (payload & Hclassify).
  exists payload.
  unfold App2.analyzeWaste. rewrite Hbase. cbn [negb]. cbv zeta.
  unfold tryFinally, tryCatch. unfold mbind at 1. unfold M_bind at 1.
  rewrite Hclassify, Hparse. reflexivity.
Qed.

End Classification2.

(** C5. In the first version, a response whose text reads as the object of
    the scenario gives, with the constant 83, the prediction with the value
    "1.66" (0.02 times 83, rounded to two decimals) and the weight label
    "50g" (0.05 is below 0.1, so grams are shown). *)
Theorem plastic_bottle_scenario `{Host} (key : string) (env : Env) (base64 : Value)
    (languageCode text : string) (st : AppState) :
  key <> "" -> knownLanguage languageCode -> text <> "" -> truthy base64 = true ->
  answersWith env (classificationResponse text) ->
  JSON_parse text = Some (VObj scenarioProps) ->
  let st' := App1.analyzeWaste key env base64 languageCode st in
  App1.INR_PER_USD = 83%float
  /\ error st' = None
  /\ prediction st' = Some examplePrediction
  /\ valueINR examplePrediction = "1.66"
  /\ (Math_round (0.02 * App1.INR_PER_USD * 100) / 100)%float = 1.66%float
  /\ (0.05 <? 0.1)%float = true
  /\ App1.displayWeight examplePrediction = "50g".
Proof.
  intros Hkey Hlang Htext Hbase Hserver Hparse st'. subst st'.
  destruct (analyzeWaste1_object key env base64 languageCode text scenarioProps st
              Hkey Hlang Htext Hbase Hserver Hparse) as (payload & ->).
  cbn [error prediction setIsLoading setPrediction setError emit].
  repeat split; vm_compute; reflexivity.
Qed.

Lemma plastic_bottle_scenario_witness :
  prediction (App1.analyzeWaste (H := exampleHost) "k"
                (answering (classificationResponse scenarioText))
                (VStr "aW1hZ2U=") "en-US" initialState)
  = Some examplePrediction
  /\ App1.displayWeight (H := exampleHost) examplePrediction = "50g".
Proof.
  pose proof (plastic_bottle_scenario (H := exampleHost) "k"
                (answering (classificationResponse scenarioText))
                (VStr "aW1hZ2U=") "en-US" scenarioText initialState) as Hthm.
  destruct Hthm as (_ & _ & Hprediction & _ & _ & _ & Hweight).
  - discriminate.
  - left. reflexivity.
  - discriminate.
  - reflexivity.
  - reflexivity.
  - reflexivity.
  - split; [exact Hprediction | exact Hweight].
Defined.

(** The label of the second version for the same prediction. *)
Lemma plastic_bottle_weight_second_version `{Host} :
  App2.displayWeight examplePrediction = "50 grams".
Proof. vm_compute. reflexivity. Qed.

(** C4 as stated fails: a response with only [objectName] and [material]
    is accepted without an error, with the value "0.00", the weight 0 and no
    instructions. *)
Lemma missing_fields_counterexample :
  let st' := App1.analyzeWaste (H := exampleHost) "k"
               (answering (classificationResponse partialText))
               (VStr "aW1hZ2U=") "en-US" initialState in
  JSON_parse (Host := exampleHost) partialText = Some (VObj partialProps)
  /\ assoc "estimatedValueUSD" partialProps = VUndefined
  /\ error st' = None
  /\ prediction st'
     = Some (mkPrediction (VStr "Plastic Bottle") (VStr "Plastic") "0.00" (VNum 0) VUndefined).
Proof. vm_compute. repeat split; reflexivity. Qed.

(** C4, amended. In both versions a response whose text reads as a JSON
    object gives a prediction and no error: [objectName], [material] and
    [disposalInstructions] are taken as they are, [undefined] when absent; an
    absent [estimatedValueUSD] counts as 0 and shows as "0.00"; an absent
    [estimatedWeightKg] counts as 0 and shows as "None detectable". A text
    that does not read as JSON gives the error "Could not interpret AI
    classification data." and no prediction. *)
Theorem missing_fields_take_defaults `{Host} (key : string) (env : Env) (base64 : Value)
    (languageCode text : string) (st st' : AppState) :
  key <> "" -> knownLanguage languageCode -> text <> "" -> truthy base64 = true ->
  answersWith env (classificationResponse text) ->
  st' = App1.analyzeWaste key env base64 languageCode st
  \/ st' = App2.analyzeWaste key env base64 languageCode st ->
  (forall props, JSON_parse text = Some (VObj props) ->
     error st' = None
     /\ prediction st' = Some (predictionOf props)
     /\ objectName (predictionOf props) = assoc "objectName" props
     /\ category (predictionOf props) = assoc "material" props
     /\ message (predictionOf props) = assoc "disposalInstructions" props
     /\ (assoc "estimatedValueUSD" props = VUndefined ->
         valueINR (predictionOf props) = "0.00")
     /\ (assoc "estimatedWeightKg" props = VUndefined ->
         weightKg (predictionOf props) = VNum 0
         /\ App1.displayWeight (predictionOf props) = "None detectable"
         /\ App2.displayWeight (predictionOf props) = "None detectable"))
  /\ (JSON_parse text = None ->
      prediction st' = None
      /\ error st' = Some "Could not interpret AI classification data.").
Proof.
  intros Hkey Hlang Htext Hbase Hserver Hst'. split.
  - intros props Hparse.
    assert (Hrun : error st' = None /\ prediction st' = Some (predictionOf props)).
    { destruct Hst' as [-> | ->].
      - destruct (analyzeWaste1_object key env base64 languageCode text props st
                    Hkey Hlang Htext Hbase Hserver Hparse) as (payload & ->).
        split; reflexivity.
      - destruct (analyzeWaste2_object key env base64 languageCode text props st
                    Hkey Hlang Htext Hbase Hserver Hparse) as (payload & ->).
        split; reflexivity. }
    destruct Hrun as [Herror Hprediction].
    do 5 (split; [first [assumption | reflexivity]|]).
    split; intros Hmissing.
    + unfold predictionOf. cbn [valueINR]. rewrite Hmissing. vm_compute. reflexivity.
    + unfold App1.displayWeight, App2.displayWeight, predictionOf. cbn [weightKg].
      rewrite Hmissing. repeat split; vm_compute; reflexivity.
  - intros Hparse. destruct Hst' as [-> | ->].
    + destruct (analyzeWaste1_unparseable key env base64 languageCode text st
                  Hkey Hlang Htext Hbase Hserver Hparse) as (payload & ->).
      split; reflexivity.
    + destruct (analyzeWaste2_unparseable key env base64 languageCode text st
                  Hkey Hlang Htext Hbase Hserver Hparse) as (payload & ->).
      split; reflexivity.
Qed.

Lemma missing_fields_take_defaults_witness :
  prediction (App2.analyzeWaste (H := exampleHost) "k"
                (answering (classificationResponse partialText))
                (VStr "aW1hZ2U=") "hi-IN" initialState)
  = Some (predictionOf (H := exampleHost) partialProps)
  /\ valueINR (predictionOf (H := exampleHost) partialProps) = "0.00".
Proof.
  pose proof (missing_fields_take_defaults (H := exampleHost) "k"
                (answering (classificationResponse partialText))
                (VStr "aW1hZ2U=") "hi-IN" partialText initialState
                (App2.analyzeWaste (H := exampleHost) "k"
                   (answering (classificationResponse partialText))
                   (VStr "aW1hZ2U=") "hi-IN" initialState)) as Hthm.
  destruct Hthm as [Hobject _].
  - discriminate.
  - right. left. reflexivity.
  - discriminate.
  - reflexivity.
  - reflexivity.
  - right. reflexivity.
  - destruct (Hobject partialProps) as (_ & Hprediction & _ & _ & _ & Hvalue & _).
    + reflexivity.
    + split; [exact Hprediction | apply Hvalue; reflexivity].
Defined.

(** ** The speech flow *)

Lemma selectedLanguageCode_generating st :
  selectedLanguageCode (generating st) = selectedLanguageCode st.
Proof.
  unfold generating, pauseCurrent. cbn [audioRef setIsAudioPlaying setIsAudioGenerating].
  destruct (audioRef st) as [[src []]|]; reflexivity.
Qed.

Lemma not_Playing_paused st :
  (forall a, audioRef st = Some a -> audio_paused a = true) -> ~ Playing st.
Proof. intros Hpaused (a & Href & Hplay). rewrite (Hpaused a Href) in Hplay. discriminate. Qed.

Lemma paused_pauseCurrent st a :
  audioRef (pauseCurrent st) = Some a -> audio_paused a = true.
Proof.
  unfold pauseCurrent. destruct (audioRef st) as [[src []]|] eqn:Href; cbn; rewrite ?Href;
    intros [= <-]; reflexivity.
Qed.

Lemma isAudioGenerating_pauseCurrent st :
  isAudioGenerating (pauseCurrent st) = isAudioGenerating st.
Proof. unfold pauseCurrent. destruct (audioRef st) as [[src []]|]; reflexivity. Qed.

Lemma fetchCount_pauseCurrent st :
  fetchCount (events (pauseCurrent st)) = fetchCount (events st).
Proof.
  unfold pauseCurrent. destruct (audioRef st) as [[src []]|]; cbn;
    rewrite ?fetchCount_app; simpl; lia.
Qed.

Lemma isAudioPlaying_generating st : isAudioPlaying (generating st) = false.
Proof.
  unfold generating, pauseCurrent. cbn [audioRef setIsAudioPlaying setIsAudioGenerating].
  destruct (audioRef st) as [[src []]|]; reflexivity.
Qed.

Lemma not_Playing_generating st : ~ Playing (generating st).
Proof. apply not_Playing_paused. intros a. apply paused_pauseCurrent. Qed.

Section Speech1.
Context `{Host}.
Variables (key : string) (env : Env).

Lemma generateAndPlayAudio1_odd text data mimeType bytes st :
  key <> "" -> truthy text = true -> notPlaying st ->
  knownLanguage (selectedLanguageCode st) ->
  data <> "" ->
  answersWith env (speechResponse (VStr data) mimeType) ->
  atob data = Return bytes -> Nat.even (length bytes) = false ->
  exists payload,
    App1.generateAndPlayAudio key env text st
    = setIsAudioGenerating false
        (setError (Some "Voice generation unavailable. byte length of Int16Array should be a multiple of 2")
           (emit (Fetch (App1.API_URL key) payload) (generating st))).
Proof.
  intros Hkey Htext Hguard Hlang Hdata Hserver Hatob Hodd.
  assert (Htruthy : negb (String.eqb data "") = true)
    by (destruct (String.eqb_spec data ""); [contradiction | reflexivity]).
  unfold App1.generateAndPlayAudio. rewrite Htext. cbn [negb].
  unfold notPlaying in Hguard. rewrite Hguard. cbv zeta.
  fold (generating st). rewrite selectedLanguageCode_generating.
  unfold knownLanguage in Hlang. simpl in Hlang.
  destruct Hlang as [<- | [<- | [<- | [<- | []]]]];
    (eexists; unfold tryFinally, tryCatch;
     cbn [assoc App1.VOICE_CONFIGS String.eqb Ascii.eqb Bool.eqb];
     unfold mbind, M_bind, lift; cbn [getProp assoc String.eqb Ascii.eqb Bool.eqb];
     rewrite (fetchWithRetry1_first_success _ _ _ _ _ _ Hkey Hserver);
     unfold speechResponse, firstPart;
     cbn [assoc String.eqb Ascii.eqb Bool.eqb optFirst optProp truthy];
     rewrite Htruthy; unfold base64ToArrayBuffer; cbn [ToString]; rewrite Hatob;
     unfold Int16Array; rewrite length_map, Hodd; reflexivity).
Qed.

Lemma generateAndPlayAudio1_plays text data mimeType bytes st :
  key <> "" -> truthy text = true -> notPlaying st ->
  knownLanguage (selectedLanguageCode st) ->
  data <> "" ->
  answersWith env (speechResponse (VStr data) mimeType) ->
  atob data = Return bytes -> Nat.even (length bytes) = true ->
  exists payload,
    let blob := wavBlob (samplesOf bytes) 24000 in
    App1.generateAndPlayAudio key env text st
    = setIsAudioGenerating false
        (App1.play env
           (setIsAudioPlaying true
              (setIsAudioGenerating false
                 (setAudioRef (Some (mkAudio blob true))
                    (emit (NewAudio blob)
                       (emit (CreateObjectURL blob)
                          (emit (Fetch (App1.API_URL key) payload) (generating st)))))))).
Proof.
  intros Hkey Htext Hguard Hlang Hdata Hserver Hatob Heven.
  assert (Htruthy : negb (String.eqb data "") = true)
    by (destruct (String.eqb_spec data ""); [contradiction | reflexivity]).
  unfold App1.generateAndPlayAudio. rewrite Htext. cbn [negb].
  unfold notPlaying in Hguard. rewrite Hguard. cbv zeta.
  fold (generating st). rewrite selectedLanguageCode_generating.
  unfold knownLanguage in Hlang. simpl in Hlang.
  destruct Hlang as [<- | [<- | [<- | [<- | []]]]];
    (eexists; unfold tryFinally, tryCatch;
     cbn [assoc App1.VOICE_CONFIGS String.eqb Ascii.eqb Bool.eqb];
     unfold mbind, M_bind, lift; cbn [getProp assoc String.eqb Ascii.eqb Bool.eqb];
     rewrite (fetchWithRetry1_first_success _ _ _ _ _ _ Hkey Hserver);
     unfold speechResponse, firstPart;
     cbn [assoc String.eqb Ascii.eqb Bool.eqb optFirst optProp truthy];
     rewrite Htruthy; unfold base64ToArrayBuffer; cbn [ToString]; rewrite Hatob;
     unfold Int16Array; rewrite length_map, Heven;
     rewrite pcmToWav_outcome_returns; reflexivity).
Qed.

End Speech1.

Section Speech2.
Context `{Host}.
Variables (key : string) (env : Env).

Lemma generateAndPlayAudio2_no_rate text data mimeType st :
  key <> "" -> truthy text = true -> notPlaying st ->
  knownLanguage (selectedLanguageCode st) ->
  data <> "" ->
  answersWith env (speechResponse (VStr data) mimeType) ->
  declaredRate mimeType = None ->
  exists payload,
    App2.generateAndPlayAudio key env text st
    = setIsAudioGenerating false
        (setError (Some (rejectionMessage mimeType))
           (emit (Fetch (App2.API_URL_TTS key) payload) (generating st))).
Proof.
  intros Hkey Htext Hguard Hlang Hdata Hserver Hrate.
  assert (Htruthy : negb (String.eqb data "") = true)
    by (destruct (String.eqb_spec data ""); [contradiction | reflexivity]).
  unfold App2.generateAndPlayAudio. rewrite Htext. cbn [negb].
  unfold notPlaying in Hguard. rewrite Hguard. cbv zeta.
  fold (generating st). rewrite selectedLanguageCode_generating.
  unfold knownLanguage in Hlang. simpl in Hlang.
  destruct Hlang as [<- | [<- | [<- | [<- | []]]]];
    (eexists; unfold tryFinally, tryCatch;
     cbn [assoc App2.VOICE_CONFIGS String.eqb Ascii.eqb Bool.eqb];
     unfold mbind, M_bind, lift; cbn [getProp assoc String.eqb Ascii.eqb Bool.eqb];
     rewrite (fetchWithRetry2_first_success _ _ _ _ _ _ Hkey Hserver);
     unfold speechResponse, firstPart, rejectionMessage;
     cbn [assoc String.eqb Ascii.eqb Bool.eqb optFirst optProp];
     change (truthy (VStr data)) with (negb (String.eqb data ""));
     rewrite Htruthy; cbn [andb];
     destruct mimeType as [| |[]|x|s|items|props]; cbn [truthy startsWith negb];
     try reflexivity;
     [ destruct (is_zero x || is_nan x); reflexivity
     | destruct (String.eqb s ""); cbn [negb]; [reflexivity|];
       simpl in Hrate; destruct (String.prefix "audio/" s); [|reflexivity];
       cbn [ToString]; rewrite Hrate; reflexivity ]).
Qed.

Ltac speech2_start Hkey Htext Hguard Hlang Hdata Hserver Hmime :=
  let Htruthy := fresh "Htruthy" in
  match type of Hdata with
  | ?data <> _ =>
      assert (Htruthy : negb (String.eqb data "") = true)
        by (destruct (String.eqb_spec data ""); [contradiction | reflexivity]);
      unfold App2.generateAndPlayAudio; rewrite Htext; cbn [negb];
      unfold notPlaying in Hguard; rewrite Hguard; cbv zeta;
      match goal with st : AppState |- _ =>
        fold (generating st); rewrite selectedLanguageCode_generating
      end;
      unfold knownLanguage in Hlang; simpl in Hlang;
      destruct Hlang as [<- | [<- | [<- | [<- | []]]]];
      (eexists; unfold tryFinally, tryCatch;
       cbn [assoc App2.VOICE_CONFIGS String.eqb Ascii.eqb Bool.eqb];
       unfold mbind, M_bind, lift; cbn [getProp assoc String.eqb Ascii.eqb Bool.eqb];
       rewrite (fetchWithRetry2_first_success _ _ _ _ _ _ Hkey Hserver);
       unfold speechResponse, firstPart;
       cbn [assoc String.eqb Ascii.eqb Bool.eqb optFirst optProp];
       change (truthy (VStr data)) with (negb (String.eqb data ""));
       rewrite Htruthy; cbn [andb])
  end.

Lemma declaredRate_inv mimeType digits :
  declaredRate mimeType = Some digits ->
  exists s, mimeType = VStr s /\ s <> "" /\ String.prefix "audio/" s = true
            /\ matchRate s = Some digits.
Proof.
  destruct mimeType as [| |b|x|s|items|props]; try discriminate. simpl.
  destruct (String.prefix "audio/" s) eqn:Hprefix; [|discriminate].
  intros Hrate. exists s. repeat split; try assumption.
  intros ->. discriminate.
Qed.

Lemma generateAndPlayAudio2_odd text data mimeType digits bytes st :
  key <> "" -> truthy text = true -> notPlaying st ->
  knownLanguage (selectedLanguageCode st) ->
  data <> "" ->
  answersWith env (speechResponse (VStr data) mimeType) ->
  declaredRate mimeType = Some digits ->
  atob data = Return bytes -> Nat.even (length bytes) = false ->
  exists payload,
    App2.generateAndPlayAudio key env text st
    = setIsAudioGenerating false
        (setError (Some "byte length of Int16Array should be a multiple of 2")
           (emit (Fetch (App2.API_URL_TTS key) payload) (generating st))).
Proof.
  intros Hkey Htext Hguard Hlang Hdata Hserver Hmime Hatob Hodd.
  destruct (declaredRate_inv _ _ Hmime) as (mime & -> & Hne & Hprefix & Hrate).
  assert (Hmt : negb (String.eqb mime "") = true)
    by (destruct (String.eqb_spec mime ""); [contradiction | reflexivity]).
  speech2_start Hkey Htext Hguard Hlang Hdata Hserver Hmime;
    cbn [truthy startsWith]; rewrite Hmt, Hprefix; cbn [ToString]; rewrite Hrate;
    unfold base64ToArrayBuffer; cbn [ToString]; rewrite Hatob;
    unfold Int16Array; rewrite length_map, Hodd; reflexivity.
Qed.


End Speech2.




(** C10. When the audio data decodes to an odd number of bytes,
    [new Int16Array(buffer)] throws a [RangeError]: in both versions the
    flow reports that error, the ref keeps the element it had, nothing plays
    and the trace gains the request only. [Int16Array] returns samples
    exactly for buffers of even length. (In the second version the MIME type
    must declare a rate for the flow to get that far; without one the response
    is rejected before, with the same absence of a playback resource.) *)
Theorem odd_length_audio_is_rejected `{Host} (key : string) (env : Env) (text : Value)
    (data : string) (mimeType : Value) (bytes : list Z) (st : AppState) :
  key <> "" -> truthy text = true -> notPlaying st ->
  knownLanguage (selectedLanguageCode st) -> data <> "" ->
  answersWith env (speechResponse (VStr data) mimeType) ->
  atob data = Return bytes -> Nat.even (length bytes) = false ->
  base64ToArrayBuffer (VStr data) = Return (map (fun c => c mod 256) bytes)
  /\ Int16Array (map (fun c => c mod 256) bytes)
     = Throw (mkExn RangeError "byte length of Int16Array should be a multiple of 2")
  /\ (forall buffer : list Z,
        (exists samples, Int16Array buffer = Return samples) <-> Nat.even (length buffer) = true)
  /\ (let st' := App1.generateAndPlayAudio key env text st in
      error st' = Some "Voice generation unavailable. byte length of Int16Array should be a multiple of 2"
      /\ audioRef st' = audioRef (generating st)
      /\ ~ Playing st'
      /\ isAudioPlaying st' = false
      /\ isAudioGenerating st' = false
      /\ exists payload,
           events st' = events (generating st) ++ [Fetch (App1.API_URL key) payload])
  /\ (forall digits, declaredRate mimeType = Some digits ->
      let st' := App2.generateAndPlayAudio key env text st in
      error st' = Some "byte length of Int16Array should be a multiple of 2"
      /\ audioRef st' = audioRef (generating st)
      /\ ~ Playing st'
      /\ isAudioPlaying st' = false
      /\ isAudioGenerating st' = false
      /\ exists payload,
           events st' = events (generating st) ++ [Fetch (App2.API_URL_TTS key) payload])
  /\ (declaredRate mimeType = None ->
      let st' := App2.generateAndPlayAudio key env text st in
      error st' = Some (rejectionMessage mimeType)
      /\ audioRef st' = audioRef (generating st)
      /\ ~ Playing st'
      /\ isAudioPlaying st' = false
      /\ isAudioGenerating st' = false
      /\ exists payload,
           events st' = events (generating st) ++ [Fetch (App2.API_URL_TTS key) payload]).
Proof.
  intros Hkey Htext Hguard Hlang Hdata Hserver Hatob Hodd.
  assert (Hquiet : forall payload url message,
    let st' := setIsAudioGenerating false
                 (setError (Some message) (emit (Fetch url payload) (generating st))) in
    error st' = Some message
    /\ audioRef st' = audioRef (generating st)
    /\ ~ Playing st'
    /\ isAudioPlaying st' = false
    /\ isAudioGenerating st' = false
    /\ exists payload', events st' = events (generating st) ++ [Fetch url payload']).
  { intros payload url message. cbv zeta.
    cbn [error audioRef isAudioPlaying isAudioGenerating events
         setIsAudioGenerating setError emit].
    split; [reflexivity|]. split; [reflexivity|]. split.
    { intros (a & Href & Hplay). apply (not_Playing_generating st). by exists a. }
    split; [apply isAudioPlaying_generating|]. split; [reflexivity|].
    by exists payload. }
  split; [|split; [|split; [|split; [|split]]]].
  - unfold base64ToArrayBuffer. cbn [ToString]. by rewrite Hatob.
  - unfold Int16Array. by rewrite length_map, Hodd.
  - intros buffer. unfold Int16Array. destruct (Nat.even (length buffer)).
    + split; [reflexivity | by eexists].
    + split; [intros (samples & [=]) | discriminate].
  - destruct (generateAndPlayAudio1_odd key env text data mimeType bytes st
                Hkey Htext Hguard Hlang Hdata Hserver Hatob Hodd) as (payload & Hrun).
    cbv zeta. rewrite Hrun. apply Hquiet.
  - intros digits Hmime.
    destruct (generateAndPlayAudio2_odd key env text data mimeType digits bytes st
                Hkey Htext Hguard Hlang Hdata Hserver Hmime Hatob Hodd) as (payload & Hrun).
    cbv zeta. rewrite Hrun. apply Hquiet.
  - intros Hmime.
    destruct (generateAndPlayAudio2_no_rate key env text data mimeType st
                Hkey Htext Hguard Hlang Hdata Hserver Hmime) as (payload & Hrun).
    cbv zeta. rewrite Hrun. apply Hquiet.
Qed.

Lemma odd_length_audio_is_rejected_witness :
  let st' := App2.generateAndPlayAudio (H := exampleHost) "k"
               (answering (speechResponse (VStr "AAAA") (VStr "audio/L16;codec=pcm;rate=24000")))
               (VStr "Rinse and place in recycling.") initialState in
  atob "AAAA" = Return [0; 0; 0]
  /\ error st' = Some "byte length of Int16Array should be a multiple of 2"
  /\ audioRef st' = None.
Proof.
  pose proof (odd_length_audio_is_rejected (H := exampleHost) "k"
                (answering (speechResponse (VStr "AAAA") (VStr "audio/L16;codec=pcm;rate=24000")))
                (VStr "Rinse and place in recycling.") "AAAA"
                (VStr "audio/L16;codec=pcm;rate=24000") [0; 0; 0] initialState) as Hthm.
  destruct Hthm as (_ & _ & _ & _ & Hsecond & _).
  - discriminate.
  - reflexivity.
  - reflexivity.
  - left. reflexivity.
  - discriminate.
  - reflexivity.
  - reflexivity.
  - reflexivity.
  - destruct (Hsecond "24000") as (Herror & Href & _); [reflexivity|].
    split; [reflexivity|]. split; [exact Herror | exact Href].
Defined.

(** ** The playback state machine *)

Lemma audioCells_addEvents trace st : audioCells (addEvents trace st) = audioCells st.
Proof. reflexivity. Qed.

Lemma settled_cells st st' : audioCells st' = audioCells st -> settled st -> settled st'.
Proof.
  unfold audioCells, settled, Playing. intros [= Hg Hp Hr]. rewrite Hg, Hp, Hr. tauto.
Qed.

Lemma settled_pauseCurrent st : settled st -> settled (pauseCurrent st).
Proof.
  intros [Hg _]. split; [by rewrite isAudioGenerating_pauseCurrent|].
  intros Hplay. exfalso. revert Hplay. apply not_Playing_paused, paused_pauseCurrent.
Qed.

Lemma settled_audioEnded st : settled st -> settled (audioEnded st).
Proof.
  unfold settled, Playing, audioEnded. intros [Hg Hp].
  destruct (audioRef st) as [[src []]|] eqn:Href; cbn; rewrite ?Href;
    (split; [assumption|]); try assumption.
  intros (a & [= <-] & [=]).
Qed.

Lemma settled_clearAll st : settled st -> settled (clearAll st).
Proof.
  unfold settled, Playing, clearAll, pauseCurrent. intros [Hg Hp].
  cbn [audioRef setIsLoading setError setPrediction setBase64Image].
  destruct (audioRef st) as [[src []]|] eqn:Href; cbn; rewrite ?Href;
    (split; [assumption|]); intros (a & [=] & _).
Qed.

Section Machine1.
Context `{Host}.
Variable key : string.

Lemma fetchWithRetry1_state env url payload retries st :
  exists trace, snd (App1.fetchWithRetry key env url payload retries st) = addEvents trace st.
Proof.
  destruct (fetchWithRetry1_bounded key env url payload App1.MAX_RETRIES retries st)
    as (trace & Htrace & _); [lia|].
  by exists trace.
Qed.

Lemma classifyWaste1_state env base64 languageCode st :
  exists trace, snd (App1.classifyWaste key env base64 languageCode st) = addEvents trace st.
Proof.
  assert (Hnone : st = addEvents [] st)
    by (destruct st; unfold addEvents; simpl; by rewrite app_nil_r).
  unfold App1.classifyWaste, mbind, M_bind, lift. cbv zeta.
  destruct (getProp _ "label") as [label|e]; [|by exists []].
  destruct (firstWordOf label) as [languageLabel|e]; [|by exists []].
  destruct (fetchWithRetry1_state env (App1.API_URL key)
              (App1.classifyPayload base64 languageLabel) 0 st) as (trace & Htrace).
  destruct (App1.fetchWithRetry _ _ _ _ _ _) as [[response|e] st1]; simpl in Htrace; subst st1;
    [|by exists trace].
  destruct (getProp response "candidates") as [candidates|e]; [|by exists trace].
  destruct (truthy _ && truthy _); [|by exists trace].
  unfold tryCatch. destruct (JSON_parse _); by exists trace.
Qed.

Lemma analyzeWaste1_cells env base64 languageCode st :
  audioCells (App1.analyzeWaste key env base64 languageCode st) = audioCells st.
Proof.
  unfold App1.analyzeWaste. destruct (negb (truthy base64)); [reflexivity|]. cbv zeta.
  unfold tryFinally, tryCatch. unfold mbind at 1. unfold M_bind at 1.
  destruct (classifyWaste1_state env base64 languageCode
              (setPrediction None (setError None (setIsLoading true st)))) as (trace & Htrace).
  destruct (App1.classifyWaste _ _ _ _ _) as [[result|e] st1]; simpl in Htrace; subst st1;
    [|reflexivity].
  unfold mbind, M_bind, lift, modify.
  repeat (destruct (getProp result _); [|reflexivity]). reflexivity.
Qed.

Lemma handleFileChange1_cells env image st :
  audioCells (App1.handleFileChange key env image st) = audioCells st.
Proof.
  unfold App1.handleFileChange. destruct image; [|reflexivity].
  cbv zeta. by rewrite analyzeWaste1_cells.
Qed.

Lemma capturePhoto1_cells env frame st :
  audioCells (App1.capturePhoto key env frame st) = audioCells st.
Proof.
  unfold App1.capturePhoto. destruct frame; [|reflexivity].
  cbv zeta. by rewrite analyzeWaste1_cells.
Qed.

Lemma updateLanguage1_cells env code st :
  audioCells (App1.updateLanguage key env code st) = audioCells st.
Proof.
  unfold App1.updateLanguage. cbv zeta. destruct (truthy _); [|reflexivity].
  by rewrite analyzeWaste1_cells.
Qed.

Lemma settled_generateAndPlayAudio1 env text st :
  settled st -> settled (App1.generateAndPlayAudio key env text st).
Proof.
  intros Hst. unfold App1.generateAndPlayAudio.
  destruct (negb (truthy text)); [exact Hst|].
  destruct (isAudioPlaying st && _); [by apply settled_pauseCurrent|]. cbv zeta.
  fold (generating st). pose proof (not_Playing_generating st) as Hquiet.
  unfold tryFinally, tryCatch, mbind, M_bind, lift, modify.
  assert (Hfail : forall trace message,
    settled (setIsAudioGenerating false
               (setError message (addEvents trace (generating st))))).
  { intros trace message. split; [reflexivity|]. intros Hplay. by destruct Hquiet. }
  assert (Hnone : generating st = addEvents [] (generating st))
    by (destruct (generating st); unfold addEvents; simpl; by rewrite app_nil_r).
  destruct (getProp _ "name") as [voiceName|e];
    [|rewrite Hnone at 1; apply Hfail].
  destruct (fetchWithRetry1_state env (App1.API_URL key)
              (App1.speechPayload text voiceName) 0 (generating st)) as (trace & Htrace).
  destruct (App1.fetchWithRetry _ _ _ _ _ _) as [[response|e] st1]; simpl in Htrace; subst st1;
    [|apply Hfail].
  destruct (truthy _); [|apply Hfail].
  destruct (base64ToArrayBuffer _) as [buffer|e]; [|apply Hfail].
  destruct (Int16Array buffer) as [pcm16|e]; [|apply Hfail].
  rewrite pcmToWav_outcome_returns.
  split; [reflexivity|]. intros _. unfold App1.play. cbn.
  destruct (playRejected env); reflexivity.
Qed.

Lemma settled_step1 st st' : App1.step key st st' -> settled st -> settled st'.
Proof.
  intros [env p st0 Hp Hg Hm | st0 | st0 | env st0 | env image st0 | env frame st0
          | env code st0] Hst.
  - unfold App1.handleAudioButtonClick. destruct (isAudioPlaying st0 && _).
    + by apply settled_pauseCurrent.
    + by apply settled_generateAndPlayAudio1.
  - by apply settled_audioEnded.
  - by apply settled_clearAll.
  - eapply settled_cells; [apply analyzeWaste1_cells | assumption].
  - eapply settled_cells; [apply handleFileChange1_cells | assumption].
  - eapply settled_cells; [apply capturePhoto1_cells | assumption].
  - eapply settled_cells; [apply updateLanguage1_cells | assumption].
Qed.

Lemma settled_reachable1 st : App1.reachable key st -> settled st.
Proof.
  unfold App1.reachable. revert st. apply rtc_ind_r.
  - split; [reflexivity|]. intros (a & [=] & _).
  - intros st st' _ Hstep Hst. by apply (settled_step1 st st').
Qed.

End Machine1.

Section Machine2.
Context `{Host}.
Variable key : string.

Lemma fetchWithRetry2_state env url payload retries st :
  exists trace, snd (App2.fetchWithRetry key env url payload retries st) = addEvents trace st.
Proof.
  destruct (fetchWithRetry2_bounded key env url payload App2.MAX_RETRIES retries st)
    as (trace & Htrace & _); [lia|].
  by exists trace.
Qed.

Lemma classifyWaste2_state env base64 languageCode st :
  exists trace, snd (App2.classifyWaste key env base64 languageCode st) = addEvents trace st.
Proof.
  assert (Hnone : st = addEvents [] st)
    by (destruct st; unfold addEvents; simpl; by rewrite app_nil_r).
  unfold App2.classifyWaste, mbind, M_bind, lift. cbv zeta.
  destruct (getProp _ "label") as [label|e]; [|by exists []].
  destruct (firstWordOf label) as [languageLabel|e]; [|by exists []].
  destruct (fetchWithRetry2_state env (App2.API_URL_GEMINI key)
              (App2.classifyPayload base64 languageLabel) 0 st) as (trace & Htrace).
  destruct (App2.fetchWithRetry _ _ _ _ _ _) as [[response|e] st1]; simpl in Htrace; subst st1;
    [|by exists trace].
  destruct (getProp response "candidates") as [candidates|e]; [|by exists trace].
  destruct (truthy _ && truthy _); [|by exists trace].
  unfold tryCatch. destruct (JSON_parse _); by exists trace.
Qed.

Lemma analyzeWaste2_cells env base64 languageCode st :
  audioCells (App2.analyzeWaste key env base64 languageCode st) = audioCells st.
Proof.
  unfold App2.analyzeWaste. destruct (negb (truthy base64)); [reflexivity|]. cbv zeta.
  unfold tryFinally, tryCatch. unfold mbind at 1. unfold M_bind at 1.
  destruct (classifyWaste2_state env base64 languageCode
              (setPrediction None (setError None (setIsLoading true st)))) as (trace & Htrace).
  destruct (App2.classifyWaste _ _ _ _ _) as [[result|e] st1]; simpl in Htrace; subst st1;
    [|reflexivity].
  unfold mbind, M_bind, lift, modify.
  repeat (destruct (getProp result _); [|reflexivity]). reflexivity.
Qed.

Lemma handleFileChange2_cells env image st :
  audioCells (App2.handleFileChange key env image st) = audioCells st.
Proof.
  unfold App2.handleFileChange. destruct image; [|reflexivity].
  cbv zeta. by rewrite analyzeWaste2_cells.
Qed.

Lemma capturePhoto2_cells env frame st :
  audioCells (App2.capturePhoto key env frame st) = audioCells st.
Proof.
  unfold App2.capturePhoto. destruct frame; [|reflexivity].
  cbv zeta. by rewrite analyzeWaste2_cells.
Qed.

Lemma updateLanguage2_cells env code st :
  audioCells (App2.updateLanguage key env code st) = audioCells st.
Proof.
  unfold App2.updateLanguage. cbv zeta. destruct (truthy _); [|reflexivity].
  by rewrite analyzeWaste2_cells.
Qed.

Lemma settled_generateAndPlayAudio2 env text st :
  settled st -> settled (App2.generateAndPlayAudio key env text st).
Proof.
  intros Hst. unfold App2.generateAndPlayAudio.
  destruct (negb (truthy text)); [exact Hst|].
  destruct (isAudioPlaying st && _); [by apply settled_pauseCurrent|]. cbv zeta.
  fold (generating st). pose proof (not_Playing_generating st) as Hquiet.
  unfold tryFinally, tryCatch, mbind, M_bind, lift, modify, mret, M_ret, throw.
  assert (Hfail : forall trace message,
    settled (setIsAudioGenerating false
               (setError message (addEvents trace (generating st))))).
  { intros trace message. split; [reflexivity|]. intros Hplay. by destruct Hquiet. }
  assert (Hnone : generating st = addEvents [] (generating st))
    by (destruct (generating st); unfold addEvents; simpl; by rewrite app_nil_r).
  destruct (getProp _ "name") as [voiceName|e];
    [|rewrite Hnone at 1; apply Hfail].
  destruct (fetchWithRetry2_state env (App2.API_URL_TTS key)
              (App2.speechPayload text voiceName) 0 (generating st)) as (trace & Htrace).
  destruct (App2.fetchWithRetry _ _ _ _ _ _) as [[response|e] st1]; simpl in Htrace; subst st1;
    [|apply Hfail].
  destruct (truthy _ && truthy _); [destruct (startsWith _ _) as [[]|e]|];
    try apply Hfail.
  destruct (matchRate _) as [digits|]; [|apply Hfail].
  destruct (base64ToArrayBuffer _) as [buffer|e]; [|apply Hfail].
  destruct (Int16Array buffer) as [pcm16|e]; [|apply Hfail].
  rewrite pcmToWav_outcome_returns.
  unfold App2.play, App2.playFailed. cbn.
  destruct (playRejected env); cbn; (split; [reflexivity|]); [|reflexivity].
  intros (a & [= <-] & [=]).
Qed.

Lemma settled_step2 st st' : App2.step key st st' -> settled st -> settled st'.
Proof.
  intros [env p st0 Hp Hg Hm | st0 | st0 | env st0 | env image st0 | env frame st0
          | env code st0] Hst.
  - unfold App2.handleAudioButtonClick. destruct (isAudioPlaying st0 && _).
    + by apply settled_pauseCurrent.
    + by apply settled_generateAndPlayAudio2.
  - by apply settled_audioEnded.
  - by apply settled_clearAll.
  - eapply settled_cells; [apply analyzeWaste2_cells | assumption].
  - eapply settled_cells; [apply handleFileChange2_cells | assumption].
  - eapply settled_cells; [apply capturePhoto2_cells | assumption].
  - eapply settled_cells; [apply updateLanguage2_cells | assumption].
Qed.

Lemma settled_reachable2 st : App2.reachable key st -> settled st.
Proof.
  unfold App2.reachable. revert st. apply rtc_ind_r.
  - split; [reflexivity|]. intros (a & [=] & _).
  - intros st st' _ Hstep Hst. by apply (settled_step2 st st').
Qed.

End Machine2.

Lemma stop_request `{Host} (st : AppState) :
  Playing st -> isAudioPlaying st = true ->
  let st' := pauseCurrent st in
  isAudioPlaying st && bool_decide (is_Some (audioRef st)) = true
  /\ fetchCount (events st') = fetchCount (events st)
  /\ events st' = events st ++ [Pause]
  /\ isAudioPlaying st' = false
  /\ isAudioGenerating st' = isAudioGenerating st
  /\ ~ Playing st'
  /\ (audio_src <$> audioRef st') = (audio_src <$> audioRef st).
Proof.
  intros (a & Href & Hplay) Hflag. cbv zeta.
  split; [rewrite Hflag, Href; reflexivity|].
  split; [apply fetchCount_pauseCurrent|].
  unfold pauseCurrent. rewrite Href, Hplay. cbn.
  repeat split; try reflexivity.
  intros (a' & [= <-] & [=]).
Qed.

(** C7, what the first version does. The machine is in its Playing state
    when [isAudioPlaying] is set, and idle when both flags are clear. The
    promise of [play()] has no handler in the first version, so a playback
    the browser refuses leaves the machine in Playing with a paused element.
    In that reachable state a press of the audio button calls [pause] on the
    paused element, whose [onpause] handler does not run: the machine stays
    in Playing. After a reset and the choice of a new image the machine is
    still in Playing, the ref is empty, and a press of the audio button
    sends a speech request: the fourth request of the run. *)
Theorem play_request_while_playing_first_version :
  let speech := answering (speechResponse (VStr "AAA=") (VStr "audio/L16;codec=pcm;rate=24000")) in
  let press := App1.handleAudioButtonClick (H := exampleHost) "k" speech examplePrediction in
  (App1.reachable (H := exampleHost) "k" refusedState
   /\ isAudioPlaying refusedState = true
   /\ isAudioGenerating refusedState = false
   /\ prediction refusedState = Some examplePrediction
   /\ press refusedState = emit Pause refusedState
   /\ isAudioPlaying (press refusedState) = true
   /\ ~ Idle (press refusedState))
  /\ (App1.reachable (H := exampleHost) "k" resetState
      /\ isAudioPlaying resetState = true
      /\ isAudioGenerating resetState = false
      /\ prediction resetState = Some examplePrediction
      /\ audioRef resetState = None
      /\ fetchCount (events resetState) = 3%nat
      /\ fetchCount (events (press resetState)) = 4%nat
      /\ events (press resetState)
         = events resetState
           ++ [Fetch (App1.API_URL "k")
                 (App1.speechPayload (VStr "Rinse and place in recycling.") (VStr "Kore"));
               CreateObjectURL (wavBlob [0] 24000); NewAudio (wavBlob [0] 24000); Play]).
Proof.
  intros speech press.
  assert (Hfirst : App1.reachable (H := exampleHost) "k" refusedState).
  { unfold App1.reachable, refusedState.
    eapply rtc_r; [eapply rtc_r; [apply rtc_refl | apply App1.step_file]|].
    apply App1.step_click; reflexivity. }
  split.
  - split; [exact Hfirst|]. do 5 (split; [reflexivity|]).
    intros [_ Hflag]. discriminate Hflag.
  - split; [|by vm_compute].
    unfold resetState.
    eapply rtc_r; [eapply rtc_r; [exact Hfirst | apply App1.step_clearAll]|].
    apply App1.step_file.
Qed.

Lemma playingState_reachable : App2.reachable (H := exampleHost) "k" playingState.
Proof.
  unfold App2.reachable, playingState.
  eapply rtc_r; [eapply rtc_r; [apply rtc_refl | apply App2.step_file]|].
  apply App2.step_click; reflexivity.
Qed.

(** ** The missing credential *)

Section NoKey.
Context `{Host}.
Variable env : Env.

Lemma fetchWithRetry1_no_key url payload retries st :
  App1.fetchWithRetry "" env url payload retries st
  = (Throw (mkExn Error "Missing API Key."), st).
Proof. by rewrite App1.fetchWithRetry_equation_1. Qed.

Lemma fetchWithRetry2_no_key url payload retries st :
  includes url "key=" = true ->
  App2.fetchWithRetry "" env url payload retries st
  = (Throw (mkExn Error
              "Missing API Key. Please update the GEMINI_API_KEY constant in the code."), st).
Proof. intros Hurl. rewrite App2.fetchWithRetry_equation_1. cbv zeta. by rewrite Hurl. Qed.

Lemma fetchCount_generating st :
  fetchCount (events (generating st)) = fetchCount (events st).
Proof. unfold generating. by rewrite fetchCount_pauseCurrent. Qed.

Lemma analyzeWaste1_no_key base64 languageCode st :
  let st' := App1.analyzeWaste "" env base64 languageCode st in
  events st' = events st
  /\ (truthy base64 = true -> knownLanguage languageCode ->
      error st' = Some "Missing API Key." /\ prediction st' = None).
Proof.
  cbv zeta. unfold App1.analyzeWaste. destruct (truthy base64); cbn [negb].
  2: { split; [reflexivity | discriminate]. }
  cbv zeta. unfold tryFinally, tryCatch, App1.classifyWaste, mbind, M_bind, lift.
  split.
  - destruct (getProp _ "label") as [label|e]; [|reflexivity].
    destruct (firstWordOf label) as [languageLabel|e]; [|reflexivity].
    rewrite fetchWithRetry1_no_key. reflexivity.
  - intros _ Hlang. unfold knownLanguage in Hlang. simpl in Hlang.
    destruct Hlang as [<- | [<- | [<- | [<- | []]]]];
      cbn [assoc App1.VOICE_CONFIGS String.eqb Ascii.eqb Bool.eqb getProp firstWordOf];
      rewrite fetchWithRetry1_no_key; split; reflexivity.
Qed.

Lemma analyzeWaste2_no_key base64 languageCode st :
  let st' := App2.analyzeWaste "" env base64 languageCode st in
  events st' = events st
  /\ (truthy base64 = true -> knownLanguage languageCode ->
      error st' = Some "Missing API Key. Please update the GEMINI_API_KEY constant in the code."
      /\ prediction st' = None).
Proof.
  cbv zeta. unfold App2.analyzeWaste. destruct (truthy base64); cbn [negb].
  2: { split; [reflexivity | discriminate]. }
  cbv zeta. unfold tryFinally, tryCatch, App2.classifyWaste, mbind, M_bind, lift.
  split.
  - destruct (getProp _ "label") as [label|e]; [|reflexivity].
    destruct (firstWordOf label) as [languageLabel|e]; [|reflexivity].
    rewrite fetchWithRetry2_no_key by reflexivity. reflexivity.
  - intros _ Hlang. unfold knownLanguage in Hlang. simpl in Hlang.
    destruct Hlang as [<- | [<- | [<- | [<- | []]]]];
      cbn [assoc App2.VOICE_CONFIGS String.eqb Ascii.eqb Bool.eqb getProp firstWordOf];
      rewrite fetchWithRetry2_no_key by reflexivity; split; reflexivity.
Qed.

Lemma generateAndPlayAudio1_no_key text st :
  let st' := App1.generateAndPlayAudio "" env text st in
  fetchCount (events st') = fetchCount (events st)
  /\ (truthy text = true -> notPlaying st -> knownLanguage (selectedLanguageCode st) ->
      error st' = Some "Voice generation unavailable. Missing API Key."
      /\ audioRef st' = audioRef (generating st) /\ isAudioPlaying st' = false).
Proof.
  cbv zeta. unfold App1.generateAndPlayAudio, notPlaying.
  destruct (truthy text); cbn [negb].
  2: { split; [reflexivity | discriminate]. }
  destruct (isAudioPlaying st && _).
  { split; [apply fetchCount_pauseCurrent | discriminate]. }
  cbv zeta. fold (generating st). rewrite selectedLanguageCode_generating.
  unfold tryFinally, tryCatch, mbind, M_bind, lift, modify.
  split.
  - destruct (getProp _ "name") as [voiceName|e]; [|apply fetchCount_generating].
    rewrite fetchWithRetry1_no_key. apply fetchCount_generating.
  - intros _ _ Hlang. unfold knownLanguage in Hlang. simpl in Hlang.
    destruct Hlang as [<- | [<- | [<- | [<- | []]]]];
      cbn [assoc App1.VOICE_CONFIGS String.eqb Ascii.eqb Bool.eqb getProp];
      rewrite fetchWithRetry1_no_key;
      (split; [reflexivity|]; split; [reflexivity | apply isAudioPlaying_generating]).
Qed.

Lemma generateAndPlayAudio2_no_key text st :
  let st' := App2.generateAndPlayAudio "" env text st in
  fetchCount (events st') = fetchCount (events st)
  /\ (truthy text = true -> notPlaying st -> knownLanguage (selectedLanguageCode st) ->
      error st' = Some "Missing API Key. Please update the GEMINI_API_KEY constant in the code."
      /\ audioRef st' = audioRef (generating st) /\ isAudioPlaying st' = false).
Proof.
  cbv zeta. unfold App2.generateAndPlayAudio, notPlaying.
  destruct (truthy text); cbn [negb].
  2: { split; [reflexivity | discriminate]. }
  destruct (isAudioPlaying st && _).
  { split; [apply fetchCount_pauseCurrent | discriminate]. }
  cbv zeta. fold (generating st). rewrite selectedLanguageCode_generating.
  unfold tryFinally, tryCatch, mbind, M_bind, lift, modify, mret, M_ret.
  split.
  - destruct (getProp _ "name") as [voiceName|e]; [|apply fetchCount_generating].
    rewrite fetchWithRetry2_no_key by reflexivity. apply fetchCount_generating.
  - intros _ _ Hlang. unfold knownLanguage in Hlang. simpl in Hlang.
    destruct Hlang as [<- | [<- | [<- | [<- | []]]]];
      cbn [assoc App2.VOICE_CONFIGS String.eqb Ascii.eqb Bool.eqb getProp];
      rewrite fetchWithRetry2_no_key by reflexivity;
      (split; [reflexivity|]; split; [reflexivity | apply isAudioPlaying_generating]).
Qed.

End NoKey.

(** C8. Without a key, both network calls of both versions throw the missing
    key error before anything is sent: [fetchWithRetry] returns the state it
    was given, the classification flow and the speech flow add no request to
    the trace, and what they report is that error. *)
Theorem missing_key_fails_before_any_request `{Host}
    (env : Env) (url : string) (payload base64 text : Value) (retries : nat)
    (languageCode : string) (st : AppState) :
  (App1.fetchWithRetry "" env url payload retries st
   = (Throw (mkExn Error "Missing API Key."), st)
   /\ App2.fetchWithRetry "" env (App2.API_URL_GEMINI "") payload retries st
      = (Throw (mkExn Error
                  "Missing API Key. Please update the GEMINI_API_KEY constant in the code."), st)
   /\ App2.fetchWithRetry "" env (App2.API_URL_TTS "") payload retries st
      = (Throw (mkExn Error
                  "Missing API Key. Please update the GEMINI_API_KEY constant in the code."), st))
  /\ (events (App1.analyzeWaste "" env base64 languageCode st) = events st
      /\ events (App2.analyzeWaste "" env base64 languageCode st) = events st
      /\ fetchCount (events (App1.generateAndPlayAudio "" env text st)) = fetchCount (events st)
      /\ fetchCount (events (App2.generateAndPlayAudio "" env text st)) = fetchCount (events st))
  /\ (truthy base64 = true -> knownLanguage languageCode ->
      error (App1.analyzeWaste "" env base64 languageCode st) = Some "Missing API Key."
      /\ error (App2.analyzeWaste "" env base64 languageCode st)
         = Some "Missing API Key. Please update the GEMINI_API_KEY constant in the code.")
  /\ (truthy text = true -> notPlaying st -> knownLanguage (selectedLanguageCode st) ->
      error (App1.generateAndPlayAudio "" env text st)
      = Some "Voice generation unavailable. Missing API Key."
      /\ error (App2.generateAndPlayAudio "" env text st)
         = Some "Missing API Key. Please update the GEMINI_API_KEY constant in the code.").
Proof.
  destruct (analyzeWaste1_no_key env base64 languageCode st) as [Hevents1 Herror1].
  destruct (analyzeWaste2_no_key env base64 languageCode st) as [Hevents2 Herror2].
  destruct (generateAndPlayAudio1_no_key env text st) as [Hcount1 Hspeech1].
  destruct (generateAndPlayAudio2_no_key env text st) as [Hcount2 Hspeech2].
  cbv zeta in *. split; [|split; [|split]].
  - split; [apply fetchWithRetry1_no_key|].
    split; apply fetchWithRetry2_no_key; reflexivity.
  - repeat split; assumption.
  - intros Hbase Hlang. split.
    + apply (Herror1 Hbase Hlang).
    + apply (Herror2 Hbase Hlang).
  - intros Htext Hguard Hlang. split.
    + apply (Hspeech1 Htext Hguard Hlang).
    + apply (Hspeech2 Htext Hguard Hlang).
Qed.

Lemma missing_key_witness :
  error (App1.analyzeWaste (H := exampleHost) ""
           (answering (classificationResponse scenarioText))
           (VStr "aW1hZ2U=") "en-US" initialState)
  = Some "Missing API Key."
  /\ events (App1.analyzeWaste (H := exampleHost) ""
               (answering (classificationResponse scenarioText))
               (VStr "aW1hZ2U=") "en-US" initialState) = [].
Proof.
  pose proof (missing_key_fails_before_any_request (H := exampleHost)
                (answering (classificationResponse scenarioText))
                "" VNull (VStr "aW1hZ2U=") (VStr "Rinse") 0 "en-US" initialState) as Hthm.
  destruct Hthm as (_ & (Hevents & _) & Herror & _).
  destruct Herror as [Herror _].
  - reflexivity.
  - left. reflexivity.
  - split; [exact Herror | exact Hevents].
Defined.

(** * Further properties *)

(** ** Decoding and the container *)

(** X1. Whatever the samples and whatever integer the rate is, [pcmToWav]
    returns a blob of 44 + 2n bytes: its four 32-bit header fields hold the
    chunk size 36 + 2n, the rate, the byte rate and the data size, each
    modulo 2^32 (what [DataView.setUint32] stores), its 16-bit fields hold
    1, 1, 2 and 16, and the samples follow the header. *)
Theorem pcmToWav_fields_wrap (pcm16 : list Z) (sampleRate : Z) :
  exists bytes,
    pcmToWav pcm16 sampleRate = Some (mkBlob bytes "audio/wav")
    /\ length bytes = (44 + 2 * length pcm16)%nat
    /\ getUint32 bytes 4 true = Some ((36 + 2 * Z.of_nat (length pcm16)) mod 2 ^ 32)
    /\ getUint32 bytes 24 true = Some (sampleRate mod 2 ^ 32)
    /\ getUint32 bytes 28 true = Some ((sampleRate * 2) mod 2 ^ 32)
    /\ getUint32 bytes 40 true = Some ((2 * Z.of_nat (length pcm16)) mod 2 ^ 32)
    /\ getUint16 bytes 20 true = Some 1
    /\ getUint16 bytes 22 true = Some 1
    /\ getUint16 bytes 32 true = Some 2
    /\ getUint16 bytes 34 true = Some 16
    /\ drop 44 bytes = flat_map (bytesLE 2) pcm16.
Proof.
  exists (wavHeader (length pcm16) sampleRate ++ flat_map (bytesLE 2) pcm16).
  destruct (header_fields (length pcm16) sampleRate (flat_map (bytesLE 2) pcm16))
    as (Hchunk & Hfmt & Hch & Hsr & Hbr & Hba & Hbits & Hdata).
  replace (Z.of_nat (2 * length pcm16)) with (2 * Z.of_nat (length pcm16)) in * by lia.
  replace (sampleRate * 1 * 2) with (sampleRate * 2) in Hbr by lia.
  split; [unfold pcmToWav, ArrayBuffer; by rewrite fillWav_bytes by apply length_replicate|].
  split; [rewrite length_app, length_wavHeader, length_samples; reflexivity|].
  do 8 (split; [assumption|]).
  rewrite <- (length_wavHeader (length pcm16) sampleRate). apply drop_app_length.
Qed.

Lemma pair_ind {A} (P : list A -> Prop) :
  P [] -> (forall a, P [a]) -> (forall a b l, P l -> P (a :: b :: l)) -> forall l, P l.
Proof.
  intros Hnil Hone Hstep.
  assert (Hboth : forall l, P l /\ forall a, P (a :: l)).
  { induction l as [|b l [IH1 IH2]]; [by split|]. split; [apply IH2|]. intros a. by apply Hstep. }
  intros l. apply Hboth.
Qed.

Lemma int16_toInt16 u : 0 <= u < 65536 -> int16 (toInt16 u).
Proof. unfold int16, toInt16. intros Hu. destruct (Z.ltb_spec u 32768); lia. Qed.

Lemma bytesLE_toInt16 lo hi :
  isByte lo -> isByte hi -> bytesLE 2 (toInt16 (lo + 256 * hi)) = [lo; hi].
Proof.
  unfold isByte, toInt16. intros Hlo Hhi. cbn [bytesLE].
  destruct (Z.ltb_spec (lo + 256 * hi) 32768) as [Hlt|Hge].
  - replace (lo + 256 * hi) with (lo + hi * 256) by lia.
    f_equal; [|f_equal].
    + rewrite Z.mod_add by lia. apply Z.mod_small. lia.
    + rewrite Z.div_add by lia. rewrite (Z.div_small lo) by lia.
      apply Z.mod_small. lia.
  - replace (lo + 256 * hi - 65536) with (lo + (hi - 256) * 256) by lia.
    f_equal; [|f_equal].
    + rewrite Z.mod_add by lia. apply Z.mod_small. lia.
    + rewrite Z.div_add by lia. rewrite (Z.div_small lo) by lia.
      replace (0 + (hi - 256)) with (hi + (-1) * 256) by lia.
      rewrite Z.mod_add by lia. apply Z.mod_small. lia.
Qed.

Lemma int16Pairs_bytes (buffer : list Z) :
  Forall isByte buffer -> Nat.even (length buffer) = true ->
  flat_map (bytesLE 2) (int16Pairs buffer) = buffer
  /\ Forall int16 (int16Pairs buffer)
  /\ (2 * length (int16Pairs buffer) = length buffer)%nat.
Proof.
  induction buffer as [|a|lo hi rest IH] using pair_ind; intros Hbytes Heven.
  - repeat split. constructor.
  - discriminate.
  - inversion Hbytes as [|? ? Hlo Hrest]; subst. inversion Hrest as [|? ? Hhi Hrest']; subst.
    destruct (IH Hrest' Heven) as (Hflat & Hrange & Hlen).
    cbn [int16Pairs]. split; [|split].
    + change (flat_map (bytesLE 2) (toInt16 (lo + 256 * hi) :: int16Pairs rest))
        with (bytesLE 2 (toInt16 (lo + 256 * hi)) ++ flat_map (bytesLE 2) (int16Pairs rest)).
      rewrite bytesLE_toInt16, Hflat by assumption. reflexivity.
    + constructor; [|assumption]. apply int16_toInt16. unfold isByte in *. lia.
    + simpl. simpl in Hlen. lia.
Qed.

(** X2. Reading a buffer of an even number of bytes as an [Int16Array] and
    writing the samples with [pcmToWav] keeps the bytes: the samples are
    signed 16-bit integers, half as many as the bytes, and the container is
    its header followed by the very bytes of the buffer. *)
Theorem raw_pcm_bytes_are_kept (buffer : list Z) (sampleRate : Z) :
  Forall isByte buffer -> Nat.even (length buffer) = true ->
  exists pcm16,
    Int16Array buffer = Return pcm16
    /\ Forall int16 pcm16
    /\ (2 * length pcm16 = length buffer)%nat
    /\ pcmToWav pcm16 sampleRate
       = Some (mkBlob (wavHeader (length pcm16) sampleRate ++ buffer) "audio/wav").
Proof.
  intros Hbytes Heven. exists (int16Pairs buffer).
  destruct (int16Pairs_bytes buffer Hbytes Heven) as (Hflat & Hrange & Hlen).
  split; [unfold Int16Array; by rewrite Heven|].
  split; [assumption|]. split; [assumption|].
  unfold pcmToWav, ArrayBuffer. rewrite fillWav_bytes by apply length_replicate.
  cbn [mbind option_bind]. by rewrite Hflat.
Qed.

Lemma raw_pcm_bytes_are_kept_witness :
  exists pcm16,
    Int16Array [1; 0; 255; 255] = Return pcm16
    /\ pcmToWav pcm16 24000
       = Some (mkBlob (wavHeader (length pcm16) 24000 ++ [1; 0; 255; 255]) "audio/wav").
Proof.
  destruct (raw_pcm_bytes_are_kept [1; 0; 255; 255] 24000) as (pcm16 & Hread & _ & _ & Hwav).
  - repeat constructor; unfold isByte; lia.
  - reflexivity.
  - exists pcm16. split; [exact Hread | exact Hwav].
Defined.

Lemma quad_ind {A} (P : list A -> Prop) :
  P [] -> (forall a, P [a]) -> (forall a b, P [a; b]) -> (forall a b c, P [a; b; c]) ->
  (forall a b c d l, P l -> P (a :: b :: c :: d :: l)) -> forall l, P l.
Proof.
  intros H0 H1 H2 H3 Hstep.
  assert (Hall : forall l, P l /\ (forall a, P (a :: l)) /\ (forall a b, P (a :: b :: l))
                           /\ (forall a b c, P (a :: b :: c :: l))).
  { induction l as [|d l (IH0 & IH1 & IH2 & IH3)]; [by repeat split|].
    split; [apply IH1|]. split; [intros; apply IH2|]. split; [intros; apply IH3|].
    intros a b c. by apply Hstep. }
  intros l. apply Hall.
Qed.

Lemma base64Value_range c v : base64Value c = Some v -> 0 <= v < 64.
Proof.
  unfold base64Value. intros Hv.
  repeat case_match; simplify_eq;
    rewrite ?andb_true_iff, ?Z.leb_le, ?Z.eqb_eq in *; lia.
Qed.

Lemma decodeSextets_bytes (vals : list Z) :
  Forall (fun v => 0 <= v < 64) vals -> Forall isByte (decodeSextets vals).
Proof.
  unfold isByte.
  induction vals as [|a|a b|a b c|a b c d rest IH] using quad_ind; intros Hvals.
  - constructor.
  - constructor.
  - inversion Hvals as [|? ? Ha Hr]; subst. inversion Hr as [|? ? Hb _]; subst.
    cbn [decodeSextets]. constructor; [|constructor].
    split; [apply Z.div_pos; lia | apply Z.div_lt_upper_bound; lia].
  - inversion Hvals as [|? ? Ha Hr]; subst. inversion Hr as [|? ? Hb Hr']; subst.
    inversion Hr' as [|? ? Hc _]; subst.
    cbn [decodeSextets]. cbv zeta. constructor; [|constructor; [|constructor]].
    + split; [apply Z.div_pos; lia | apply Z.div_lt_upper_bound; lia].
    + apply Z.mod_pos_bound. lia.
  - inversion Hvals as [|? ? Ha Hr]; subst. inversion Hr as [|? ? Hb Hr']; subst.
    inversion Hr' as [|? ? Hc Hr'']; subst. inversion Hr'' as [|? ? Hd Hrest]; subst.
    cbn [decodeSextets]. cbv zeta.
    constructor; [|constructor; [|constructor; [|by apply IH]]].
    + split; [apply Z.div_pos; lia | apply Z.div_lt_upper_bound; lia].
    + apply Z.mod_pos_bound. lia.
    + apply Z.mod_pos_bound. lia.
Qed.

Lemma length_decodeSextets (vals : list Z) :
  length (decodeSextets vals) = (3 * length vals / 4)%nat.
Proof.
  induction vals as [|a|a b|a b c|a b c d rest IH] using quad_ind; try reflexivity.
  cbn [decodeSextets]. cbv zeta. cbn [length]. rewrite IH.
  replace (3 * S (S (S (S (length rest)))))%nat with (3 * 4 + 3 * length rest)%nat by lia.
  rewrite (Nat.div_add_l 3 4) by lia. reflexivity.
Qed.

Lemma mapM_base64Value_range cs vals :
  mapM base64Value cs = Some vals -> Forall (fun v => 0 <= v < 64) vals /\ length vals = length cs.
Proof.
  intros Hm. apply mapM_Some in Hm. split.
  - induction Hm; constructor; eauto using base64Value_range.
  - symmetry. eapply Forall2_length, Hm.
Qed.

Lemma atob_bytes (data : string) (bytes : list Z) :
  atob data = Return bytes -> Forall isByte bytes.
Proof.
  unfold atob. cbv zeta. intros Hdec.
  repeat case_match; simplify_eq;
    match goal with Hm : mapM base64Value _ = Some _ |- _ =>
      apply mapM_base64Value_range in Hm; destruct Hm as [Hr _]; by apply decodeSextets_bytes end.
Qed.

Lemma map_mod_bytes (bytes : list Z) :
  Forall isByte bytes -> map (fun c => c mod 256) bytes = bytes.
Proof.
  induction 1 as [|b l Hb _ IH]; [reflexivity|]. cbn [map]. rewrite IH.
  f_equal. apply Z.mod_small, Hb.
Qed.

(** X3. When [atob] decodes its argument, every code unit of the binary
    string is a byte, so storing the code units in the [Uint8Array] of
    [base64ToArrayBuffer] changes none of them: the buffer holds exactly the
    decoded bytes. *)
Theorem base64ToArrayBuffer_keeps_code_units `{Host} (base64 : string) (binaryString : list Z) :
  atob base64 = Return binaryString ->
  base64ToArrayBuffer (VStr base64) = Return binaryString
  /\ Forall isByte binaryString.
Proof.
  intros Hdec. pose proof (atob_bytes _ _ Hdec) as Hbytes. split; [|assumption].
  unfold base64ToArrayBuffer. cbn [ToString]. rewrite Hdec. by rewrite map_mod_bytes.
Qed.

Lemma base64ToArrayBuffer_keeps_code_units_witness :
  base64ToArrayBuffer (H := exampleHost) (VStr "AAEC") = Return [0; 1; 2].
Proof.
  exact (proj1 (base64ToArrayBuffer_keeps_code_units (H := exampleHost) "AAEC" [0; 1; 2]
                  eq_refl)).
Defined.

Lemma alphabet_not_whitespace c : is_Some (base64Value c) -> isAsciiWhitespace c = false.
Proof.
  destruct c as [[] [] [] [] [] [] [] []]; vm_compute; try reflexivity; intros [v Hv]; discriminate.
Qed.

Lemma filter_alphabet cs :
  Forall (fun c => is_Some (base64Value c)) cs ->
  filter (fun c => negb (isAsciiWhitespace c)) cs = cs.
Proof.
  induction 1 as [|c l Hc _ IH]; [reflexivity|].
  rewrite filter_cons, IH. rewrite decide_True; [reflexivity|].
  rewrite (alphabet_not_whitespace c Hc). reflexivity.
Qed.

Lemma stripPadding_alphabet cs :
  Forall (fun c => is_Some (base64Value c)) cs -> stripPadding cs = cs.
Proof.
  intros Hcs. unfold stripPadding.
  destruct (rev cs) as [|c r] eqn:Hrev; [reflexivity|].
  assert (Hc : is_Some (base64Value c)).
  { rewrite Forall_forall in Hcs. apply Hcs. apply list_elem_of_In, in_rev.
    rewrite Hrev. by left. }
  destruct c as [[] [] [] [] [] [] [] []]; try reflexivity.
  destruct Hc as [v Hv]. vm_compute in Hv. discriminate.
Qed.

(** X4. On a string made of characters of the base64 alphabet only (no
    padding, no white space), [atob] throws an [InvalidCharacterError] when
    the length is 1 modulo 4 and otherwise returns floor(3 * length / 4)
    bytes. *)
Theorem atob_length (data : string) :
  alphabetOnly data ->
  if (String.length data mod 4 =? 1)%nat
  then exists e, atob data = Throw e /\ exn_name e = InvalidCharacterError
  else exists bytes, atob data = Return bytes
                     /\ length bytes = (3 * String.length data / 4)%nat.
Proof.
  unfold alphabetOnly. intros Hcs. unfold atob. cbv zeta.
  rewrite (filter_alphabet _ Hcs), (stripPadding_alphabet _ Hcs).
  assert (Hlen : length (list_ascii_of_string data) = String.length data).
  { clear. induction data; simpl; congruence. }
  rewrite Hlen.
  replace (if (String.length data mod 4 =? 0)%nat then list_ascii_of_string data
           else list_ascii_of_string data) with (list_ascii_of_string data) by (by case_match).
  rewrite Hlen.
  destruct (String.length data mod 4 =? 1)%nat; [eexists; split; reflexivity|].
  assert (Hsome : is_Some (mapM base64Value (list_ascii_of_string data))).
  { apply mapM_is_Some. eapply Forall_impl; [exact Hcs|]. intros c Hc. exact Hc. }
  destruct Hsome as [vals Hvals]. rewrite Hvals.
  exists (decodeSextets vals). split; [reflexivity|].
  rewrite length_decodeSextets. apply mapM_base64Value_range in Hvals as [_ ->].
  by rewrite Hlen.
Qed.

Lemma atob_length_witness :
  exists bytes, atob "AAECAwQF" = Return bytes /\ length bytes = 6%nat.
Proof.
  apply (atob_length "AAECAwQF"). unfold alphabetOnly. repeat constructor; by eexists.
Defined.

Lemma takeDigits_digits s :
  Forall (fun c => isDigit c = true) (list_ascii_of_string (takeDigits s)).
Proof.
  induction s as [|c s IH]; simpl; [constructor|].
  destruct (isDigit c) eqn:Hc; simpl; [by constructor | constructor].
Qed.

Lemma prefix_takeDigits s : String.prefix (takeDigits s) s = true.
Proof.
  induction s as [|c s IH]; simpl; [reflexivity|].
  destruct (isDigit c); simpl; [|reflexivity].
  destruct (ascii_dec c c); [assumption | contradiction].
Qed.

Lemma prefix_rate s :
  String.prefix "rate=" s = true ->
  exists rest, s = String "r" (String "a" (String "t" (String "e" (String "=" rest)))).
Proof.
  intros Hp.
  do 5 (destruct s as [|? s]; [discriminate|];
        cbn [String.prefix] in Hp; destruct (ascii_dec _ _) as [<-|]; [|discriminate]).
  by exists s.
Qed.

Lemma fold_digits cs : forall acc, 0 <= acc -> Forall (fun c => isDigit c = true) cs ->
  0 <= fold_left (fun acc c => 10 * acc + (Z.of_nat (nat_of_ascii c) - 48)) cs acc.
Proof.
  induction cs as [|c cs IH]; intros acc Hacc Hcs; simpl; [assumption|].
  inversion Hcs as [|? ? Hc Hrest]; subst. apply IH; [|assumption].
  unfold isDigit in Hc. apply andb_true_iff in Hc as [Hlo _].
  apply Nat.leb_le in Hlo. lia.
Qed.

Lemma integerOf_normalize (n : Z) :
  0 <= n -> 0 <= integerOf (binary_normalize prec emax n 0 false).
Proof.
  destruct n as [|m|m]; [reflexivity| |lia]. intros _.
  unfold binary_normalize, binary_round.
  destruct (shl_align _ _ _) as [mz ez]. unfold binary_round_aux.
  destruct (shr_fexp _ _ _ _ _) as [mrs' e'].
  destruct (shr_fexp _ _ _ _ _) as [mrs'' e''].
  destruct (shr_m mrs'') as [|m'|m']; try reflexivity.
  destruct (e'' <=? emax - prec); [|reflexivity].
  cbn [integerOf]. rewrite Z.mul_1_l. by apply Z.shiftl_nonneg.
Qed.

Lemma parseInt_digits (digits : string) :
  Forall (fun c => isDigit c = true) (list_ascii_of_string digits) -> 0 <= parseInt digits.
Proof.
  intros Hdigits. apply integerOf_normalize. by apply fold_digits.
Qed.

(** What [parseInt] makes of digits beyond the precision of a binary64:
    [2^53 + 1] is read as [2^53] and [2^53 + 3] as [2^53 + 4], the same
    values the conversion of the primitive floats gives; [2^32] is exact;
    [2^1024] is read as [+Infinity], which [setUint32] stores as [0]. *)
Lemma parseInt_rounds :
  parseInt "9007199254740993" = 9007199254740992
  /\ parseInt "9007199254740995" = 9007199254740996
  /\ parseIntNumber "9007199254740993" = Prim2SF (float_of_Z 9007199254740993)
  /\ parseIntNumber "9007199254740995" = Prim2SF (float_of_Z 9007199254740995)
  /\ parseInt "4294967296" = 4294967296
  /\ parseInt "24000" = 24000
  /\ parseIntNumber (string_of_Z (2 ^ 1024)) = S754_infinity false
  /\ parseInt (string_of_Z (2 ^ 1024)) = 0.
Proof. vm_compute. repeat split; reflexivity. Qed.


(** X5. What [mimeType.match(/rate=(\d+)/)] captures is a non-empty
    string of decimal digits that follows [rate=] in the MIME type, and
    [parseInt] reads it as a non-negative integer: the second version never
    passes a negative rate to [pcmToWav]. *)
Theorem matchRate_reads_digits (s digits : string) :
  matchRate s = Some digits ->
  digits <> ""
  /\ Forall (fun c => isDigit c = true) (list_ascii_of_string digits)
  /\ includes s ("rate=" +:+ digits) = true
  /\ 0 <= parseInt digits.
Proof.
  intros Hmatch.
  assert (Hfound : digits <> ""
                   /\ Forall (fun c => isDigit c = true) (list_ascii_of_string digits)
                   /\ includes s ("rate=" +:+ digits) = true).
  { induction s as [|c s IH].
    - discriminate.
    - cbn [matchRate] in Hmatch.
      destruct (String.prefix "rate=" (String c s)) eqn:Hprefix.
      + destruct (prefix_rate _ Hprefix) as (rest & Hs).
        destruct (takeDigits (dropChars 5 (String c s))) as [|d ds] eqn:Hdigits.
        * destruct (IH Hmatch) as (Hne & Hall & Hin). repeat split; try assumption.
          cbn [includes]. rewrite Hin. apply orb_true_r.
        * injection Hmatch as <-. split; [discriminate|].
          split; [rewrite <- Hdigits; apply takeDigits_digits|].
          rewrite Hs in Hdigits |- *. cbn [dropChars] in Hdigits.
          cbn [includes]. apply orb_true_iff. left.
          change ("rate=" +:+ String d ds)
            with (String "r" (String "a" (String "t" (String "e" (String "=" (String d ds)))))).
          cbn [String.prefix].
          repeat (destruct (ascii_dec _ _); [|contradiction]).
          rewrite <- Hdigits. apply prefix_takeDigits.
      + destruct (IH Hmatch) as (Hne & Hall & Hin). repeat split; try assumption.
        cbn [includes]. rewrite Hin. apply orb_true_r. }
  destruct Hfound as (Hne & Hall & Hin). repeat split; try assumption.
  by apply parseInt_digits.
Qed.

Lemma matchRate_reads_digits_witness :
  includes "audio/L16;codec=pcm;rate=24000" "rate=24000" = true /\ 0 <= parseInt "24000".
Proof.
  destruct (matchRate_reads_digits "audio/L16;codec=pcm;rate=24000" "24000") as (_ & _ & Hin & Hn).
  - reflexivity.
  - split; [exact Hin | exact Hn].
Defined.

(** ** The request orchestrator: recovery and the shape of the trace *)

Section Recovery1.
Context `{Host}.
Variables (key : string) (env : Env) (url : string) (payload : Value).

Lemma fetchWithRetry1_recovers (Hkey : key <> "") (k : nat) (response : Response) :
  (k <= App1.MAX_RETRIES)%nat ->
  server env k = FetchResolved response -> ok response = true ->
  forall j retries st, (retries + j = k)%nat ->
  (forall i, (retries <= i < k)%nat -> failed (server env i)) ->
  App1.fetchWithRetry key env url payload retries st
  = (json response, addEvents (retryTrace url payload retries j) st).
Proof.
  intros Hk Hserver Hok.
  induction j as [|j IH]; intros retries st Hj Hfail;
    rewrite App1.fetchWithRetry_equation_1; cbv beta zeta;
    rewrite (truthy_key key Hkey).
  - assert (retries = k) as -> by lia. rewrite Hserver, Hok. reflexivity.
  - assert (Hrec : forall st',
      App1.fetchWithRetry key env url payload (retries + 1)
        (emit (SetTimeout (2 ^ Z.of_nat retries * 1000)) (emit (Fetch url payload) st'))
      = (json response, addEvents (retryTrace url payload retries (S j)) st')).
    { intros st'. rewrite IH by (try lia; intros i Hi; apply Hfail; lia).
      rewrite !emit_as_addEvents, !addEvents_addEvents.
      replace (retries + 1)%nat with (S retries) by lia. reflexivity. }
    specialize (Hfail retries ltac:(lia)).
    unfold App1.MAX_RETRIES in *.
    destruct (server env retries) as [e|r].
    { rewrite decide_True by lia. apply Hrec. }
    simpl in Hfail. rewrite Hfail. simpl negb. cbv iota.
    destruct (json r) as [body|e]; [|rewrite decide_True by lia; apply Hrec].
    destruct (decide _); [apply Hrec|].
    destruct (getProp body "error"); rewrite decide_True by lia; apply Hrec.
Qed.

Lemma fetchWithRetry1_trace (Hkey : key <> "") :
  forall k retries st, (App1.MAX_RETRIES - retries <= k)%nat ->
  exists j, (j <= k)%nat
    /\ snd (App1.fetchWithRetry key env url payload retries st)
       = addEvents (retryTrace url payload retries j) st.
Proof.
  induction k as [|k IH]; intros retries st Hk;
    rewrite App1.fetchWithRetry_equation_1; cbv beta zeta;
    rewrite (truthy_key key Hkey).
  - exists 0%nat. split; [lia|].
    destruct (server env retries) as [e|r]; [rewrite decide_False by lia; reflexivity|].
    destruct (negb (ok r)); [|reflexivity].
    destruct (json r) as [body|e]; [|rewrite decide_False by lia; reflexivity].
    rewrite decide_False by lia.
    destruct (getProp body "error"); rewrite decide_False by lia; reflexivity.
  - assert (Hrec : exists j, (j <= S k)%nat /\
      snd (App1.fetchWithRetry key env url payload (retries + 1)
             (emit (SetTimeout (2 ^ Z.of_nat retries * 1000)) (emit (Fetch url payload) st)))
      = addEvents (retryTrace url payload retries j) st).
    { destruct (IH (retries + 1)%nat
                   (emit (SetTimeout (2 ^ Z.of_nat retries * 1000)) (emit (Fetch url payload) st)))
        as (j & Hj & ->); [lia|].
      exists (S j). split; [lia|].
      rewrite !emit_as_addEvents, !addEvents_addEvents.
      replace (retries + 1)%nat with (S retries) by lia. reflexivity. }
    assert (Hstop : forall o : Outcome Value, exists j, (j <= S k)%nat /\
      snd (o, emit (Fetch url payload) st) = addEvents (retryTrace url payload retries j) st).
    { intros o. exists 0%nat. split; [lia | reflexivity]. }
    destruct (server env retries) as [e|r].
    { destruct (decide _); [apply Hrec | apply Hstop]. }
    destruct (negb (ok r)); [|apply Hstop].
    destruct (json r) as [body|e].
    + destruct (decide _); [apply Hrec|].
      destruct (getProp body "error"); (destruct (decide _); [apply Hrec | apply Hstop]).
    + destruct (decide _); [apply Hrec | apply Hstop].
Qed.

End Recovery1.

Section Recovery2.
Context `{Host}.
Variables (key : string) (env : Env) (url : string) (payload : Value).

Lemma fetchWithRetry2_recovers (Hkey : key <> "") (k : nat) (response : Response) :
  (k <= App2.MAX_RETRIES)%nat ->
  server env k = FetchResolved response -> ok response = true ->
  forall j retries st, (retries + j = k)%nat ->
  (forall i, (retries <= i < k)%nat -> failed (server env i)) ->
  App2.fetchWithRetry key env url payload retries st
  = (json response, addEvents (retryTrace url payload retries j) st).
Proof.
  intros Hk Hserver Hok.
  induction j as [|j IH]; intros retries st Hj Hfail;
    rewrite App2.fetchWithRetry_equation_1; cbv beta zeta;
    rewrite (truthy_key key Hkey); cbn [andb].
  - assert (retries = k) as -> by lia. rewrite Hserver, Hok. reflexivity.
  - assert (Hrec : forall st',
      App2.fetchWithRetry key env url payload (retries + 1)
        (emit (SetTimeout (2 ^ Z.of_nat retries * 1000)) (emit (Fetch url payload) st'))
      = (json response, addEvents (retryTrace url payload retries (S j)) st')).
    { intros st'. rewrite IH by (try lia; intros i Hi; apply Hfail; lia).
      rewrite !emit_as_addEvents, !addEvents_addEvents.
      replace (retries + 1)%nat with (S retries) by lia. reflexivity. }
    specialize (Hfail retries ltac:(lia)).
    unfold App2.MAX_RETRIES in *.
    destruct (server env retries) as [e|r].
    { rewrite decide_True by lia. apply Hrec. }
    simpl in Hfail. rewrite Hfail. simpl negb. cbv iota.
    destruct (json r) as [body|e]; [|rewrite decide_True by lia; apply Hrec].
    destruct (decide _); [apply Hrec|].
    destruct (getProp body "error"); rewrite decide_True by lia; apply Hrec.
Qed.

Lemma fetchWithRetry2_trace (Hkey : key <> "") :
  forall k retries st, (App2.MAX_RETRIES - retries <= k)%nat ->
  exists j, (j <= k)%nat
    /\ snd (App2.fetchWithRetry key env url payload retries st)
       = addEvents (retryTrace url payload retries j) st.
Proof.
  induction k as [|k IH]; intros retries st Hk;
    rewrite App2.fetchWithRetry_equation_1; cbv beta zeta;
    rewrite (truthy_key key Hkey); cbn [andb].
  - exists 0%nat. split; [lia|].
    destruct (server env retries) as [e|r]; [rewrite decide_False by lia; reflexivity|].
    destruct (negb (ok r)); [|reflexivity].
    destruct (json r) as [body|e]; [|rewrite decide_False by lia; reflexivity].
    rewrite decide_False by lia.
    destruct (getProp body "error"); rewrite decide_False by lia; reflexivity.
  - assert (Hrec : exists j, (j <= S k)%nat /\
      snd (App2.fetchWithRetry key env url payload (retries + 1)
             (emit (SetTimeout (2 ^ Z.of_nat retries * 1000)) (emit (Fetch url payload) st)))
      = addEvents (retryTrace url payload retries j) st).
    { destruct (IH (retries + 1)%nat
                   (emit (SetTimeout (2 ^ Z.of_nat retries * 1000)) (emit (Fetch url payload) st)))
        as (j & Hj & ->); [lia|].
      exists (S j). split; [lia|].
      rewrite !emit_as_addEvents, !addEvents_addEvents.
      replace (retries + 1)%nat with (S retries) by lia. reflexivity. }
    assert (Hstop : forall o : Outcome Value, exists j, (j <= S k)%nat /\
      snd (o, emit (Fetch url payload) st) = addEvents (retryTrace url payload retries j) st).
    { intros o. exists 0%nat. split; [lia | reflexivity]. }
    destruct (server env retries) as [e|r].
    { destruct (decide _); [apply Hrec | apply Hstop]. }
    destruct (negb (ok r)); [|apply Hstop].
    destruct (json r) as [body|e].
    + destruct (decide _); [apply Hrec|].
      destruct (getProp body "error"); (destruct (decide _); [apply Hrec | apply Hstop]).
    + destruct (decide _); [apply Hrec | apply Hstop].
Qed.

End Recovery2.

(** X6. When the attempts numbered 0 to k - 1 fail (a rejected [fetch] or
    any response that is not ok) and attempt k, within the ceiling, is
    answered by an ok response, [fetchWithRetry] settles to what
    [response.json()] of that response settles to, after k + 1 requests and
    the waits of 1000, 2000, ..., 2^(k-1) * 1000 ms between them, in both
    versions. *)
Theorem fetchWithRetry_recovers_after_failures `{Host} (key : string) (env : Env)
    (url : string) (payload : Value) (k : nat) (response : Response) (st : AppState) :
  key <> "" ->
  (forall i, (i < k)%nat -> failed (server env i)) ->
  server env k = FetchResolved response -> ok response = true ->
  ((k <= App1.MAX_RETRIES)%nat ->
   App1.fetchWithRetry key env url payload 0 st
   = (json response, addEvents (retryTrace url payload 0 k) st))
  /\ ((k <= App2.MAX_RETRIES)%nat ->
      App2.fetchWithRetry key env url payload 0 st
      = (json response, addEvents (retryTrace url payload 0 k) st))
  /\ fetchCount (retryTrace url payload 0 k) = S k.
Proof.
  intros Hkey Hfail Hserver Hok. split; [|split].
  - intros Hk. apply (fetchWithRetry1_recovers key env url payload Hkey k response); try assumption.
    + lia.
    + intros i Hi. apply Hfail. lia.
  - intros Hk. apply (fetchWithRetry2_recovers key env url payload Hkey k response); try assumption.
    + lia.
    + intros i Hi. apply Hfail. lia.
  - apply fetchCount_retryTrace.
Qed.

Lemma fetchWithRetry_recovers_witness :
  App1.fetchWithRetry (H := exampleHost) "k" (recovering 2 (VStr "done")) "u" VNull 0 initialState
  = (Return (VStr "done"),
     addEvents [Fetch "u" VNull; SetTimeout 1000; Fetch "u" VNull; SetTimeout 2000;
                Fetch "u" VNull] initialState).
Proof.
  refine (proj1 (fetchWithRetry_recovers_after_failures (H := exampleHost) "k"
                   (recovering 2 (VStr "done")) "u" VNull 2
                   (mkResponse 200 "OK" (Return (VStr "done"))) initialState _ _ _ _) _).
  - discriminate.
  - intros [|[|i]] Hi; [exact I | exact I | lia].
  - reflexivity.
  - reflexivity.
  - unfold App1.MAX_RETRIES. lia.
Defined.

(** X7. With a credential, whatever the server does and whatever the
    starting count, the only effects of [fetchWithRetry] are requests to the
    given URL with the given payload, each but the last followed by the wait
    of 2^attempt * 1000 ms, and there are at most [MAX_RETRIES - retries]
    retries; the rest of the state is untouched. *)
Theorem fetchWithRetry_only_requests_and_waits `{Host} (key : string) (env : Env)
    (url : string) (payload : Value) (retries : nat) (st : AppState) :
  key <> "" ->
  (exists j, (j <= App1.MAX_RETRIES - retries)%nat
     /\ snd (App1.fetchWithRetry key env url payload retries st)
        = addEvents (retryTrace url payload retries j) st)
  /\ (exists j, (j <= App2.MAX_RETRIES - retries)%nat
        /\ snd (App2.fetchWithRetry key env url payload retries st)
           = addEvents (retryTrace url payload retries j) st).
Proof.
  intros Hkey. split.
  - apply (fetchWithRetry1_trace key env url payload Hkey). lia.
  - apply (fetchWithRetry2_trace key env url payload Hkey). lia.
Qed.

Lemma fetchWithRetry_only_requests_witness :
  exists j, (j <= 3)%nat
    /\ snd (App1.fetchWithRetry (H := exampleHost) "k" (alwaysAnswers 503 "Service Unavailable" "busy")
              "u" VNull 0 initialState)
       = addEvents (retryTrace "u" VNull 0 j) initialState.
Proof.
  exact (proj1 (fetchWithRetry_only_requests_and_waits (H := exampleHost) "k"
                  (alwaysAnswers 503 "Service Unavailable" "busy") "u" VNull 0 initialState
                  ltac:(discriminate))).
Defined.

(** ** The classification flow: outcomes *)

Lemma analysisOutcome_prediction n trace p st :
  (fetchCount trace <= n)%nat ->
  analysisOutcome n st (setIsLoading false (setPrediction (Some p) (addEvents trace (analyzing st)))).
Proof.
  intros Hn. unfold analysisOutcome. repeat split; try reflexivity.
  - exists trace. by split.
  - left. by exists p.
Qed.

Lemma analysisOutcome_error n trace message st :
  (fetchCount trace <= n)%nat -> message <> "" ->
  analysisOutcome n st (setIsLoading false (setError (Some message) (addEvents trace (analyzing st)))).
Proof.
  intros Hn Hm. unfold analysisOutcome. repeat split; try reflexivity.
  - exists trace. by split.
  - right. split; [reflexivity|]. by exists message.
Qed.

Lemma or_message_nonempty (message fallback : string) :
  fallback <> "" -> (if String.eqb message "" then fallback else message) <> "".
Proof. intros Hf. destruct (String.eqb_spec message ""); assumption. Qed.

Section Outcome1.
Context `{Host}.
Variables (key : string) (env : Env).

Lemma classifyWaste1_bounded base64 languageCode st :
  exists trace, snd (App1.classifyWaste key env base64 languageCode st) = addEvents trace st
                /\ (fetchCount trace <= 4)%nat.
Proof.
  assert (Hnone : st = addEvents [] st)
    by (destruct st; unfold addEvents; simpl; by rewrite app_nil_r).
  assert (Hquiet : exists trace, st = addEvents trace st /\ (fetchCount trace <= 4)%nat)
    by (exists []; split; [exact Hnone | simpl; lia]).
  unfold App1.classifyWaste, mbind, M_bind, lift. cbv zeta.
  destruct (getProp _ "label") as [label|e]; [|exact Hquiet].
  destruct (firstWordOf label) as [languageLabel|e]; [|exact Hquiet].
  destruct (fetchWithRetry1_bounded key env (App1.API_URL key)
              (App1.classifyPayload base64 languageLabel) App1.MAX_RETRIES 0 st)
    as (trace & Htrace & Hcount); [lia|].
  destruct (App1.fetchWithRetry _ _ _ _ _ _) as [[response|e] st1]; simpl in Htrace; subst st1;
    [|by exists trace].
  destruct (getProp response "candidates") as [candidates|e]; [|by exists trace].
  destruct (truthy _ && truthy _); [|by exists trace].
  unfold tryCatch. destruct (JSON_parse _); by exists trace.
Qed.

Lemma analyzeWaste1_outcome base64 languageCode st :
  truthy base64 = true ->
  analysisOutcome 4 st (App1.analyzeWaste key env base64 languageCode st).
Proof.
  intros Hbase. unfold App1.analyzeWaste. rewrite Hbase. cbn [negb]. cbv zeta.
  fold (analyzing st).
  unfold tryFinally, tryCatch. unfold mbind at 1. unfold M_bind at 1.
  destruct (classifyWaste1_bounded base64 languageCode (analyzing st))
    as (trace & Htrace & Hcount).
  assert (Herror : forall e : Exn,
    analysisOutcome 4 st
      (setIsLoading false
         (setError (Some (if String.eqb (exn_message e) "" then "Failed to analyze image."
                          else exn_message e))
            (addEvents trace (analyzing st))))).
  { intros e. apply analysisOutcome_error; [assumption|]. by apply or_message_nonempty. }
  destruct (App1.classifyWaste _ _ _ _ _) as [[result|e] st1]; simpl in Htrace; subst st1;
    [|apply Herror].
  unfold mbind, M_bind, lift, modify.
  repeat (destruct (getProp result _); [|apply Herror]).
  by apply analysisOutcome_prediction.
Qed.

End Outcome1.

Section Outcome2.
Context `{Host}.
Variables (key : string) (env : Env).

Lemma classifyWaste2_bounded base64 languageCode st :
  exists trace, snd (App2.classifyWaste key env base64 languageCode st) = addEvents trace st
                /\ (fetchCount trace <= 6)%nat.
Proof.
  assert (Hnone : st = addEvents [] st)
    by (destruct st; unfold addEvents; simpl; by rewrite app_nil_r).
  assert (Hquiet : exists trace, st = addEvents trace st /\ (fetchCount trace <= 6)%nat)
    by (exists []; split; [exact Hnone | simpl; lia]).
  unfold App2.classifyWaste, mbind, M_bind, lift. cbv zeta.
  destruct (getProp _ "label") as [label|e]; [|exact Hquiet].
  destruct (firstWordOf label) as [languageLabel|e]; [|exact Hquiet].
  destruct (fetchWithRetry2_bounded key env (App2.API_URL_GEMINI key)
              (App2.classifyPayload base64 languageLabel) App2.MAX_RETRIES 0 st)
    as (trace & Htrace & Hcount); [lia|].
  destruct (App2.fetchWithRetry _ _ _ _ _ _) as [[response|e] st1]; simpl in Htrace; subst st1;
    [|by exists trace].
  destruct (getProp response "candidates") as [candidates|e]; [|by exists trace].
  destruct (truthy _ && truthy _); [|by exists trace].
  unfold tryCatch. destruct (JSON_parse _); by exists trace.
Qed.

Lemma analyzeWaste2_outcome base64 languageCode st :
  truthy base64 = true ->
  analysisOutcome 6 st (App2.analyzeWaste key env base64 languageCode st).
Proof.
  intros Hbase. unfold App2.analyzeWaste. rewrite Hbase. cbn [negb]. cbv zeta.
  fold (analyzing st).
  unfold tryFinally, tryCatch. unfold mbind at 1. unfold M_bind at 1.
  destruct (classifyWaste2_bounded base64 languageCode (analyzing st))
    as (trace & Htrace & Hcount).
  assert (Herror : forall e : Exn,
    analysisOutcome 6 st
      (setIsLoading false
         (setError (Some (if String.eqb (exn_message e) ""
                          then "Failed to analyze image using Gemini API. Check your API key or network."
                          else exn_message e))
            (addEvents trace (analyzing st))))).
  { intros e. apply analysisOutcome_error; [assumption|]. by apply or_message_nonempty. }
  destruct (App2.classifyWaste _ _ _ _ _) as [[result|e] st1]; simpl in Htrace; subst st1;
    [|apply Herror].
  unfold mbind, M_bind, lift, modify.
  repeat (destruct (getProp result _); [|apply Herror]).
  by apply analysisOutcome_prediction.
Qed.

End Outcome2.

(** X8. Whatever the server answers, [analyzeWaste] on an image ends with
    the loading flag cleared and with either a prediction and no error or a
    non-empty error and no prediction; it leaves the image, the language and
    the playback cells alone and sends at most [MAX_RETRIES + 1] requests
    (4 and 6). *)
Theorem analyzeWaste_ends_in_prediction_or_error `{Host} (key : string) (env : Env)
    (base64 : Value) (languageCode : string) (st : AppState) :
  truthy base64 = true ->
  analysisOutcome 4 st (App1.analyzeWaste key env base64 languageCode st)
  /\ analysisOutcome 6 st (App2.analyzeWaste key env base64 languageCode st).
Proof.
  intros Hbase. split; [by apply analyzeWaste1_outcome | by apply analyzeWaste2_outcome].
Qed.

Lemma analyzeWaste_ends_witness :
  analysisOutcome 4 initialState
    (App1.analyzeWaste (H := exampleHost) "k" (alwaysAnswers 503 "Service Unavailable" "busy")
       (VStr "aW1hZ2U=") "en-US" initialState).
Proof.
  exact (proj1 (analyzeWaste_ends_in_prediction_or_error (H := exampleHost) "k"
                  (alwaysAnswers 503 "Service Unavailable" "busy")
                  (VStr "aW1hZ2U=") "en-US" initialState eq_refl)).
Defined.

Section NoText1.
Context `{Host}.
Variables (key : string) (env : Env).

Lemma classifyWaste1_no_text base64 languageCode body st :
  key <> "" -> knownLanguage languageCode -> answersWith env body ->
  body <> VUndefined -> body <> VNull ->
  truthy (optProp (firstPart body) "text") = false ->
  exists payload,
    App1.classifyWaste key env base64 languageCode st
    = (Throw (mkExn Error "AI classification failed to return content."),
       emit (Fetch (App1.API_URL key) payload) st).
Proof.
  intros Hkey Hlang Hserver Hundef Hnull Htext.
  unfold knownLanguage in Hlang. simpl in Hlang.
  destruct Hlang as [<- | [<- | [<- | [<- | []]]]];
    (eexists; unfold App1.classifyWaste;
     cbn [assoc App1.VOICE_CONFIGS String.eqb Ascii.eqb Bool.eqb];
     unfold mbind, M_bind, lift; cbn [getProp assoc String.eqb Ascii.eqb Bool.eqb firstWordOf];
     rewrite (fetchWithRetry1_first_success _ _ _ _ _ _ Hkey Hserver);
     destruct body as [| |b|x|s|items|props]; try contradiction; try reflexivity;
     unfold firstPart in Htext; cbn [optProp getProp] in Htext |- *;
     rewrite Htext, andb_false_r; reflexivity).
Qed.

Lemma classifyWaste1_gives_up base64 languageCode st :
  key <> "" -> knownLanguage languageCode -> (forall n, failed (server env n)) ->
  exists payload,
    App1.classifyWaste key env base64 languageCode st
    = (Throw (mkExn Error ("Failed after 3 attempts: " +:+ lastError1 (server env 3))),
       addEvents (retryTrace (App1.API_URL key) payload 0 3) st).
Proof.
  intros Hkey Hlang Hfail.
  unfold knownLanguage in Hlang. simpl in Hlang.
  destruct Hlang as [<- | [<- | [<- | [<- | []]]]];
    (eexists; unfold App1.classifyWaste;
     cbn [assoc App1.VOICE_CONFIGS String.eqb Ascii.eqb Bool.eqb];
     unfold mbind, M_bind, lift; cbn [getProp assoc String.eqb Ascii.eqb Bool.eqb firstWordOf];
     rewrite (fetchWithRetry1_exhausts key env _ _ Hkey Hfail 3 0 _ eq_refl); reflexivity).
Qed.

End NoText1.

Section NoText2.
Context `{Host}.
Variables (key : string) (env : Env).

Lemma classifyWaste2_no_text base64 languageCode body st :
  key <> "" -> knownLanguage languageCode -> answersWith env body ->
  body <> VUndefined -> body <> VNull ->
  truthy (optProp (firstPart body) "text") = false ->
  exists payload,
    App2.classifyWaste key env base64 languageCode st
    = (Throw (mkExn Error "AI classification failed to return content."),
       emit (Fetch (App2.API_URL_GEMINI key) payload) st).
Proof.
  intros Hkey Hlang Hserver Hundef Hnull Htext.
  unfold knownLanguage in Hlang. simpl in Hlang.
  destruct Hlang as [<- | [<- | [<- | [<- | []]]]];
    (eexists; unfold App2.classifyWaste;
     cbn [assoc App2.VOICE_CONFIGS String.eqb Ascii.eqb Bool.eqb];
     unfold mbind, M_bind, lift; cbn [getProp assoc String.eqb Ascii.eqb Bool.eqb firstWordOf];
     rewrite (fetchWithRetry2_first_success _ _ _ _ _ _ Hkey Hserver);
     destruct body as [| |b|x|s|items|props]; try contradiction; try reflexivity;
     unfold firstPart in Htext; cbn [optProp getProp] in Htext |- *;
     rewrite Htext, andb_false_r; reflexivity).
Qed.

Lemma classifyWaste2_gives_up base64 languageCode st :
  key <> "" -> knownLanguage languageCode -> (forall n, failed (server env n)) ->
  exists payload,
    App2.classifyWaste key env base64 languageCode st
    = (Throw (mkExn Error ("Failed after 5 attempts: " +:+ lastError2 (server env 5))),
       addEvents (retryTrace (App2.API_URL_GEMINI key) payload 0 5) st).
Proof.
  intros Hkey Hlang Hfail.
  unfold knownLanguage in Hlang. simpl in Hlang.
  destruct Hlang as [<- | [<- | [<- | [<- | []]]]];
    (eexists; unfold App2.classifyWaste;
     cbn [assoc App2.VOICE_CONFIGS String.eqb Ascii.eqb Bool.eqb];
     unfold mbind, M_bind, lift; cbn [getProp assoc String.eqb Ascii.eqb Bool.eqb firstWordOf];
     rewrite (fetchWithRetry2_exhausts key env _ _ Hkey Hfail 5 0 _ eq_refl); reflexivity).
Qed.

End NoText2.

(** X9. A response body that is not [null] and whose first candidate
    carries no text makes the classification fail with "AI classification
    failed to return content.": that is the error [analyzeWaste] reports,
    with no prediction, after one request. *)
Theorem classification_without_text_is_reported `{Host} (key : string) (env : Env)
    (base64 : Value) (languageCode : string) (body : Value) (st : AppState) :
  key <> "" -> knownLanguage languageCode -> truthy base64 = true ->
  answersWith env body -> body <> VUndefined -> body <> VNull ->
  truthy (optProp (firstPart body) "text") = false ->
  (let st' := App1.analyzeWaste key env base64 languageCode st in
   error st' = Some "AI classification failed to return content."
   /\ prediction st' = None
   /\ isLoading st' = false
   /\ exists payload, events st' = events st ++ [Fetch (App1.API_URL key) payload])
  /\ (let st' := App2.analyzeWaste key env base64 languageCode st in
      error st' = Some "AI classification failed to return content."
      /\ prediction st' = None
      /\ isLoading st' = false
      /\ exists payload, events st' = events st ++ [Fetch (App2.API_URL_GEMINI key) payload]).
Proof.
  intros Hkey Hlang Hbase Hserver Hundef Hnull Htext. split.
  - destruct (classifyWaste1_no_text key env base64 languageCode body (analyzing st)
                Hkey Hlang Hserver Hundef Hnull Htext) as (payload & Hclassify).
    assert (Hrun : App1.analyzeWaste key env base64 languageCode st
                   = setIsLoading false
                       (setError (Some "AI classification failed to return content.") (emit (Fetch (App1.API_URL key) payload) (analyzing st)))).
    { unfold App1.analyzeWaste. rewrite Hbase. cbn [negb]. cbv zeta.
      fold (analyzing st).
      unfold tryFinally, tryCatch. unfold mbind at 1. unfold M_bind at 1.
      rewrite Hclassify. reflexivity. }
    cbv zeta. rewrite Hrun. do 3 (split; [reflexivity|]). by exists payload.
  - destruct (classifyWaste2_no_text key env base64 languageCode body (analyzing st)
                Hkey Hlang Hserver Hundef Hnull Htext) as (payload & Hclassify).
    assert (Hrun : App2.analyzeWaste key env base64 languageCode st
                   = setIsLoading false
                       (setError (Some "AI classification failed to return content.") (emit (Fetch (App2.API_URL_GEMINI key) payload) (analyzing st)))).
    { unfold App2.analyzeWaste. rewrite Hbase. cbn [negb]. cbv zeta.
      fold (analyzing st).
      unfold tryFinally, tryCatch. unfold mbind at 1. unfold M_bind at 1.
      rewrite Hclassify. reflexivity. }
    cbv zeta. rewrite Hrun. do 3 (split; [reflexivity|]). by exists payload.
Qed.

Lemma classification_without_text_witness :
  error (App1.analyzeWaste (H := exampleHost) "k" (answering (VObj [("candidates", VArr [])]))
           (VStr "aW1hZ2U=") "en-US" initialState)
  = Some "AI classification failed to return content.".
Proof.
  refine (proj1 (proj1 (classification_without_text_is_reported (H := exampleHost) "k"
                          (answering (VObj [("candidates", VArr [])]))
                          (VStr "aW1hZ2U=") "en-US" (VObj [("candidates", VArr [])]) initialState
                          _ _ _ _ _ _ _))).
  - discriminate.
  - left. reflexivity.
  - reflexivity.
  - reflexivity.
  - discriminate.
  - discriminate.
  - reflexivity.
Defined.

(** X10. When every attempt fails, [analyzeWaste] reports the error of
    [fetchWithRetry], "Failed after N attempts: " followed by the last
    error, after the whole trace of retries (4 requests in the first
    version, 6 in the second), with no prediction and the loading flag
    cleared. *)
Theorem analyzeWaste_reports_exhausted_retries `{Host} (key : string) (env : Env)
    (base64 : Value) (languageCode : string) (st : AppState) :
  key <> "" -> knownLanguage languageCode -> truthy base64 = true ->
  (forall n, failed (server env n)) ->
  (let st' := App1.analyzeWaste key env base64 languageCode st in
   error st' = Some ("Failed after 3 attempts: " +:+ lastError1 (server env 3))
   /\ prediction st' = None
   /\ isLoading st' = false
   /\ exists payload, events st' = events st ++ retryTrace (App1.API_URL key) payload 0 3)
  /\ (let st' := App2.analyzeWaste key env base64 languageCode st in
      error st' = Some ("Failed after 5 attempts: " +:+ lastError2 (server env 5))
      /\ prediction st' = None
      /\ isLoading st' = false
      /\ exists payload,
           events st' = events st ++ retryTrace (App2.API_URL_GEMINI key) payload 0 5).
Proof.
  intros Hkey Hlang Hbase Hfail. split.
  - destruct (classifyWaste1_gives_up key env base64 languageCode (analyzing st)
                Hkey Hlang Hfail) as (payload & Hclassify).
    assert (Hrun : App1.analyzeWaste key env base64 languageCode st
                   = setIsLoading false
                       (setError (Some ("Failed after 3 attempts: " +:+ lastError1 (server env 3))) (addEvents (retryTrace (App1.API_URL key) payload 0 3) (analyzing st)))).
    { unfold App1.analyzeWaste. rewrite Hbase. cbn [negb]. cbv zeta.
      fold (analyzing st).
      unfold tryFinally, tryCatch. unfold mbind at 1. unfold M_bind at 1.
      rewrite Hclassify. reflexivity. }
    cbv zeta. rewrite Hrun. do 3 (split; [reflexivity|]). by exists payload.
  - destruct (classifyWaste2_gives_up key env base64 languageCode (analyzing st)
                Hkey Hlang Hfail) as (payload & Hclassify).
    assert (Hrun : App2.analyzeWaste key env base64 languageCode st
                   = setIsLoading false
                       (setError (Some ("Failed after 5 attempts: " +:+ lastError2 (server env 5))) (addEvents (retryTrace (App2.API_URL_GEMINI key) payload 0 5) (analyzing st)))).
    { unfold App2.analyzeWaste. rewrite Hbase. cbn [negb]. cbv zeta.
      fold (analyzing st).
      unfold tryFinally, tryCatch. unfold mbind at 1. unfold M_bind at 1.
      rewrite Hclassify. reflexivity. }
    cbv zeta. rewrite Hrun. do 3 (split; [reflexivity|]). by exists payload.
Qed.

Lemma analyzeWaste_reports_exhausted_witness :
  error (App1.analyzeWaste (H := exampleHost) "k"
           (alwaysAnswers 503 "Service Unavailable" "busy") (VStr "aW1hZ2U=") "en-US" initialState)
  = Some "Failed after 3 attempts: API Error 503: busy".
Proof.
  refine (proj1 (proj1 (analyzeWaste_reports_exhausted_retries (H := exampleHost) "k"
                          (alwaysAnswers 503 "Service Unavailable" "busy")
                          (VStr "aW1hZ2U=") "en-US" initialState _ _ _ _))).
  - discriminate.
  - left. reflexivity.
  - reflexivity.
  - intros n. reflexivity.
Defined.

Lemma analysedFrom_frame n image chosen st' :
  analysedFrom n image chosen st' ->
  base64Image st' = base64Image chosen
  /\ selectedLanguageCode st' = selectedLanguageCode chosen
  /\ audioCells st' = audioCells chosen.
Proof.
  unfold analysedFrom. destruct (truthy image).
  - intros (_ & Himage & Hlang & Hcells & _). by repeat split.
  - intros ->. by repeat split.
Qed.

Lemma analyzeWaste1_from `{Host} key env base64 languageCode st :
  analysedFrom 4 base64 st (App1.analyzeWaste key env base64 languageCode st).
Proof.
  unfold analysedFrom. destruct (truthy base64) eqn:Hbase.
  - by apply analyzeWaste1_outcome.
  - unfold App1.analyzeWaste. by rewrite Hbase.
Qed.

Lemma analyzeWaste2_from `{Host} key env base64 languageCode st :
  analysedFrom 6 base64 st (App2.analyzeWaste key env base64 languageCode st).
Proof.
  unfold analysedFrom. destruct (truthy base64) eqn:Hbase.
  - by apply analyzeWaste2_outcome.
  - unfold App2.analyzeWaste. by rewrite Hbase.
Qed.

(** X11. The handlers that store a choice keep it whatever the analysis
    gives. [updateLanguage] ends with the new language selected, the image
    and the playback cells as they were, and analyses again only when there
    is an image; [handleFileChange] and [capturePhoto] end with the new
    image stored and the language as it was, the analysis having run from
    the state with the choice stored; a file that is not an image only sets
    the error. *)
Theorem handlers_store_the_choice `{Host} (key : string) (env : Env) (st : AppState) :
  (forall code,
     let st1 := App1.updateLanguage key env code st in
     let st2 := App2.updateLanguage key env code st in
     selectedLanguageCode st1 = code /\ selectedLanguageCode st2 = code
     /\ base64Image st1 = base64Image st /\ base64Image st2 = base64Image st
     /\ audioCells st1 = audioCells st /\ audioCells st2 = audioCells st
     /\ (if truthy (base64Image st)
         then analysisOutcome 4 (setSelectedLanguageCode code st) st1
              /\ analysisOutcome 6 (setSelectedLanguageCode code st) st2
         else st1 = setSelectedLanguageCode code st /\ st2 = setSelectedLanguageCode code st))
  /\ (forall image,
        let st1 := App1.handleFileChange key env (Some image) st in
        let st2 := App2.handleFileChange key env (Some image) st in
        base64Image st1 = image /\ base64Image st2 = image
        /\ selectedLanguageCode st1 = selectedLanguageCode st
        /\ selectedLanguageCode st2 = selectedLanguageCode st
        /\ analysedFrom 4 image (setBase64Image image (setError None st)) st1
        /\ analysedFrom 6 image (setBase64Image image (setError None st)) st2)
  /\ (forall frame,
        let st1 := App1.capturePhoto key env (Some frame) st in
        let st2 := App2.capturePhoto key env (Some frame) st in
        base64Image st1 = frame /\ base64Image st2 = frame
        /\ selectedLanguageCode st1 = selectedLanguageCode st
        /\ selectedLanguageCode st2 = selectedLanguageCode st
        /\ analysedFrom 4 frame (setBase64Image frame st) st1
        /\ analysedFrom 6 frame (setBase64Image frame st) st2)
  /\ App1.handleFileChange key env None st = setError (Some "Please upload a valid image file.") st
  /\ App2.handleFileChange key env None st = setError (Some "Please upload a valid image file.") st.
Proof.
  split; [|split; [|split; [|split; reflexivity]]].
  - intros code. cbv zeta. unfold App1.updateLanguage, App2.updateLanguage. cbv zeta.
    pose proof (analyzeWaste1_from key env (base64Image st) code
                  (setSelectedLanguageCode code st)) as H1.
    pose proof (analyzeWaste2_from key env (base64Image st) code
                  (setSelectedLanguageCode code st)) as H2.
    destruct (analysedFrom_frame _ _ _ _ H1) as (Hi1 & Hl1 & Hc1).
    destruct (analysedFrom_frame _ _ _ _ H2) as (Hi2 & Hl2 & Hc2).
    unfold analysedFrom in H1, H2.
    destruct (truthy (base64Image st)).
    + split; [exact Hl1|]. split; [exact Hl2|]. split; [exact Hi1|]. split; [exact Hi2|].
      split; [exact Hc1|]. split; [exact Hc2|]. split; [exact H1 | exact H2].
    + subst. repeat split.
  - intros image. cbv zeta. unfold App1.handleFileChange, App2.handleFileChange. cbv zeta.
    pose proof (analyzeWaste1_from key env image (selectedLanguageCode st)
                  (setBase64Image image (setError None st))) as H1.
    pose proof (analyzeWaste2_from key env image (selectedLanguageCode st)
                  (setBase64Image image (setError None st))) as H2.
    destruct (analysedFrom_frame _ _ _ _ H1) as (Hi1 & Hl1 & _).
    destruct (analysedFrom_frame _ _ _ _ H2) as (Hi2 & Hl2 & _).
    split; [exact Hi1|]. split; [exact Hi2|]. split; [exact Hl1|]. split; [exact Hl2|].
    split; [exact H1 | exact H2].
  - intros frame. cbv zeta. unfold App1.capturePhoto, App2.capturePhoto. cbv zeta.
    pose proof (analyzeWaste1_from key env frame (selectedLanguageCode st)
                  (setBase64Image frame st)) as H1.
    pose proof (analyzeWaste2_from key env frame (selectedLanguageCode st)
                  (setBase64Image frame st)) as H2.
    destruct (analysedFrom_frame _ _ _ _ H1) as (Hi1 & Hl1 & _).
    destruct (analysedFrom_frame _ _ _ _ H2) as (Hi2 & Hl2 & _).
    split; [exact Hi1|]. split; [exact Hi2|]. split; [exact Hl1|]. split; [exact Hl2|].
    split; [exact H1 | exact H2].
Qed.

(** ** The speech flow: outcomes *)

Lemma speechRejected_intro message trace st :
  speechRejected message trace st
    (setIsAudioGenerating false (setError (Some message) (addEvents trace (generating st)))).
Proof.
  unfold speechRejected. split; [reflexivity|]. split; [reflexivity|].
  split; [|split; [apply isAudioPlaying_generating|]; split; reflexivity].
  apply not_Playing_paused. intros a. apply (paused_pauseCurrent _ a).
Qed.

Lemma atob_throws data e :
  atob data = Throw e -> exn_name e = InvalidCharacterError /\ exn_message e <> "".
Proof.
  unfold atob. cbv zeta. intros Hdec.
  repeat case_match; simplify_eq; by split.
Qed.


Section SpeechErrors1.
Context `{Host}.
Variables (key : string) (env : Env).

Ltac speech1_start Hkey Htext Hguard Hlang :=
  unfold App1.generateAndPlayAudio; rewrite Htext; cbn [negb];
  unfold notPlaying in Hguard; rewrite Hguard; cbv zeta;
  match goal with st : AppState |- _ =>
    fold (generating st); rewrite selectedLanguageCode_generating
  end;
  unfold knownLanguage in Hlang; simpl in Hlang;
  destruct Hlang as [<- | [<- | [<- | [<- | []]]]];
  (eexists; unfold tryFinally, tryCatch;
   cbn [assoc App1.VOICE_CONFIGS String.eqb Ascii.eqb Bool.eqb];
   unfold mbind, M_bind, lift; cbn [getProp assoc String.eqb Ascii.eqb Bool.eqb]).

Lemma generateAndPlayAudio1_no_data text body st :
  key <> "" -> truthy text = true -> notPlaying st ->
  knownLanguage (selectedLanguageCode st) ->
  answersWith env body ->
  truthy (optProp (optProp (firstPart body) "inlineData") "data") = false ->
  exists payload,
    App1.generateAndPlayAudio key env text st
    = setIsAudioGenerating false
        (setError (Some "Voice generation unavailable. API failed to return audio data.")
           (addEvents [Fetch (App1.API_URL key) payload] (generating st))).
Proof.
  intros Hkey Htext Hguard Hlang Hserver Hdata.
  speech1_start Hkey Htext Hguard Hlang;
    rewrite (fetchWithRetry1_first_success _ _ _ _ _ _ Hkey Hserver);
    rewrite Hdata; reflexivity.
Qed.

Lemma generateAndPlayAudio1_undecodable text data mimeType e st :
  key <> "" -> truthy text = true -> notPlaying st ->
  knownLanguage (selectedLanguageCode st) ->
  data <> "" ->
  answersWith env (speechResponse (VStr data) mimeType) ->
  atob data = Throw e ->
  exists payload,
    App1.generateAndPlayAudio key env text st
    = setIsAudioGenerating false
        (setError (Some ("Voice generation unavailable. " +:+ exn_message e))
           (addEvents [Fetch (App1.API_URL key) payload] (generating st))).
Proof.
  intros Hkey Htext Hguard Hlang Hdata Hserver Hatob.
  assert (Htruthy : negb (String.eqb data "") = true)
    by (destruct (String.eqb_spec data ""); [contradiction | reflexivity]).
  speech1_start Hkey Htext Hguard Hlang;
    rewrite (fetchWithRetry1_first_success _ _ _ _ _ _ Hkey Hserver);
    unfold speechResponse, firstPart;
    cbn [assoc String.eqb Ascii.eqb Bool.eqb optFirst optProp truthy];
    rewrite Htruthy; unfold base64ToArrayBuffer; cbn [ToString]; rewrite Hatob;
    reflexivity.
Qed.

Lemma generateAndPlayAudio1_gives_up text st :
  key <> "" -> truthy text = true -> notPlaying st ->
  knownLanguage (selectedLanguageCode st) ->
  (forall n, failed (server env n)) ->
  exists payload,
    App1.generateAndPlayAudio key env text st
    = setIsAudioGenerating false
        (setError (Some ("Voice generation unavailable. Failed after 3 attempts: "
                           +:+ lastError1 (server env 3)))
           (addEvents (retryTrace (App1.API_URL key) payload 0 3) (generating st))).
Proof.
  intros Hkey Htext Hguard Hlang Hfail.
  speech1_start Hkey Htext Hguard Hlang;
    rewrite (fetchWithRetry1_exhausts key env _ _ Hkey Hfail 3 0 _ eq_refl); reflexivity.
Qed.

End SpeechErrors1.

Section SpeechErrors2.
Context `{Host}.
Variables (key : string) (env : Env).

Ltac speech2_begin Hkey Htext Hguard Hlang :=
  unfold App2.generateAndPlayAudio; rewrite Htext; cbn [negb];
  unfold notPlaying in Hguard; rewrite Hguard; cbv zeta;
  match goal with st : AppState |- _ =>
    fold (generating st); rewrite selectedLanguageCode_generating
  end;
  unfold knownLanguage in Hlang; simpl in Hlang;
  destruct Hlang as [<- | [<- | [<- | [<- | []]]]];
  (eexists; unfold tryFinally, tryCatch;
   cbn [assoc App2.VOICE_CONFIGS String.eqb Ascii.eqb Bool.eqb];
   unfold mbind, M_bind, lift; cbn [getProp assoc String.eqb Ascii.eqb Bool.eqb]).

Lemma generateAndPlayAudio2_no_data text body st :
  key <> "" -> truthy text = true -> notPlaying st ->
  knownLanguage (selectedLanguageCode st) ->
  answersWith env body ->
  truthy (optProp (optProp (firstPart body) "inlineData") "data") = false ->
  exists payload,
    App2.generateAndPlayAudio key env text st
    = setIsAudioGenerating false
        (setError (Some "TTS API failed to return audio data.")
           (addEvents [Fetch (App2.API_URL_TTS key) payload] (generating st))).
Proof.
  intros Hkey Htext Hguard Hlang Hserver Hdata.
  speech2_begin Hkey Htext Hguard Hlang;
    rewrite (fetchWithRetry2_first_success _ _ _ _ _ _ Hkey Hserver);
    rewrite Hdata; reflexivity.
Qed.

Lemma generateAndPlayAudio2_undecodable text data mimeType digits e st :
  key <> "" -> truthy text = true -> notPlaying st ->
  knownLanguage (selectedLanguageCode st) ->
  data <> "" ->
  answersWith env (speechResponse (VStr data) mimeType) ->
  declaredRate mimeType = Some digits ->
  atob data = Throw e ->
  exists payload,
    App2.generateAndPlayAudio key env text st
    = setIsAudioGenerating false
        (setError (Some (exn_message e))
           (addEvents [Fetch (App2.API_URL_TTS key) payload] (generating st))).
Proof.
  intros Hkey Htext Hguard Hlang Hdata Hserver Hmime Hatob.
  destruct (declaredRate_inv _ _ Hmime) as (mime & -> & Hne & Hprefix & Hrate).
  assert (Hmt : negb (String.eqb mime "") = true)
    by (destruct (String.eqb_spec mime ""); [contradiction | reflexivity]).
  assert (Htruthy : negb (String.eqb data "") = true)
    by (destruct (String.eqb_spec data ""); [contradiction | reflexivity]).
  destruct (atob_throws _ _ Hatob) as [_ Hmessage].
  assert (Hkeep : String.eqb (exn_message e) "" = false)
    by (destruct (String.eqb_spec (exn_message e) ""); [contradiction | reflexivity]).
  speech2_begin Hkey Htext Hguard Hlang;
    rewrite (fetchWithRetry2_first_success _ _ _ _ _ _ Hkey Hserver);
    unfold speechResponse, firstPart;
    cbn [assoc String.eqb Ascii.eqb Bool.eqb optFirst optProp];
    change (truthy (VStr data)) with (negb (String.eqb data ""));
    rewrite Htruthy; cbn [andb];
    cbn [truthy startsWith]; rewrite Hmt, Hprefix; cbn [ToString]; rewrite Hrate;
    unfold base64ToArrayBuffer; cbn [ToString]; rewrite Hatob;
    unfold modify, mret, M_ret; cbn [exn_message]; rewrite Hkeep; reflexivity.
Qed.

Lemma generateAndPlayAudio2_gives_up text st :
  key <> "" -> truthy text = true -> notPlaying st ->
  knownLanguage (selectedLanguageCode st) ->
  (forall n, failed (server env n)) ->
  exists payload,
    App2.generateAndPlayAudio key env text st
    = setIsAudioGenerating false
        (setError (Some ("Failed after 5 attempts: " +:+ lastError2 (server env 5)))
           (addEvents (retryTrace (App2.API_URL_TTS key) payload 0 5) (generating st))).
Proof.
  intros Hkey Htext Hguard Hlang Hfail.
  speech2_begin Hkey Htext Hguard Hlang;
    rewrite (fetchWithRetry2_exhausts key env _ _ Hkey Hfail 5 0 _ eq_refl); reflexivity.
Qed.

End SpeechErrors2.

(** X12. A speech response without inline audio data is reported ("Voice
    generation unavailable. API failed to return audio data." in the first
    version, "TTS API failed to return audio data." in the second) after one
    request: the ref keeps the element it had, nothing plays and both flags
    are clear. *)
Theorem speech_without_audio_data_is_reported `{Host} (key : string) (env : Env)
    (text body : Value) (st : AppState) :
  key <> "" -> truthy text = true -> notPlaying st ->
  knownLanguage (selectedLanguageCode st) ->
  answersWith env body ->
  truthy (optProp (optProp (firstPart body) "inlineData") "data") = false ->
  (exists payload,
     speechRejected "Voice generation unavailable. API failed to return audio data."
       [Fetch (App1.API_URL key) payload] st (App1.generateAndPlayAudio key env text st))
  /\ (exists payload,
        speechRejected "TTS API failed to return audio data."
          [Fetch (App2.API_URL_TTS key) payload] st (App2.generateAndPlayAudio key env text st)).
Proof.
  intros Hkey Htext Hguard Hlang Hserver Hdata. split.
  - destruct (generateAndPlayAudio1_no_data key env text body st
                Hkey Htext Hguard Hlang Hserver Hdata) as (payload & ->).
    exists payload. apply speechRejected_intro.
  - destruct (generateAndPlayAudio2_no_data key env text body st
                Hkey Htext Hguard Hlang Hserver Hdata) as (payload & ->).
    exists payload. apply speechRejected_intro.
Qed.

Lemma speech_without_audio_data_witness :
  exists payload,
    speechRejected "TTS API failed to return audio data."
      [Fetch (App2.API_URL_TTS "k") payload] initialState
      (App2.generateAndPlayAudio (H := exampleHost) "k"
         (answering (classificationResponse "not audio"))
         (VStr "Rinse and place in recycling.") initialState).
Proof.
  refine (proj2 (speech_without_audio_data_is_reported (H := exampleHost) "k"
                   (answering (classificationResponse "not audio"))
                   (VStr "Rinse and place in recycling.") (classificationResponse "not audio")
                   initialState _ _ _ _ _ _)).
  - discriminate.
  - reflexivity.
  - reflexivity.
  - left. reflexivity.
  - reflexivity.
  - reflexivity.
Defined.

(** X13. Audio data that [atob] cannot decode is rejected: [atob] throws an
    [InvalidCharacterError], the flow reports its message (after "Voice
    generation unavailable. " in the first version; in the second version
    for a MIME type that declares a rate) and no playback resource is
    created. *)
Theorem undecodable_audio_is_rejected `{Host} (key : string) (env : Env) (text : Value)
    (data : string) (mimeType : Value) (e : Exn) (st : AppState) :
  key <> "" -> truthy text = true -> notPlaying st ->
  knownLanguage (selectedLanguageCode st) -> data <> "" ->
  answersWith env (speechResponse (VStr data) mimeType) ->
  atob data = Throw e ->
  exn_name e = InvalidCharacterError
  /\ (exists payload,
        speechRejected ("Voice generation unavailable. " +:+ exn_message e)
          [Fetch (App1.API_URL key) payload] st (App1.generateAndPlayAudio key env text st))
  /\ (forall digits, declaredRate mimeType = Some digits ->
      exists payload,
        speechRejected (exn_message e)
          [Fetch (App2.API_URL_TTS key) payload] st (App2.generateAndPlayAudio key env text st)).
Proof.
  intros Hkey Htext Hguard Hlang Hdata Hserver Hatob.
  split; [apply (atob_throws data e Hatob)|]. split.
  - destruct (generateAndPlayAudio1_undecodable key env text data mimeType e st
                Hkey Htext Hguard Hlang Hdata Hserver Hatob) as (payload & ->).
    exists payload. apply speechRejected_intro.
  - intros digits Hmime.
    destruct (generateAndPlayAudio2_undecodable key env text data mimeType digits e st
                Hkey Htext Hguard Hlang Hdata Hserver Hmime Hatob) as (payload & ->).
    exists payload. apply speechRejected_intro.
Qed.

Lemma undecodable_audio_witness :
  exists payload,
    speechRejected
      "Voice generation unavailable. Failed to execute 'atob' on 'Window': The string to be decoded is not correctly encoded."
      [Fetch (App1.API_URL "k") payload] initialState
      (App1.generateAndPlayAudio (H := exampleHost) "k"
         (answering (speechResponse (VStr "A") (VStr "audio/L16;rate=24000")))
         (VStr "Rinse and place in recycling.") initialState).
Proof.
  refine (proj1 (proj2 (undecodable_audio_is_rejected (H := exampleHost) "k"
                   (answering (speechResponse (VStr "A") (VStr "audio/L16;rate=24000")))
                   (VStr "Rinse and place in recycling.") "A" (VStr "audio/L16;rate=24000")
                   (mkExn InvalidCharacterError
                      "Failed to execute 'atob' on 'Window': The string to be decoded is not correctly encoded.")
                   initialState _ _ _ _ _ _ _))).
  - discriminate.
  - reflexivity.
  - reflexivity.
  - left. reflexivity.
  - discriminate.
  - reflexivity.
  - reflexivity.
Defined.

(** X14. When every attempt fails, [generateAndPlayAudio] reports the error
    of [fetchWithRetry] (after "Voice generation unavailable. " in the first
    version) after the whole trace of retries; the ref keeps the element it
    had, nothing plays and both flags are clear. *)
Theorem speech_reports_exhausted_retries `{Host} (key : string) (env : Env) (text : Value)
    (st : AppState) :
  key <> "" -> truthy text = true -> notPlaying st ->
  knownLanguage (selectedLanguageCode st) ->
  (forall n, failed (server env n)) ->
  (exists payload,
     speechRejected ("Voice generation unavailable. Failed after 3 attempts: "
                       +:+ lastError1 (server env 3))
       (retryTrace (App1.API_URL key) payload 0 3) st
       (App1.generateAndPlayAudio key env text st))
  /\ (exists payload,
        speechRejected ("Failed after 5 attempts: " +:+ lastError2 (server env 5))
          (retryTrace (App2.API_URL_TTS key) payload 0 5) st
          (App2.generateAndPlayAudio key env text st)).
Proof.
  intros Hkey Htext Hguard Hlang Hfail. split.
  - destruct (generateAndPlayAudio1_gives_up key env text st Hkey Htext Hguard Hlang Hfail)
      as (payload & ->).
    exists payload. apply speechRejected_intro.
  - destruct (generateAndPlayAudio2_gives_up key env text st Hkey Htext Hguard Hlang Hfail)
      as (payload & ->).
    exists payload. apply speechRejected_intro.
Qed.

Lemma speech_reports_exhausted_witness :
  exists payload,
    speechRejected "Failed after 5 attempts: API Error 503: busy"
      (retryTrace (App2.API_URL_TTS "k") payload 0 5) initialState
      (App2.generateAndPlayAudio (H := exampleHost) "k"
         (alwaysAnswers 503 "Service Unavailable" "busy")
         (VStr "Rinse and place in recycling.") initialState).
Proof.
  refine (proj2 (speech_reports_exhausted_retries (H := exampleHost) "k"
                   (alwaysAnswers 503 "Service Unavailable" "busy")
                   (VStr "Rinse and place in recycling.") initialState _ _ _ _ _)).
  - discriminate.
  - reflexivity.
  - reflexivity.
  - left. reflexivity.
  - intros n. reflexivity.
Defined.

Lemma error_generating st : error (generating st) = error st.
Proof.
  unfold generating, pauseCurrent. cbn [audioRef setIsAudioPlaying setIsAudioGenerating].
  destruct (audioRef st) as [[src []]|]; reflexivity.
Qed.



Lemma prefixed_nonempty (s : string) : "Voice generation unavailable. " +:+ s <> "".
Proof. discriminate. Qed.

Section SpeechOutcome1.
Context `{Host}.
Variables (key : string) (env : Env).

Lemma generateAndPlayAudio1_outcome text st :
  truthy text = true -> notPlaying st ->
  speechOutcome 4 (playRejected env) st (App1.generateAndPlayAudio key env text st).
Proof.
  intros Htext Hguard. unfold App1.generateAndPlayAudio. rewrite Htext. cbn [negb].
  unfold notPlaying in Hguard. rewrite Hguard. cbv zeta. fold (generating st).
  clear Htext Hguard.
  unfold tryFinally, tryCatch, mbind, M_bind, lift, modify, throw.
  assert (Hfail : forall trace message, (fetchCount trace <= 4)%nat ->
    speechOutcome 4 (playRejected env) st
      (setIsAudioGenerating false
         (setError (Some ("Voice generation unavailable. " +:+ message))
            (addEvents trace (generating st))))).
  { intros trace message Hcount. split; [reflexivity|]. exists trace. split; [assumption|].
    left. eexists. split; [|apply speechRejected_intro]. apply prefixed_nonempty. }
  assert (Hnone : generating st = addEvents [] (generating st))
    by (destruct (generating st); unfold addEvents; simpl; by rewrite app_nil_r).
  destruct (getProp _ "name") as [voiceName|e];
    [|rewrite Hnone at 1; apply Hfail; simpl; lia].
  destruct (fetchWithRetry1_bounded key env (App1.API_URL key)
              (App1.speechPayload text voiceName) App1.MAX_RETRIES 0 (generating st))
    as (trace & Htrace & Hcount); [lia|].
  destruct (App1.fetchWithRetry _ _ _ _ _ _) as [[response|e] st1]; simpl in Htrace; subst st1;
    [|by apply Hfail].
  destruct (truthy _);
    [|by apply (Hfail trace "API failed to return audio data.")].
  destruct (base64ToArrayBuffer _) as [buffer|e]; [|by apply Hfail].
  destruct (Int16Array buffer) as [pcm16|e]; [|by apply Hfail].
  rewrite pcmToWav_outcome_returns.
  split; [reflexivity|]. exists trace. split; [assumption|]. right.
  exists (wavBlob pcm16 24000). unfold App1.play. cbn.
  destruct (playRejected env); cbn; (split; [reflexivity|]); (split; [reflexivity|]);
    by rewrite <- !app_assoc.
Qed.

End SpeechOutcome1.

Section SpeechOutcome2.
Context `{Host}.
Variables (key : string) (env : Env).

Lemma generateAndPlayAudio2_outcome text st :
  truthy text = true -> notPlaying st ->
  speechOutcome 6 (playRejected env) st (App2.generateAndPlayAudio key env text st).
Proof.
  intros Htext Hguard. unfold App2.generateAndPlayAudio. rewrite Htext. cbn [negb].
  unfold notPlaying in Hguard. rewrite Hguard. cbv zeta. fold (generating st).
  clear Htext Hguard.
  unfold tryFinally, tryCatch, mbind, M_bind, lift, modify, mret, M_ret, throw.
  assert (Hfail : forall trace e, (fetchCount trace <= 6)%nat ->
    speechOutcome 6 (playRejected env) st
      (setIsAudioGenerating false
         (setError (Some (if String.eqb (exn_message e) ""
                          then "Could not generate voice instructions."
                          else exn_message e))
            (addEvents trace (generating st))))).
  { intros trace e Hcount. split; [reflexivity|]. exists trace. split; [assumption|].
    left. eexists. split; [|apply speechRejected_intro]. by apply or_message_nonempty. }
  assert (Hnone : generating st = addEvents [] (generating st))
    by (destruct (generating st); unfold addEvents; simpl; by rewrite app_nil_r).
  destruct (getProp _ "name") as [voiceName|e];
    [|rewrite Hnone at 1; apply Hfail; simpl; lia].
  destruct (fetchWithRetry2_bounded key env (App2.API_URL_TTS key)
              (App2.speechPayload text voiceName) App2.MAX_RETRIES 0 (generating st))
    as (trace & Htrace & Hcount); [lia|].
  destruct (App2.fetchWithRetry _ _ _ _ _ _) as [[response|e] st1]; simpl in Htrace; subst st1;
    [|by apply Hfail].
  destruct (truthy _ && truthy _); [destruct (startsWith _ _) as [[]|e]|];
    try (by apply Hfail);
    try (by apply (Hfail trace (mkExn Error "TTS API failed to return audio data."))).
  destruct (matchRate _) as [digits|];
    [|by apply (Hfail trace (mkExn Error "Sample rate information missing from TTS mimeType."))].
  destruct (base64ToArrayBuffer _) as [buffer|e]; [|by apply Hfail].
  destruct (Int16Array buffer) as [pcm16|e]; [|by apply Hfail].
  rewrite pcmToWav_outcome_returns.
  split; [unfold App2.play, App2.playFailed; cbn; destruct (playRejected env); reflexivity|].
  exists trace. split; [assumption|]. right.
  exists (wavBlob pcm16 (parseInt digits)). unfold App2.play, App2.playFailed. cbn.
  destruct (playRejected env); cbn; (split; [reflexivity|]); (split; [reflexivity|]);
    by rewrite <- !app_assoc.
Qed.

End SpeechOutcome2.

(** X16. Whatever the server answers, a run of [generateAndPlayAudio] that
    gets past its guards ends with [isAudioGenerating] cleared, after at
    most [MAX_RETRIES + 1] requests (4 and 6), in one of two ways: a
    non-empty error is reported, the ref keeps the element it had (paused
    before the request was sent) and nothing plays; or the ref holds a new
    element on a WAV blob, created after the requests and followed by one
    call of [play]. *)
Theorem generateAndPlayAudio_ends_in_error_or_element `{Host} (key : string) (env : Env)
    (text : Value) (st : AppState) :
  truthy text = true -> notPlaying st ->
  speechOutcome 4 (playRejected env) st (App1.generateAndPlayAudio key env text st)
  /\ speechOutcome 6 (playRejected env) st (App2.generateAndPlayAudio key env text st).
Proof.
  intros Htext Hguard.
  split; [by apply generateAndPlayAudio1_outcome | by apply generateAndPlayAudio2_outcome].
Qed.

Lemma generateAndPlayAudio_ends_witness :
  speechOutcome 6 false initialState
    (App2.generateAndPlayAudio (H := exampleHost) "k"
       (alwaysAnswers 503 "Service Unavailable" "busy")
       (VStr "Rinse and place in recycling.") initialState).
Proof.
  exact (proj2 (generateAndPlayAudio_ends_in_error_or_element (H := exampleHost) "k"
                  (alwaysAnswers 503 "Service Unavailable" "busy")
                  (VStr "Rinse and place in recycling.") initialState eq_refl eq_refl)).
Defined.

(** X17. In the first version the promise of [play()] has no handler: when
    the browser refuses to play, the flow ends with [isAudioPlaying] set, no
    error reported and nothing playing, and a press of the audio button in
    that state only pauses the paused element: the flag stays set and no
    request is sent. *)
Theorem refused_play_leaves_the_flag_set `{Host} (key : string) (env : Env) (text : Value)
    (data : string) (mimeType : Value) (bytes : list Z) (st : AppState) :
  key <> "" -> truthy text = true -> notPlaying st ->
  knownLanguage (selectedLanguageCode st) -> data <> "" ->
  answersWith env (speechResponse (VStr data) mimeType) ->
  atob data = Return bytes -> Nat.even (length bytes) = true ->
  playRejected env = true ->
  let st' := App1.generateAndPlayAudio key env text st in
  isAudioPlaying st' = true
  /\ isAudioGenerating st' = false
  /\ ~ Playing st'
  /\ error st' = error st
  /\ forall env' p,
       let st'' := App1.handleAudioButtonClick key env' p st' in
       st'' = emit Pause st'
       /\ isAudioPlaying st'' = true
       /\ fetchCount (events st'') = fetchCount (events st').
Proof.
  intros Hkey Htext Hguard Hlang Hdata Hserver Hatob Heven Hrefused.
  destruct (generateAndPlayAudio1_plays key env text data mimeType bytes st
              Hkey Htext Hguard Hlang Hdata Hserver Hatob Heven) as (payload & Hrun).
  cbv zeta in Hrun |- *. rewrite Hrun. clear Hrun.
  unfold App1.play. rewrite Hrefused. cbn.
  split; [reflexivity|]. split; [reflexivity|].
  split; [intros (a & [= <-] & [=])|].
  split; [apply error_generating|].
  intros env' p. unfold App1.handleAudioButtonClick. cbn.
  split; [reflexivity|]. split; [reflexivity|].
  rewrite !fetchCount_app. simpl. lia.
Qed.

Lemma refused_play_witness :
  isAudioPlaying
    (App1.generateAndPlayAudio (H := exampleHost) "k"
       (mkEnv (fun _ => FetchResolved
                 (mkResponse 200 "OK" (Return (speechResponse (VStr "AAA=") VUndefined))))
              true)
       (VStr "Rinse and place in recycling.") initialState) = true.
Proof.
  refine (proj1 (refused_play_leaves_the_flag_set (H := exampleHost) "k"
                   (mkEnv (fun _ => FetchResolved
                             (mkResponse 200 "OK"
                                (Return (speechResponse (VStr "AAA=") VUndefined))))
                          true)
                   (VStr "Rinse and place in recycling.") "AAA=" VUndefined [0; 0]
                   initialState _ _ _ _ _ _ _ _ _)).
  - discriminate.
  - reflexivity.
  - reflexivity.
  - left. reflexivity.
  - discriminate.
  - reflexivity.
  - reflexivity.
  - reflexivity.
  - reflexivity.
Defined.

(** ** The playback state machine: the flag and the reset *)

Lemma synced_cells st st' : audioCells st' = audioCells st -> synced st -> synced st'.
Proof.
  unfold audioCells, synced, Playing. intros [= Hg Hp Hr]. rewrite Hg, Hp, Hr. tauto.
Qed.

Lemma synced_quiet st :
  isAudioGenerating st = false -> isAudioPlaying st = false -> ~ Playing st -> synced st.
Proof.
  intros Hg Hp Hquiet. split; [assumption|]. rewrite Hp. split; [discriminate | contradiction].
Qed.

Lemma synced_pauseCurrent st : synced st -> synced (pauseCurrent st).
Proof.
  intros [Hg Hp]. unfold pauseCurrent.
  destruct (audioRef st) as [[src []]|] eqn:Href.
  - eapply (synced_cells st); [reflexivity | by split].
  - apply synced_quiet; [assumption | reflexivity | intros (a & [= <-] & [=])].
  - by split.
Qed.

Lemma synced_audioEnded st : synced st -> synced (audioEnded st).
Proof.
  intros [Hg Hp]. unfold audioEnded.
  destruct (audioRef st) as [[src []]|] eqn:Href; try (by split).
  apply synced_quiet; [assumption | reflexivity | intros (a & [= <-] & [=])].
Qed.

Lemma synced_clearAll st : synced st -> synced (clearAll st).
Proof.
  intros [Hg Hp]. unfold clearAll, pauseCurrent.
  cbn [audioRef setIsLoading setError setPrediction setBase64Image].
  destruct (audioRef st) as [[src []]|] eqn:Href.
  - apply synced_quiet; [assumption| |intros (a & [=] & _)].
    cbn. destruct (isAudioPlaying st) eqn:Hflag; [|reflexivity].
    destruct (proj1 Hp eq_refl) as (a & Ha & Hplay). rewrite Href in Ha.
    injection Ha as <-. discriminate.
  - apply synced_quiet; [assumption | reflexivity | intros (a & [=] & _)].
  - eapply (synced_cells st); [reflexivity | by split].
Qed.

Section Synced2.
Context `{Host}.
Variable key : string.

Lemma synced_generateAndPlayAudio2 env text st :
  synced st -> synced (App2.generateAndPlayAudio key env text st).
Proof.
  intros Hst. unfold App2.generateAndPlayAudio.
  destruct (negb (truthy text)); [eapply (synced_cells st); [reflexivity | exact Hst]|].
  destruct (isAudioPlaying st && _); [by apply synced_pauseCurrent|]. cbv zeta.
  fold (generating st). pose proof (not_Playing_generating st) as Hquiet.
  unfold tryFinally, tryCatch, mbind, M_bind, lift, modify, mret, M_ret, throw.
  assert (Hfail : forall trace message,
    synced (setIsAudioGenerating false
              (setError message (addEvents trace (generating st))))).
  { intros trace message.
    apply synced_quiet; [reflexivity | apply isAudioPlaying_generating | exact Hquiet]. }
  assert (Hnone : generating st = addEvents [] (generating st))
    by (destruct (generating st); unfold addEvents; simpl; by rewrite app_nil_r).
  destruct (getProp _ "name") as [voiceName|e];
    [|rewrite Hnone at 1; apply Hfail].
  destruct (fetchWithRetry2_state key env (App2.API_URL_TTS key)
              (App2.speechPayload text voiceName) 0 (generating st)) as (trace & Htrace).
  destruct (App2.fetchWithRetry _ _ _ _ _ _) as [[response|e] st1]; simpl in Htrace; subst st1;
    [|apply Hfail].
  destruct (truthy _ && truthy _); [destruct (startsWith _ _) as [[]|e]|];
    try apply Hfail.
  destruct (matchRate _) as [digits|]; [|apply Hfail].
  destruct (base64ToArrayBuffer _) as [buffer|e]; [|apply Hfail].
  destruct (Int16Array buffer) as [pcm16|e]; [|apply Hfail].
  rewrite pcmToWav_outcome_returns.
  unfold App2.play, App2.playFailed. cbn.
  destruct (playRejected env); cbn.
  - apply synced_quiet; [reflexivity | reflexivity | intros (a & [= <-] & [=])].
  - split; [reflexivity|]. split; [intros _; by eexists | reflexivity].
Qed.

Lemma synced_step2 st st' : App2.step key st st' -> synced st -> synced st'.
Proof.
  intros [env p st0 Hp Hg Hm | st0 | st0 | env st0 | env image st0 | env frame st0
          | env code st0] Hst.
  - unfold App2.handleAudioButtonClick. destruct (isAudioPlaying st0 && _).
    + by apply synced_pauseCurrent.
    + by apply synced_generateAndPlayAudio2.
  - by apply synced_audioEnded.
  - by apply synced_clearAll.
  - eapply synced_cells; [apply analyzeWaste2_cells | assumption].
  - eapply synced_cells; [apply handleFileChange2_cells | assumption].
  - eapply synced_cells; [apply capturePhoto2_cells | assumption].
  - eapply synced_cells; [apply updateLanguage2_cells | assumption].
Qed.

Lemma synced_reachable2 st : App2.reachable key st -> synced st.
Proof.
  unfold App2.reachable. revert st. apply rtc_ind_r.
  - apply synced_quiet; [reflexivity | reflexivity | intros (a & [=] & _)].
  - intros st st' _ Hstep Hst. by apply (synced_step2 st st').
Qed.

End Synced2.

(** X18. Between two handlers, in every reachable state, no synthesis is
    under way; in the first version [isAudioPlaying] is set whenever an asset
    is playing, and in the second version it is set exactly when an asset is
    playing. *)
Theorem playback_flag_follows_the_element `{Host} (key : string) (st : AppState) :
  (App1.reachable key st ->
   isAudioGenerating st = false /\ (Playing st -> isAudioPlaying st = true))
  /\ (App2.reachable key st ->
      isAudioGenerating st = false /\ (isAudioPlaying st = true <-> Playing st)).
Proof.
  split; intros Hreach.
  - apply (settled_reachable1 key st Hreach).
  - apply (synced_reachable2 key st Hreach).
Qed.

Lemma playback_flag_witness :
  isAudioGenerating playingState = false
  /\ (isAudioPlaying playingState = true <-> Playing playingState).
Proof.
  exact (proj2 (playback_flag_follows_the_element (H := exampleHost) "k" playingState)
               playingState_reachable).
Defined.

(** Where a play request is a stop request. In the second version, which
    handles the promise of [play()], it is one in every reachable state in
    which [isAudioPlaying] is set; in the first version it is one in every
    reachable state in which an element is playing. The element is paused,
    no request is sent and the machine is idle afterwards. *)
Lemma play_request_stops_the_playing_element `{Host} (key : string) (env : Env)
    (p : Prediction) (st : AppState) :
  (App2.reachable key st -> isAudioPlaying st = true ->
   let st' := App2.handleAudioButtonClick key env p st in
   st' = pauseCurrent st
   /\ fetchCount (events st') = fetchCount (events st)
   /\ events st' = events st ++ [Pause]
   /\ Idle st' /\ ~ Playing st')
  /\ (App1.reachable key st -> Playing st ->
      let st' := App1.handleAudioButtonClick key env p st in
      st' = pauseCurrent st
      /\ fetchCount (events st') = fetchCount (events st)
      /\ events st' = events st ++ [Pause]
      /\ Idle st' /\ ~ Playing st').
Proof.
  split.
  - intros Hreach Hflag.
    destruct (synced_reachable2 key st Hreach) as [Hgen Hsync].
    destruct (stop_request st (proj1 Hsync Hflag) Hflag)
      as (Hguard & Hcount & Hevents & Hidle & Hsame & Hquiet & _).
    cbv zeta in *. unfold App2.handleAudioButtonClick. rewrite Hguard.
    split; [reflexivity|]. split; [exact Hcount|]. split; [exact Hevents|].
    split; [|exact Hquiet]. split; [by rewrite Hsame | exact Hidle].
  - intros Hreach Hplay.
    destruct (settled_reachable1 key st Hreach) as [Hgen Hflag].
    destruct (stop_request st Hplay (Hflag Hplay))
      as (Hguard & Hcount & Hevents & Hidle & Hsame & Hquiet & _).
    cbv zeta in *. unfold App1.handleAudioButtonClick. rewrite Hguard.
    split; [reflexivity|]. split; [exact Hcount|]. split; [exact Hevents|].
    split; [|exact Hquiet]. split; [by rewrite Hsame | exact Hidle].
Qed.

(** X19. [clearAll] leaves no image, no prediction, no error, no loading
    flag and no element in the ref, keeps the language, stops an asset that
    was playing (clearing [isAudioPlaying]), leaves [isAudioPlaying] as it was
    otherwise, sends no request, and is idempotent. *)
Theorem clearAll_resets_and_is_idempotent (st : AppState) :
  let st' := clearAll st in
  base64Image st' = VNull
  /\ prediction st' = None
  /\ error st' = None
  /\ isLoading st' = false
  /\ audioRef st' = None
  /\ selectedLanguageCode st' = selectedLanguageCode st
  /\ isAudioGenerating st' = isAudioGenerating st
  /\ (Playing st -> isAudioPlaying st' = false)
  /\ (~ Playing st -> isAudioPlaying st' = isAudioPlaying st)
  /\ fetchCount (events st') = fetchCount (events st)
  /\ clearAll st' = st'.
Proof.
  unfold clearAll, pauseCurrent, Playing.
  cbn [audioRef setIsLoading setError setPrediction setBase64Image].
  destruct (audioRef st) as [[src []]|] eqn:Href; cbn; rewrite ?Href;
    rewrite ?fetchCount_app; cbn; repeat split; try reflexivity; try lia.
  - intros (a & [= <-] & [=]).
  - intros Hquiet. exfalso. apply Hquiet. by eexists.
  - intros (a & [=] & _).
Qed.
